(** * RSGISLib: DEM tools, image-statistics units and calibration commands

    A shallow embedding of
    - [RSGISDEMTools.cpp] (slope, aspect, hill shade, shadow mask, ray
      incidence and exitance angles, hole filling),
    - the calculation-unit declarations of [RSGISImageStatistics.h],
    - the dataset handling of [RSGISCmdImageCalibration.cpp],
    followed by the properties established for them.

    C++ [float] and [double] values are IEEE-754 binary32 and binary64
    numbers, modelled with the Standard Library's [spec_float] and its
    round-to-nearest-even operations; an expression over [float] operands
    is evaluated in binary32 and one with a [double] operand in binary64,
    after the usual conversions.  The functions of the C maths library
    ([sin], [cos], [atan], [atan2], [acos]) are not part of the repository:
    they are a parameter of the embedding (record [libm]).  The members of
    the terrain units have the types of the constructor parameters that
    initialise them. *)

From Stdlib Require Import ZArith Bool String Lia.
From Stdlib Require Import Floats.SpecFloat.
From stdpp Require Import base option list strings gmap.

Local Open Scope string_scope.
Local Open Scope list_scope.
Local Open Scope Z_scope.

(** ** Exceptions and outcomes *)

(** The exception classes thrown in the modelled sources, with their
    [what()] message. *)
Inductive exn : Type :=
  | RSGISException (what : string)
  | RSGISImageException (what : string)
  | RSGISImageCalcException (what : string)
  | RSGISCmdException (what : string).

Definition what (e : exn) : string :=
  match e with
  | RSGISException m | RSGISImageException m
  | RSGISImageCalcException m | RSGISCmdException m => m
  end.

(** Outcome of a calculation-unit method: normal return, a thrown
    exception, or a read or write outside the arrays handed to it (which
    C++ leaves undefined). *)
Inductive outcome (A : Type) : Type :=
  | Ret (a : A)
  | Throw (e : exn)
  | Undefined.
Arguments Ret {A} a.
Arguments Throw {A} e.
Arguments Undefined {A}.

#[global] Instance outcome_ret : MRet outcome := fun _ a => Ret a.
#[global] Instance outcome_bind : MBind outcome := fun _ _ f c =>
  match c with
  | Ret a => f a
  | Throw e => Throw e
  | Undefined => Undefined
  end.
#[global] Instance outcome_fmap : FMap outcome := fun _ _ f c =>
  match c with
  | Ret a => Ret (f a)
  | Throw e => Throw e
  | Undefined => Undefined
  end.

(** ** IEEE-754 arithmetic *)

Definition float : Type := spec_float.   (* binary32 *)
Definition double : Type := spec_float.  (* binary64 *)

Module binary32.
Definition prec : Z := 24.
Definition emax : Z := 128.
Definition add : float -> float -> float := SFadd prec emax.
Definition sub : float -> float -> float := SFsub prec emax.
Definition mul : float -> float -> float := SFmul prec emax.
Definition div : float -> float -> float := SFdiv prec emax.
  (** [(float) n] for an integer [n]. *)
Definition of_Z (n : Z) : float := binary_normalize prec emax n 0 false.
  (** [(float) x] for a double [x]: rounds to nearest, ties to even. *)
Definition of_double (x : double) : float :=
    match x with
    | S754_finite s m e => binary_round prec emax s m e
    | _ => x
    end.
Definition valid (x : float) : bool := valid_binary prec emax x.
End binary32.

Module binary64.
Definition prec : Z := 53.
Definition emax : Z := 1024.
Definition add : double -> double -> double := SFadd prec emax.
Definition sub : double -> double -> double := SFsub prec emax.
Definition mul : double -> double -> double := SFmul prec emax.
Definition div : double -> double -> double := SFdiv prec emax.
Definition sqrt : double -> double := SFsqrt prec emax.
  (** [(double) n] for an integer [n]. *)
Definition of_Z (n : Z) : double := binary_normalize prec emax n 0 false.
  (** [(double) x] for a float [x]: exact. *)
Definition of_float (x : float) : double :=
    match x with
    | S754_finite s m e => binary_round prec emax s m e
    | _ => x
    end.
Definition valid (x : double) : bool := valid_binary prec emax x.
End binary64.

(** Comparisons do not depend on the format. *)
Definition is_nan (x : spec_float) : bool :=
  match x with S754_nan => true | _ => false end.
Definition is_finite (x : spec_float) : bool :=
  match x with S754_zero _ | S754_finite _ _ _ => true | _ => false end.
Definition is_zero (x : spec_float) : bool :=
  match x with S754_zero _ => true | _ => false end.

Declare Scope binary32_scope.
Delimit Scope binary32_scope with f32.
Infix "+" := binary32.add : binary32_scope.
Infix "-" := binary32.sub : binary32_scope.
Infix "*" := binary32.mul : binary32_scope.
Infix "/" := binary32.div : binary32_scope.

Declare Scope binary64_scope.
Delimit Scope binary64_scope with f64.
Infix "+" := binary64.add : binary64_scope.
Infix "-" := binary64.sub : binary64_scope.
Infix "*" := binary64.mul : binary64_scope.
Infix "/" := binary64.div : binary64_scope.
Notation "- x" := (SFopp x) : binary64_scope.
Infix "<?" := SFltb : binary64_scope.
Infix "<=?" := SFleb : binary64_scope.
Infix "=?" := SFeqb : binary64_scope.

(** [floor(x)] converted to [int]; [None] where the conversion is
    undefined (NaN, infinities). *)
Definition floor_to_int (x : double) : option Z :=
  match x with
  | S754_zero _ => Some 0
  | S754_finite s m e =>
      Some (if (0 <=? e)%Z then cond_Zopp s (Z.pos m * 2 ^ e)
            else cond_Zopp s (Z.pos m) `div` 2 ^ (- e))
  | _ => None
  end.

(** Constants of [<cmath>] and of the sources. *)
Definition M_PI : double := S754_finite false 7074237752028440 (-51).
Definition radiansToDegrees : double := (binary64.of_Z 180 / M_PI)%f64.
Definition degreesToRadians : double := (M_PI / binary64.of_Z 180)%f64.

(** ** The C maths library *)

Record libm : Type := Libm {
  sin : double -> double;
  cos : double -> double;
  atan : double -> double;
  acos : double -> double;
  atan2 : double -> double -> double
}.

(** ** Arrays and integers *)

(** [unsigned int] and [int] values are integers; the conversion of an
    [int] to [unsigned int] is written out. *)
Definition to_unsigned (n : Z) : Z := n `mod` 2 ^ 32.

(** [band < numBands] with [band] an [unsigned int] and [numBands] an
    [int]: the usual arithmetic conversions turn [numBands] into an
    [unsigned int]. *)
Definition band_lt (band numBands : Z) : bool := (band <? to_unsigned numBands)%Z.

(** [a[i]] for an integer index. *)
Definition index {A} (a : list A) (i : Z) : option A :=
  if (i <? 0)%Z then None else a !! Z.to_nat i.

(** [dataBlock[b][i][j]]: a [float***] holding [numBands] windows of
    [winSize] rows of [winSize] values. *)
Definition rd (dataBlock : list (list (list float))) (b i j : Z) : outcome float :=
  match index dataBlock b with
  | Some w =>
      match index w i with
      | Some r => match index r j with Some v => Ret v | None => Undefined end
      | None => Undefined
      end
  | None => Undefined
  end.

(** [output[i] = v]. *)
Definition wr (output : list float) (i : nat) (v : float) : outcome (list float) :=
  if decide (i < length output)%nat then Ret (<[i:=v]> output) else Undefined.

(** Arithmetic on values that are being read from the window. *)
Definition lift2 (f : float -> float -> float) (a b : outcome float) : outcome float :=
  x ← a; y ← b; mret (f x y).

Declare Scope window_scope.
Delimit Scope window_scope with win.
Infix "+" := (lift2 binary32.add) : window_scope.
Infix "-" := (lift2 binary32.sub) : window_scope.
Infix "/" := (lift2 binary32.div) : window_scope.

(** [a[i] = v] on an array of any element type, with an integer index. *)
Definition store {A} (a : list A) (i : Z) (v : A) : outcome (list A) :=
  if (0 <=? i)%Z && (i <? Z.of_nat (length a))%Z then Ret (<[Z.to_nat i:=v]> a)
  else Undefined.

(** The conversion of an integer to [size_t], an unsigned 64-bit integer. *)
Definition to_size_t (n : Z) : Z := n `mod` 2 ^ 64.

(** ** RSGISDEMTools.cpp *)

Definition window_size_message : string :=
  "Window size must be equal to 3 for the calculate of slope.".
Definition band_message : string :=
  "Specified image band is not within the image.".

(** The two guards that open every 3x3 terrain unit. *)
Definition check_window (band numBands winSize : Z) : outcome unit :=
  if negb (winSize =? 3)%Z then Throw (RSGISImageCalcException window_size_message)
  else if negb (band_lt band numBands) then Throw (RSGISImageCalcException band_message)
  else Ret tt.

(** The gradient text shared by the slope computations
    ([dx]: west column minus east column, [dy]: south row minus north row),
    evaluated in [float] and stored in a [double]. *)
Definition slope_dx (d : Z -> Z -> outcome float) (ewRes : float) : outcome double :=
  binary64.of_float <$>
    (((d 0 0 + d 1 0 + d 1 0 + d 2 0) - (d 0 2 + d 1 2 + d 1 2 + d 2 2)) / Ret ewRes)%win.

Definition slope_dy (d : Z -> Z -> outcome float) (nsRes : float) : outcome double :=
  binary64.of_float <$>
    (((d 2 0 + d 2 1 + d 2 1 + d 2 2) - (d 0 0 + d 0 1 + d 0 1 + d 0 2)) / Ret nsRes)%win.

(** The gradient text shared by the aspect computations
    ([dx]: east column minus west column, [dy] as for the slope). *)
Definition aspect_dx (d : Z -> Z -> outcome float) (ewRes : float) : outcome double :=
  binary64.of_float <$>
    (((d 0 2 + d 1 2 + d 1 2 + d 2 2) - (d 0 0 + d 1 0 + d 1 0 + d 2 0)) / Ret ewRes)%win.

Definition aspect_dy (d : Z -> Z -> outcome float) (nsRes : float) : outcome double :=
  slope_dy d nsRes.

(** [slopeRad = atan(sqrt((dx * dx) + (dy * dy))/8)]. *)
Definition slope_radians (M : libm) (dx dy : double) : double :=
  atan M (binary64.sqrt ((dx * dx) + (dy * dy)) / binary64.of_Z 8)%f64.

(** The aspect in degrees, with its flat-area sentinel and its wrap into
    the circle, as every aspect computation of the file writes it. *)
Definition aspect_degrees (M : libm) (dx dy : double) : double :=
  let aspect := (atan2 M (- dx) dy * radiansToDegrees)%f64 in
  let aspect :=
    if (dx =? binary64.of_Z 0)%f64 && (dy =? binary64.of_Z 0)%f64
    then S754_nan (* Flat area *) else aspect in
  let aspect :=
    if (aspect <? binary64.of_Z 0)%f64 then (aspect + binary64.of_Z 360)%f64 else aspect in
  let aspect :=
    if (aspect =? binary64.of_Z 360)%f64 then binary64.of_Z 0 else aspect in
  aspect.

Module RSGISCalcSlope.
Record t : Type := new { band : Z; ewRes : float; nsRes : float; outType : Z }.

Definition calcImageValue (M : libm) (this : t) (dataBlock : list (list (list float)))
      (numBands winSize : Z) (output : list float) : outcome (list float) :=
    _ ← check_window (band this) numBands winSize;
    let d := rd dataBlock (band this) in
    dx ← slope_dx d (ewRes this);
    dy ← slope_dy d (nsRes this);
    let slopeRad := slope_radians M dx dy in
    if (outType this =? 0)%Z
    then wr output 0 (binary32.of_double (slopeRad * radiansToDegrees)%f64)
    else wr output 0 (binary32.of_double slopeRad).
End RSGISCalcSlope.

Module RSGISCalcAspect.
Record t : Type := new { band : Z; ewRes : float; nsRes : float }.

  (** The value of the local [aspect] when it is stored. *)
Definition aspect (M : libm) (this : t) (dataBlock : list (list (list float)))
    : outcome double :=
    let d := rd dataBlock (band this) in
    dx ← aspect_dx d (ewRes this);
    dy ← aspect_dy d (nsRes this);
    mret (aspect_degrees M dx dy).

Definition calcImageValue (M : libm) (this : t) (dataBlock : list (list (list float)))
      (numBands winSize : Z) (output : list float) : outcome (list float) :=
    _ ← check_window (band this) numBands winSize;
    aspect ← aspect M this dataBlock;
    wr output 0 (binary32.of_double aspect).
End RSGISCalcAspect.

Module RSGISCalcSlopeAspect.
Record t : Type := new { band : Z; ewRes : float; nsRes : float }.

  (** The slope in degrees goes to [output[0]] before the aspect is
      computed, and the aspect to [output[1]]. *)
Definition calcImageValue (M : libm) (this : t) (dataBlock : list (list (list float)))
      (numBands winSize : Z) (output : list float) : outcome (list float) :=
    _ ← check_window (band this) numBands winSize;
    let d := rd dataBlock (band this) in
    dxSlope ← slope_dx d (ewRes this);
    dySlope ← slope_dy d (nsRes this);
    let slopeRad := slope_radians M dxSlope dySlope in
    output ← wr output 0 (binary32.of_double (slopeRad * radiansToDegrees)%f64);
    dxAspect ← aspect_dx d (ewRes this);
    dyAspect ← aspect_dy d (nsRes this);
    wr output 1 (binary32.of_double (aspect_degrees M dxAspect dyAspect)).
End RSGISCalcSlopeAspect.

(** The gradient of the hill shade: both differences are divided by eight
    times the resolution, and [dy] is the north row minus the south row. *)
Definition shade_dx (d : Z -> Z -> outcome float) (ewRes : float) : outcome double :=
  binary64.of_float <$>
    (((d 0 2 + d 1 2 + d 1 2 + d 2 2) - (d 0 0 + d 1 0 + d 1 0 + d 2 0))
     / Ret (ewRes * binary32.of_Z 8)%f32)%win.

Definition shade_dy (d : Z -> Z -> outcome float) (nsRes : float) : outcome double :=
  binary64.of_float <$>
    (((d 0 0 + d 0 1 + d 0 1 + d 0 2) - (d 2 0 + d 2 1 + d 2 1 + d 2 2))
     / Ret (nsRes * binary32.of_Z 8)%f32)%win.

Module RSGISCalcHillShade.
Record t : Type := new {
    band : Z; ewRes : float; nsRes : float; sunZenith : float; sunAzimuth : float
  }.

Definition calcImageValue (M : libm) (this : t) (dataBlock : list (list (list float)))
      (numBands winSize : Z) (output : list float) : outcome (list float) :=
    _ ← check_window (band this) numBands winSize;
    let d := rd dataBlock (band this) in
    dx ← shade_dx d (ewRes this);
    dy ← shade_dy d (nsRes this);
    let xx_plus_yy := (dx * dx + dy * dy)%f64 in
    (* aspect... *)
    let aspect := atan2 M dy dx in
    (* shade value *)
    let sunZenith := binary64.of_float (sunZenith this) in
    let sunAzimuth := binary64.of_float (sunAzimuth this) in
    let cang :=
      ((sin M (sunZenith * degreesToRadians) -
        cos M (sunZenith * degreesToRadians) * binary64.sqrt xx_plus_yy *
        sin M (aspect - (sunAzimuth - M_PI / binary64.of_Z 2 * degreesToRadians))) /
       binary64.sqrt (binary64.of_Z 1 + binary64.of_Z 1 * xx_plus_yy))%f64 in
    let cang :=
      if (cang <=? binary64.of_Z 0)%f64 then binary64.of_Z 1
      else (binary64.of_Z 1 + (binary64.of_Z 254 * cang))%f64 in
    wr output 0 (binary32.of_double cang).
End RSGISCalcHillShade.

(** The parts of GEOS that the shadow mask reads. *)
Module geos.
Record Coordinate : Type := { x : double; y : double; z : double }.
Record Envelope : Type := {
    getMinX : double; getMaxX : double; getMinY : double; getMaxY : double
  }.
End geos.

(** A pixel under a ray, as [RSGISExtractImagePixelsOnLine] returns it: the
    point of the ray over the pixel and the value of the image there (the
    members that the shadow mask reads). *)
Record ImagePixelValuePt : Type := { pt : geos.Coordinate; value : float }.

Module RSGISCalcShadowBinaryMask.
  (** [demWidth], [demHeight] and [sunRange] only enter the position of the
      sun, which [calcImageValue] computes (lines 299 to 312) and does not
      use. *)
Record t : Type := new {
    inputImage : nat; band : Z; ewRes : float; nsRes : float;
    sunZenith : float; sunAzimuth : float; maxElevHeight : float
  }.

Section Unit.
    (** [RSGISExtractImagePixelsOnLine::getImagePixelValues] is not in the
        sources at hand. *)
Variable getImagePixelValues :
      nat -> Z -> geos.Coordinate -> double -> double -> float
      -> outcome (list ImagePixelValuePt).

    (** The loop of lines 331 to 338 over the pixels that are left. *)
Fixpoint intersects (iterPxls : list ImagePixelValuePt) (outputValue : float) : float :=
      match iterPxls with
      | [] => outputValue
      | p :: iterPxls =>
          if (geos.z (pt p) <? value p)%f64 then binary32.of_Z 0 (* break *)
          else intersects iterPxls outputValue
      end.

Definition calcImageValue (this : t) (bandValues : list float) (numBands : Z)
        (output : list float) (extent : geos.Envelope) : outcome (list float) :=
      let outputValue := binary32.of_Z 1 in
      (* Location of active point. *)
      let x := (geos.getMinX extent
                + (geos.getMaxX extent - geos.getMinX extent) / binary64.of_Z 2)%f64 in
      let y := (geos.getMinY extent
                + (geos.getMaxY extent - geos.getMinY extent) / binary64.of_Z 2)%f64 in
      match index bandValues (to_unsigned (band this - 1)) with
      | None => Undefined
      | Some z =>
          let z := binary64.of_float z in
          let pxlPt := {| geos.x := x; geos.y := y; geos.z := z |} in
          imagePxlPts ← getImagePixelValues (inputImage this) (band this) pxlPt
                          (binary64.of_float (sunAzimuth this) * degreesToRadians)%f64
                          (binary64.of_float (sunZenith this) * degreesToRadians)%f64
                          (maxElevHeight this);
          (* Check whether pixel intersects with ray. *)
          let outputValue := intersects imagePxlPts outputValue in
          wr output 0 outputValue
      end.
End Unit.
End RSGISCalcShadowBinaryMask.

(** The unit vector of the surface and its angle to a ray of the given
    zenith and azimuth, as the incidence and exitance units compute it:
    [acos((pA*rA)+(pB*rB)+(pC*rC)) * radiansToDegrees], stored in a
    [float]. *)
Definition ray_angle (M : libm) (slope aspect : double) (zenith azimuth : float) : float :=
  let zenith := binary64.of_float zenith in
  let azimuth := binary64.of_float azimuth in
  (* UNIT VECTOR FOR SURFACE *)
  let pA := (sin M (slope * degreesToRadians) * cos M (aspect * degreesToRadians))%f64 in
  let pB := (sin M (slope * degreesToRadians) * sin M (aspect * degreesToRadians))%f64 in
  let pC := cos M (slope * degreesToRadians)%f64 in
  (* UNIT VECTOR FOR THE RAY *)
  let rA := (sin M (zenith * degreesToRadians) * cos M (azimuth * degreesToRadians))%f64 in
  let rB := (sin M (zenith * degreesToRadians) * sin M (azimuth * degreesToRadians))%f64 in
  let rC := cos M (zenith * degreesToRadians)%f64 in
  binary32.of_double (acos M ((pA * rA) + (pB * rB) + (pC * rC)) * radiansToDegrees)%f64.

(** The slope (degrees) and aspect (degrees) of the window, as both ray
    units compute them before the unit vectors. *)
Definition slope_and_aspect (M : libm) (dataBlock : list (list (list float)))
    (band : Z) (ewRes nsRes : float) : outcome (double * double) :=
  let d := rd dataBlock band in
  dxSlope ← slope_dx d ewRes;
  dySlope ← slope_dy d nsRes;
  let slopeRad := slope_radians M dxSlope dySlope in
  let slope := (slopeRad * radiansToDegrees)%f64 in
  dxAspect ← aspect_dx d ewRes;
  dyAspect ← aspect_dy d nsRes;
  mret (slope, aspect_degrees M dxAspect dyAspect).

Module RSGISCalcRayIncidentAngle.
Record t : Type := new {
    band : Z; ewRes : float; nsRes : float; sunZenith : float; sunAzimuth : float
  }.

  (** [outputValue] after the assignment of line 451, before the NaN test. *)
Definition incidence (M : libm) (this : t) (dataBlock : list (list (list float)))
    : outcome float :=
    '(slope, aspect) ← slope_and_aspect M dataBlock (band this) (ewRes this) (nsRes this);
    mret (ray_angle M slope aspect (sunZenith this) (sunAzimuth this)).

Definition calcImageValue (M : libm) (this : t) (dataBlock : list (list (list float)))
      (numBands winSize : Z) (output : list float) : outcome (list float) :=
    _ ← check_window (band this) numBands winSize;
    outputValue ← incidence M this dataBlock;
    let outputValue := if is_nan outputValue then sunZenith this else outputValue in
    wr output 0 outputValue.
End RSGISCalcRayIncidentAngle.

Module RSGISCalcRayExitanceAngle.
Record t : Type := new {
    band : Z; ewRes : float; nsRes : float; viewZenith : float; viewAzimuth : float
  }.

  (** [outputValue] after the assignment of line 558, before the NaN test. *)
Definition exitance (M : libm) (this : t) (dataBlock : list (list (list float)))
    : outcome float :=
    '(slope, aspect) ← slope_and_aspect M dataBlock (band this) (ewRes this) (nsRes this);
    mret (ray_angle M slope aspect (viewZenith this) (viewAzimuth this)).

Definition calcImageValue (M : libm) (this : t) (dataBlock : list (list (list float)))
      (numBands winSize : Z) (output : list float) : outcome (list float) :=
    _ ← check_window (band this) numBands winSize;
    outputValue ← exitance M this dataBlock;
    let outputValue := if is_nan outputValue then binary32.of_Z 0 else outputValue in
    wr output 0 outputValue.
End RSGISCalcRayExitanceAngle.

Module RSGISCalcRayIncidentAndExitanceAngles.
Record t : Type := new {
    band : Z; ewRes : float; nsRes : float;
    sunZenith : float; sunAzimuth : float; viewZenith : float; viewAzimuth : float
  }.

Definition calcImageValue (M : libm) (this : t) (dataBlock : list (list (list float)))
      (numBands winSize : Z) (output : list float) : outcome (list float) :=
    _ ← check_window (band this) numBands winSize;
    '(slope, aspect) ← slope_and_aspect M dataBlock (band this) (ewRes this) (nsRes this);
    let incidenceAngle := ray_angle M slope aspect (sunZenith this) (sunAzimuth this) in
    let incidenceAngle :=
      if is_nan incidenceAngle then sunZenith this else incidenceAngle in
    let existanceAngle := ray_angle M slope aspect (viewZenith this) (viewAzimuth this) in
    let existanceAngle :=
      if is_nan existanceAngle then binary32.of_Z 0 else existanceAngle in
    output ← wr output 0 incidenceAngle;
    wr output 1 existanceAngle.
End RSGISCalcRayIncidentAndExitanceAngles.

Module RSGISFillDEMHoles.
  (** [numOutBands] is the member of the base class [RSGISCalcImageValue];
      the constructor passes 3 to it.  [change] is left as it is found. *)
Record t : Type := Build {
    numOutBands : Z; holeValue : float; nodata : float; change : bool
  }.

Definition new (holeValue nodata : float) (change : bool) : t :=
    {| numOutBands := 3; holeValue := holeValue; nodata := nodata; change := change |}.

  (** [int midPoint = floor(((float)winSize)/2.0)]. *)
Definition midPoint (winSize : Z) : option Z :=
    floor_to_int (binary64.of_float (binary32.of_Z winSize) / binary64.of_Z 2)%f64.

Definition calcImageValue (this : t) (dataBlock : list (list (list float)))
      (numBands winSize : Z) (output : list float) : outcome (t * list float) :=
    if negb (numBands =? numOutBands this)%Z then
      Throw (RSGISImageCalcException "There should be 3 input and 3 output image bands.")
    else
      match midPoint winSize with
      | None => Undefined
      | Some midPoint =>
          centre ← rd dataBlock 0 midPoint midPoint;
          if (centre =? holeValue this)%f64 then mret (this, output)
          else
            v0 ← rd dataBlock 0 midPoint midPoint;
            output ← wr output 0 v0;
            v1 ← rd dataBlock 1 midPoint midPoint;
            output ← wr output 1 v1;
            v2 ← rd dataBlock 2 midPoint midPoint;
            output ← wr output 2 v2;
            mret (this, output)
      end.


Definition resetChange (this : t) : t :=
    {| numOutBands := numOutBands this; holeValue := holeValue this;
       nodata := nodata this; change := false |}.
End RSGISFillDEMHoles.

Module RSGISInFillDerivedHoles.
Record t : Type := new { holeValue : float }.

  (** [int midPoint = floor(((float)winSize)/2.0)], as in [RSGISFillDEMHoles]. *)
Definition midPoint (winSize : Z) : option Z := RSGISFillDEMHoles.midPoint winSize.

  (** [for(...; j < 3; ++j) if(dataBlock[0][i][j] == this->holeValue)
      { foundNoData = true; break; }] over the columns [js] that are left. *)
Fixpoint scan_row (row : Z -> outcome float) (holeValue : float) (js : list Z)
      (foundNoData : bool) : outcome bool :=
    match js with
    | [] => mret foundNoData
    | j :: js =>
        v ← row j;
        if (v =? holeValue)%f64 then mret true (* break *)
        else scan_row row holeValue js foundNoData
    end.

  (** The outer loop over the rows [is_] that are left: the [break] leaves
      the inner loop only. *)
Fixpoint scan_rows (band0 : Z -> Z -> outcome float) (holeValue : float) (is_ : list Z)
      (foundNoData : bool) : outcome bool :=
    match is_ with
    | [] => mret foundNoData
    | i :: is_ =>
        foundNoData ← scan_row (band0 i) holeValue [0; 1; 2] foundNoData;
        scan_rows band0 holeValue is_ foundNoData
    end.

Definition calcImageValue (this : t) (dataBlock : list (list (list float)))
      (numBands winSize : Z) (output : list float) : outcome (list float) :=
    match midPoint winSize with
    | None => Undefined
    | Some midPoint =>
        foundNoData ← scan_rows (rd dataBlock 0) (holeValue this) [0; 1; 2] false;
        if (foundNoData : bool) then
          (v ← rd dataBlock 2 midPoint midPoint; wr output 0 v)
        else
          (v ← rd dataBlock 1 midPoint midPoint; wr output 0 v)
    end.
End RSGISInFillDerivedHoles.

(** ** RSGISImageStatistics.h: the per-pixel statistics unit *)

Record OGREnvelope : Type := {
  MinX : double; MaxX : double; MinY : double; MaxY : double
}.

Module RSGISCalcImageStatistics.
  (** The protected members of the class; pointer members are arrays with
      one entry per input band. *)
Record t : Type := {
    useNoData : bool; noDataVal : float; onePassSD : bool; calcSD : bool;
    numInputBands : Z; firstMean : list bool; firstSD : list bool;
    calcMean : bool; n : list Z; mean : list double; meanSum : list double;
    sumSq : list double; min : list double; max : list double;
    sumDiffZ : list double; diffZ : double
  }.

  (** A call of one of the overloads that the class declares, in the order
      of the header (lines 259 to 268), with its arguments. *)
Inductive call : Type :=
    | bands_output (bandValues : list float) (numBands : Z) (output : list double)
    | bands (bandValues : list float) (numBands : Z)
    | ints_floats (intBandValues : list Z) (numIntVals : Z)
        (floatBandValues : list float) (numfloatVals : Z)
    | ints_floats_output (intBandValues : list Z) (numIntVals : Z)
        (floatBandValues : list float) (numfloatVals : Z) (output : list double)
    | ints_floats_extent (intBandValues : list Z) (numIntVals : Z)
        (floatBandValues : list float) (numfloatVals : Z) (extent : OGREnvelope)
    | bands_extent (bandValues : list float) (numBands : Z) (extent : OGREnvelope)
    | bands_output_extent (bandValues : list float) (numBands : Z)
        (output : list double) (extent : OGREnvelope)
    | window_output (dataBlock : list (list (list float))) (numBands winSize : Z)
        (output : list double)
    | window_output_extent (dataBlock : list (list (list float))) (numBands winSize : Z)
        (output : list double) (extent : OGREnvelope)
    | window_condition (dataBlock : list (list (list float))) (numBands winSize : Z)
        (output : list double).

  (** The overload whose body is not inline: the unit implements it. *)
Definition implemented (c : call) : bool :=
    match c with bands _ _ => true | _ => false end.

  (** The output array a call hands over, if it has one. *)
Definition output_of (c : call) : option (list double) :=
    match c with
    | bands_output _ _ o | ints_floats_output _ _ _ _ o
    | bands_output_extent _ _ o _ | window_output _ _ _ o
    | window_output_extent _ _ _ o _ | window_condition _ _ _ o => Some o
    | _ => None
    end.

Section Unit.
    (** The body of [calcImageValue(float *bandValues, int numBands)] is in
        [RSGISImageStatistics.cpp]. *)
Variable accumulate : t -> list float -> Z -> outcome t.

    (** Result of a call: the unit and the output array after it. *)
Definition calcImageValue (this : t) (c : call)
      : outcome (t * option (list double)) :=
      match c with
      | bands_output _ _ _ => Throw (RSGISImageCalcException "Not implemented")
      | bands bandValues numBands =>
          this ← accumulate this bandValues numBands; mret (this, None)
      | ints_floats _ _ _ _ => Throw (RSGISImageCalcException "Not implemented")
      | ints_floats_output _ _ _ _ _ => Throw (RSGISImageCalcException "Not implemented")
      | ints_floats_extent _ _ _ _ _ => Throw (RSGISImageCalcException "Not implemented")
      | bands_extent _ _ _ => Throw (RSGISImageCalcException "Not implemented")
      | bands_output_extent _ _ _ _ => Throw (RSGISImageCalcException "Not implemented")
      | window_output _ _ _ _ => Throw (RSGISImageCalcException "Not implemented")
      | window_output_extent _ _ _ _ _ => Throw (RSGISImageCalcException "No implemented")
      | window_condition _ _ _ _ => Throw (RSGISImageCalcException "Not implemented")
      end.
End Unit.
End RSGISCalcImageStatistics.

(** ** RSGISCmdImageCalibration.cpp: dataset handling *)

(** What GDAL reports of an image file. *)
Record image : Type := {
  rasterCount : Z;       (* [GetRasterCount()] *)
  integerType : bool     (* the data type of band 1 is an integer type *)
}.

(** The state of the raster library during a command: the images that
    [GDALOpen] can open, the dataset handles that are open, the next
    handle, and the runs of the calculation engine so far (input handles
    and output image). *)
Record GDAL : Type := {
  files : gmap string image;
  datasets_open : gmap nat string;
  next_handle : nat;
  runs : list (list nat * string)
}.

Inductive result (A : Type) : Type :=
  | Ok (a : A)
  | Raised (e : exn).
Arguments Ok {A} a.
Arguments Raised {A} e.

Definition cmd (A : Type) : Type := GDAL -> result A * GDAL.

#[global] Instance cmd_ret : MRet cmd := fun _ a w => (Ok a, w).
#[global] Instance cmd_bind : MBind cmd := fun _ _ f c w =>
  match c w with
  | (Ok a, w') => f a w'
  | (Raised e, w') => (Raised e, w')
  end.

Definition throw {A} (e : exn) : cmd A := fun w => (Raised e, w).

(** [try { c } catch(RSGISException &e) { throw RSGISCmdException(e.what()); }
    catch(std::exception &e) { throw RSGISCmdException(e.what()); }] *)
Definition try_cmd {A} (c : cmd A) : cmd A := fun w =>
  match c w with
  | (Ok a, w') => (Ok a, w')
  | (Raised e, w') => (Raised (RSGISCmdException (what e)), w')
  end.

(** [GDALOpen(path, GA_ReadOnly)]: [None] is the NULL handle. *)
Definition GDALOpen (path : string) : cmd (option nat) := fun w =>
  match files w !! path with
  | Some _ =>
      (Ok (Some (next_handle w)),
       {| files := files w;
          datasets_open := <[next_handle w := path]> (datasets_open w);
          next_handle := S (next_handle w);
          runs := runs w |})
  | None => (Ok None, w)
  end.

Definition GDALClose (h : nat) : cmd unit := fun w =>
  (Ok tt,
   {| files := files w; datasets_open := delete h (datasets_open w);
      next_handle := next_handle w; runs := runs w |}).

(** The image behind an open handle. *)
Definition image_of (h : nat) (w : GDAL) : option image :=
  datasets_open w !! h ≫= (files w !!.).

Definition GetRasterCount (h : nat) : cmd Z := fun w =>
  (Ok (default 0 (rasterCount <$> image_of h w)), w).

Definition GetRasterDataTypeIsInteger (h : nat) : cmd bool := fun w =>
  (Ok (default false (integerType <$> image_of h w)), w).

Section Commands.
  (** [RSGISCalcImage::calcImage] is not in the sources at hand: whether a
      run over the given input handles throws is left to [engine]. A run
      does not close its inputs. *)
Variable engine : GDAL -> list nat -> string -> option exn.

Definition calcImage (datasets : list nat) (outputImage : string) : cmd unit := fun w =>
    let w' := {| files := files w; datasets_open := datasets_open w;
                 next_handle := next_handle w;
                 runs := runs w ++ [(datasets, outputImage)] |} in
    match engine w datasets outputImage with
    | Some e => (Raised e, w')
    | None => (Ok tt, w')
    end.

  (** The members of [CmdsLandsatRadianceGainsOffsets] that the command
      reads. *)
Record CmdsLandsatRadianceGainsOffsets : Type := {
    imagePath : string; bandName : string; band : Z;
    lMax : float; lMin : float; qCalMax : float; qCalMin : float
  }.

  (** The loop of lines 138 to 166: [datasets] and [lsRadGainOffs_band]
      collect [datasets[i]] and [lsRadGainOffs[i].band]. *)
Fixpoint open_landsat_bands (iterBands : list CmdsLandsatRadianceGainsOffsets)
      (datasets : list nat) (lsRadGainOffs_band : list Z) (totalNumRasterBands : Z)
    : cmd (list nat * list Z) :=
    match iterBands with
    | [] => mret (datasets, lsRadGainOffs_band)
    | b :: iterBands =>
        ds ← GDALOpen (imagePath b);
        match ds with
        | None => throw (RSGISImageException ("Could not open image " +:+ imagePath b))
        | Some ds =>
            numRasterBands ← GetRasterCount ds;
            let numRasterBands := to_unsigned numRasterBands in
            if (numRasterBands <? band b)%Z then
              throw (RSGISImageException
                       "You have specified a band which is not within the image")
            else
              open_landsat_bands iterBands (datasets ++ [ds])
                (lsRadGainOffs_band
                   ++ [to_unsigned (totalNumRasterBands + band b - 1)])
                (to_unsigned (totalNumRasterBands + numRasterBands))
        end
    end.

  (** [for(i = 0; i < numBands; ++i) GDALClose(datasets[i]);] *)
Fixpoint close_all (datasets : list nat) : cmd unit :=
    match datasets with
    | [] => mret tt
    | ds :: datasets => _ ← GDALClose ds; close_all datasets
    end.

Definition executeConvertLandsat2Radiance (outputImage gdalFormat : string)
      (landsatRadGainOffs : list CmdsLandsatRadianceGainsOffsets) : cmd unit :=
    try_cmd (
      '(datasets, _) ← open_landsat_bands landsatRadGainOffs [] [] 0;
      _ ← calcImage datasets outputImage;
      close_all datasets).

  (** The dataset handling of [executeConvertRadiance2TOARefl]; the solar
      distance and the calculation unit are built without touching a
      dataset. *)
Definition executeConvertRadiance2TOARefl (inputImage outputImage gdalFormat : string)
      (numBands : Z) : cmd unit :=
    try_cmd (
      ds ← GDALOpen inputImage;
      match ds with
      | None => throw (RSGISImageException ("Could not open image " +:+ inputImage))
      | Some ds =>
          numRasterBands ← GetRasterCount ds;
            let numRasterBands := to_unsigned numRasterBands in
          if negb (numBands =? numRasterBands)%Z then
            _ ← GDALClose ds;
            throw (RSGISException
              "The number of input image bands and solar irradiance values are different.")
          else
            _ ← calcImage [ds] outputImage;
            GDALClose ds
      end).

  (** [executeLandsatTMCloudFMask] up to its band-count check (lines 770 to
      822); [passes] stands for the masking passes that follow (lines 823
      to 996), which receive the four open datasets. *)
Definition executeLandsatTMCloudFMask (passes : nat -> nat -> nat -> nat -> cmd unit)
      (inputTOAImage inputThermalImage inputSaturateImage validImg : string)
    : cmd unit :=
    try_cmd (
      refl ← GDALOpen inputTOAImage;
      match refl with
      | None => throw (RSGISImageException ("Could not open image " +:+ inputTOAImage))
      | Some reflDataset =>
      numReflBands ← GetRasterCount reflDataset;
      let numReflBands := to_unsigned numReflBands in
      integral ← GetRasterDataTypeIsInteger reflDataset;
      if negb integral then
        throw (RSGISImageException "Input TOA image must be of an integer data type.")
      else
      therm ← GDALOpen inputThermalImage;
      match therm with
      | None => throw (RSGISImageException ("Could not open image " +:+ inputThermalImage))
      | Some thermDataset =>
      numThermBands ← GetRasterCount thermDataset;
      let numThermBands := to_unsigned numThermBands in
      saturate ← GDALOpen inputSaturateImage;
      match saturate with
      | None => throw (RSGISImageException ("Could not open image " +:+ inputSaturateImage))
      | Some saturateDataset =>
      numSaturateBands ← GetRasterCount saturateDataset;
      let numSaturateBands := to_unsigned numSaturateBands in
      valid ← GDALOpen validImg;
      match valid with
      | None => throw (RSGISImageException ("Could not open image " +:+ validImg))
      | Some validAreaDataset =>
      if negb (to_unsigned (numReflBands + numThermBands) =? numSaturateBands)%Z then
        throw (RSGISImageException
          "The number of saturation bands is not equal to the number of refl and thermal bands.")
        (* the four GDALClose calls of lines 818 to 821 follow the throw *)
      else
        passes reflDataset thermDataset saturateDataset validAreaDataset
      end end end end).
End Commands.

(** ** RSGISCmdImageCalibration.cpp: further commands

    The structures of [RSGISCmdImageCalibration.h] are not in the sources
    at hand: their members are taken as the commands use them, band
    numbers as [unsigned int] and coefficients as [float]. *)

Section Stack.
  (** The loop that opens one image per entry, which
      [executeConvertLandsat2RadianceMultiAdd] and
      [executeGenerateSaturationMask] share word for word with
      [executeConvertLandsat2Radiance], but for the type of the entries. *)
Context {A : Type} (imagePath : A -> string) (band : A -> Z).

Fixpoint open_band_images (iterBands : list A) (datasets : list nat)
      (bands : list Z) (totalNumRasterBands : Z) : cmd (list nat * list Z) :=
    match iterBands with
    | [] => mret (datasets, bands)
    | b :: iterBands =>
        ds ← GDALOpen (imagePath b);
        match ds with
        | None => throw (RSGISImageException ("Could not open image " +:+ imagePath b))
        | Some ds =>
            numRasterBands ← GetRasterCount ds;
            let numRasterBands := to_unsigned numRasterBands in
            if (numRasterBands <? band b)%Z then
              throw (RSGISImageException
                       "You have specified a band which is not within the image")
            else
              open_band_images iterBands (datasets ++ [ds])
                (bands ++ [to_unsigned (totalNumRasterBands + band b - 1)])
                (to_unsigned (totalNumRasterBands + numRasterBands))
        end
    end.
End Stack.

Module CmdsLandsatRadianceGainsOffsetsMultiAdd.
Record t : Type := {
    imagePath : string; bandName : string; band : Z; addVal : float; multiVal : float
  }.
End CmdsLandsatRadianceGainsOffsetsMultiAdd.

Module CmdsSaturatedPixel.
Record t : Type := {
    imagePath : string; bandName : string; band : Z; satVal : float
  }.
End CmdsSaturatedPixel.

Module CmdsLandsatThermalCoeffs.
Record t : Type := { bandName : string; band : Z; k1 : float; k2 : float }.
End CmdsLandsatThermalCoeffs.

Module CmdsWorldView2RadianceGainsOffsets.
Record t : Type := {
    bandName : string; band : Z; absCalFact : float; effBandWidth : float
  }.
End CmdsWorldView2RadianceGainsOffsets.

Module CmdsSPOTRadianceGainsOffsets.
Record t : Type := { bandName : string; band : Z; gain : float; bias : float }.
End CmdsSPOTRadianceGainsOffsets.

(** Commands that work on arrays of their own or of their caller: an access
    outside an array is undefined behaviour, [None]. *)
Definition xcmd (A : Type) : Type := GDAL -> option (result A * GDAL).

#[global] Instance xcmd_ret : MRet xcmd := fun _ a w => Some (Ok a, w).
#[global] Instance xcmd_bind : MBind xcmd := fun _ _ f c w =>
  match c w with
  | Some (Ok a, w') => f a w'
  | Some (Raised e, w') => Some (Raised e, w')
  | None => None
  end.

(** A command of the raster library, and a computation on arrays, as steps
    of such a command. *)
Definition defined {A} (c : cmd A) : xcmd A := fun w => Some (c w).

Definition on_arrays {A} (c : outcome A) : xcmd A := fun w =>
  match c with
  | Ret a => Some (Ok a, w)
  | Throw e => Some (Raised e, w)
  | Undefined => None
  end.

(** The two catch clauses of a command, as in [try_cmd]. *)
Definition try_xcmd {A} (c : xcmd A) : xcmd A := fun w =>
  match c w with
  | Some (Raised e, w') => Some (Raised (RSGISCmdException (what e)), w')
  | r => r
  end.

Section MoreCommands.
Variable engine : GDAL -> list nat -> string -> option exn.

Definition executeConvertLandsat2RadianceMultiAdd (outputImage gdalFormat : string)
      (landsatRadGainOffs : list CmdsLandsatRadianceGainsOffsetsMultiAdd.t) : cmd unit :=
    try_cmd (
      '(datasets, _) ← open_band_images CmdsLandsatRadianceGainsOffsetsMultiAdd.imagePath
                         CmdsLandsatRadianceGainsOffsetsMultiAdd.band
                         landsatRadGainOffs [] [] 0;
      _ ← calcImage engine datasets outputImage;
      close_all datasets).

Definition executeGenerateSaturationMask (outputImage gdalFormat : string)
      (imgBandInfo : list CmdsSaturatedPixel.t) : cmd unit :=
    try_cmd (
      '(datasets, _) ← open_band_images CmdsSaturatedPixel.imagePath
                         CmdsSaturatedPixel.band imgBandInfo [] [] 0;
      _ ← calcImage engine datasets outputImage;
      close_all datasets).

  (** [for(int i = 0; i < numValues; ++i) imageBands[i] -= 1;] from [i] on,
      with [count] rounds to go; the entries are [unsigned int]. *)
Fixpoint decrement_bands (imageBands : list Z) (i count : nat) : outcome (list Z) :=
    match count with
    | O => Ret imageBands
    | S count =>
        match imageBands !! i with
        | Some b => decrement_bands (<[i:=to_unsigned (b - 1)]> imageBands) (S i) count
        | None => Undefined
        end
    end.

  (** The command works on the array [imageBands] of its caller: the
      result holds the array as the command leaves it, also when it ends
      with an exception. *)
Definition executeRad2SREFSingle6sParams (inputImage outputImage gdalFormat : string)
      (imageBands : list Z) (numValues : Z) (w : GDAL)
    : option (result unit * GDAL * list Z) :=
    (* the two catch clauses *)
    let raised (e : exn) (w : GDAL) (imageBands : list Z) :=
      Some (Raised (A:=unit) (RSGISCmdException (what e)), w, imageBands) in
    match GDALOpen inputImage w with
    | (Ok (Some ds), w) =>
        match GetRasterCount ds w with
        | (Ok numRasterBands, w) =>
            if negb (numValues =? numRasterBands)%Z then
              match GDALClose ds w with
              | (_, w) =>
                  raised (RSGISException
                    "The number of input image bands is not equal to the number coefficients provided.")
                    w imageBands
              end
            else
              match decrement_bands imageBands 0 (Z.to_nat numValues) with
              | Ret imageBands =>
                  match calcImage engine [ds] outputImage w with
                  | (Ok _, w) =>
                      match GDALClose ds w with
                      | (_, w) => Some (Ok tt, w, imageBands)
                      end
                  | (Raised e, w) => raised e w imageBands
                  end
              | _ => None
              end
        | (Raised e, w) => raised e w imageBands
        end
    | (Ok None, w) =>
        raised (RSGISImageException ("Could not open image " +:+ inputImage)) w imageBands
    | (Raised e, w) => raised e w imageBands
    end.

Definition executeApplySubtractOffsets (inputImage outputImage offsetImage gdalFormat : string)
    : cmd unit :=
    try_cmd (
      ds0 ← GDALOpen inputImage;
      match ds0 with
      | None => throw (RSGISImageException ("Could not open image " +:+ inputImage))
      | Some ds0 =>
      ds1 ← GDALOpen offsetImage;
      match ds1 with
      | None => throw (RSGISImageException ("Could not open image " +:+ offsetImage))
      | Some ds1 =>
      n0 ← GetRasterCount ds0;
      n1 ← GetRasterCount ds1;
      if negb (n0 =? n1)%Z then
        throw (RSGISImageException
          "The two input images need to have the same number of image bands.")
      else
        _ ← calcImage engine [ds0; ds1] outputImage;
        _ ← GDALClose ds0;
        GDALClose ds1
      end end).

  (** [dataset->GetRasterCount() != offsetValues.size()] compares an [int]
      with a [size_t]. *)
Definition executeApplySubtractSingleOffsets (inputImage outputImage gdalFormat : string)
      (offsetValues : list double) : cmd unit :=
    try_cmd (
      dataset ← GDALOpen inputImage;
      match dataset with
      | None => throw (RSGISImageException ("Could not open image " +:+ inputImage))
      | Some dataset =>
      n ← GetRasterCount dataset;
      if negb (to_size_t n =? to_size_t (Z.of_nat (length offsetValues)))%Z then
        throw (RSGISImageException
          "The two input images need to have the same number of image bands.")
      else
        _ ← calcImage engine [dataset] outputImage;
        GDALClose dataset
      end).

  (** The loop that copies the coefficients fills arrays of one entry per
      coefficient in the order of the coefficients, and cannot fail. *)
Definition executeConvertWorldView2ToRadiance (inputImage outputImage gdalFormat : string)
      (wv2RadGainOffs : list CmdsWorldView2RadianceGainsOffsets.t) : cmd unit :=
    try_cmd (
      let numBands := to_unsigned (Z.of_nat (length wv2RadGainOffs)) in
      inDataset ← GDALOpen inputImage;
      match inDataset with
      | None => throw (RSGISImageException ("Could not open image " +:+ inputImage))
      | Some inDataset =>
      n ← GetRasterCount inDataset;
      if negb (to_unsigned n =? numBands)%Z then
        throw (RSGISImageException
          "The number of band coefficients needs to equal the number input image bands.")
      else
        _ ← calcImage engine [inDataset] outputImage;
        GDALClose inDataset
      end).

  (** The loop of lines 652 to 669: [i] entries are done; [k1], [k2] and
      [outBandNames] have [numRasterBands] entries, those of [k1] and [k2]
      without a value ([None]) until they are assigned. *)
Fixpoint thermal_coefficients (iterBands : list CmdsLandsatThermalCoeffs.t) (i : Z)
      (numRasterBands : Z) (k1 k2 : list (option float)) (outBandNames : list string)
    : outcome (list (option float) * list (option float) * list string) :=
    match iterBands with
    | [] => Ret (k1, k2, outBandNames)
    | b :: iterBands =>
        if negb (CmdsLandsatThermalCoeffs.band b =? to_unsigned (i + 1))%Z then
          Throw (RSGISImageException "The bands must be specified in order.")
        else if (numRasterBands <? CmdsLandsatThermalCoeffs.band b)%Z then
          Throw (RSGISImageException
                   "You have specified a band which is not within the image")
        else
          k1 ← store k1 i (Some (CmdsLandsatThermalCoeffs.k1 b));
          k2 ← store k2 i (Some (CmdsLandsatThermalCoeffs.k2 b));
          outBandNames ← store outBandNames i (CmdsLandsatThermalCoeffs.bandName b);
          thermal_coefficients iterBands (to_unsigned (i + 1)) numRasterBands
            k1 k2 outBandNames
    end.

Definition executeLandsatThermalRad2ThermalBrightness
      (inputImage outputImage gdalFormat : string)
      (landsatThermalCoeffs : list CmdsLandsatThermalCoeffs.t) : xcmd unit :=
    try_xcmd (
      dataset ← defined (GDALOpen inputImage);
      match dataset with
      | None =>
          defined (throw (RSGISImageException ("Could not open image " +:+ inputImage)))
      | Some dataset =>
      numRasterBands ← defined (GetRasterCount dataset);
      let numRasterBands := to_unsigned numRasterBands in
      let n := Z.to_nat numRasterBands in
      _ ← on_arrays (thermal_coefficients landsatThermalCoeffs 0 numRasterBands
                       (replicate n None) (replicate n None) (replicate n ""));
      _ ← defined (calcImage engine [dataset] outputImage);
      defined (GDALClose dataset)
      end).

  (** The loop of lines 1100 to 1113, as far as the band names go: entry
      [i] of the internal array is in range, since that array has one
      entry per coefficient, and the name goes to entry [band - 1] of
      [outBandNames]. *)
Fixpoint spot5_band_names (iterBands : list CmdsSPOTRadianceGainsOffsets.t)
      (outBandNames : list string) : outcome (list string) :=
    match iterBands with
    | [] => Ret outBandNames
    | b :: iterBands =>
        if (CmdsSPOTRadianceGainsOffsets.band b <? 1)%Z
           || (4 <? CmdsSPOTRadianceGainsOffsets.band b)%Z then
          Throw (RSGISImageException "Image bands must be between 1 and 4.")
        else
          outBandNames ← store outBandNames (CmdsSPOTRadianceGainsOffsets.band b - 1)
                           (CmdsSPOTRadianceGainsOffsets.bandName b);
          spot5_band_names iterBands outBandNames
    end.

  (** The result is the array of band names that the engine receives. *)
Definition executeConvertSPOT5ToRadiance (inputImage outputImage gdalFormat : string)
      (spot5RadGainOffs : list CmdsSPOTRadianceGainsOffsets.t) : xcmd (list string) :=
    try_xcmd (
      let numBands := to_unsigned (Z.of_nat (length spot5RadGainOffs)) in
      inDataset ← defined (GDALOpen inputImage);
      match inDataset with
      | None =>
          defined (throw (RSGISImageException ("Could not open image " +:+ inputImage)))
      | Some inDataset =>
      n ← defined (GetRasterCount inDataset);
      if negb (to_unsigned n =? numBands)%Z then
        defined (throw (RSGISImageException
          "The number of band coefficients needs to equal the number input image bands."))
      else
        outBandNames ← on_arrays (spot5_band_names spot5RadGainOffs
                                    (replicate (Z.to_nat numBands) ""));
        _ ← defined (calcImage engine [inDataset] outputImage);
        _ ← defined (GDALClose inDataset);
        mret outBandNames
      end).
End MoreCommands.

(** ** An instance of the maths library

    Used to run the embedding on concrete windows.  It returns what C99
    Annex F fixes (NaN arguments, signed zeros, infinities, arguments
    outside the domain), returns the correctly rounded value on arguments
    below 2^-27 in magnitude (where [sin x] and [atan x] round to [x] and
    [cos x] to 1), and evaluates a series in binary64 elsewhere. *)
Module reference.
Definition q (a b : Z) : double := (binary64.of_Z a / binary64.of_Z b)%f64.
Definition halfpi : double := (M_PI / binary64.of_Z 2)%f64.
Definition twopi : double := (binary64.of_Z 2 * M_PI)%f64.

Definition sign_of (x : double) : bool :=
    match x with
    | S754_zero s | S754_infinity s | S754_finite s _ _ => s
    | S754_nan => false
    end.
Definition with_sign (s : bool) (x : double) : double := if s then SFopp x else x.

Definition tiny (x : double) : bool :=
    match x with
    | S754_finite _ m e => (Z.pos (digits2_pos m) + e <=? -27)%Z
    | _ => false
    end.

  (** Horner evaluation of [c0 + c1 x + c2 x^2 + ...]. *)
Definition poly (cs : list double) (x : double) : double :=
    foldr (λ c acc, (c + x * acc)%f64) (binary64.of_Z 0) cs.

  (** [x] minus the nearest multiple of [2 pi]. *)
Definition reduce (x : double) : double :=
    match floor_to_int (x / twopi + q 1 2)%f64 with
    | Some k => (x - binary64.of_Z k * twopi)%f64
    | None => x
    end.

Definition sin (x : double) : double :=
    match x with
    | S754_nan | S754_infinity _ => S754_nan
    | S754_zero _ => x
    | S754_finite _ _ _ =>
        if tiny x then x
        else
          let r := reduce x in
          (r * poly [q 1 1; q (-1) 6; q 1 120; q (-1) 5040; q 1 362880;
                     q (-1) 39916800; q 1 6227020800; q (-1) 1307674368000;
                     q 1 355687428096000] (r * r))%f64
    end.

Definition cos (x : double) : double :=
    match x with
    | S754_nan | S754_infinity _ => S754_nan
    | S754_zero _ => q 1 1
    | S754_finite _ _ _ =>
        if tiny x then q 1 1
        else
          let r := reduce x in
          poly [q 1 1; q (-1) 2; q 1 24; q (-1) 720; q 1 40320; q (-1) 3628800;
                q 1 479001600; q (-1) 87178291200; q 1 20922789888000;
                q (-1) 6402373705728000] (r * r)%f64
    end.

  (** [atan x = 2 atan (x / (1 + sqrt (1 + x^2)))]. *)
Definition halve (x : double) : double :=
    (x / (q 1 1 + binary64.sqrt (q 1 1 + x * x)))%f64.

Definition atan_series (x : double) : double :=
    let y := halve (halve x) in
    (q 4 1 * (y * poly [q 1 1; q (-1) 3; q 1 5; q (-1) 7; q 1 9; q (-1) 11;
                        q 1 13; q (-1) 15] (y * y)))%f64.

Definition atan (x : double) : double :=
    match x with
    | S754_nan => S754_nan
    | S754_zero _ => x
    | S754_infinity s => with_sign s halfpi
    | S754_finite s _ _ =>
        if tiny x then x
        else if (SFabs x <=? q 1 1)%f64 then atan_series x
        else (with_sign s halfpi - atan_series (q 1 1 / x))%f64
    end.

Definition atan2 (y x : double) : double :=
    match y, x with
    | S754_nan, _ | _, S754_nan => S754_nan
    | S754_zero sy, _ =>
        if sign_of x then with_sign sy M_PI else y
    | S754_infinity sy, S754_infinity sx =>
        with_sign sy (if sx then q 3 4 * M_PI else q 1 4 * M_PI)%f64
    | S754_infinity sy, _ => with_sign sy halfpi
    | S754_finite sy _ _, S754_zero _ => with_sign sy halfpi
    | S754_finite sy _ _, S754_infinity sx =>
        with_sign sy (if sx then M_PI else binary64.of_Z 0)
    | S754_finite sy _ _, S754_finite sx _ _ =>
        if sx then (atan (y / x) + with_sign sy M_PI)%f64 else atan (y / x)%f64
    end.

Definition acos (x : double) : double :=
    match x with
    | S754_nan | S754_infinity _ => S754_nan
    | S754_zero _ => halfpi
    | S754_finite _ _ _ =>
        if (q 1 1 <? SFabs x)%f64 then S754_nan
        else atan2 (binary64.sqrt (q 1 1 - x * x))%f64 x
    end.

Definition lib : libm := Libm sin cos atan acos atan2.
End reference.

(** ** Vocabulary of the properties *)

(** Every cell of the 3x3 window of [band] holds [c]. *)
Definition uniform (dataBlock : list (list (list float))) (band : Z) (c : float) : Prop :=
  ∀ i j, 0 ≤ i < 3 -> 0 ≤ j < 3 -> rd dataBlock band i j = Ret c.

(** The sum of a row or column of a uniform window, as the gradients
    evaluate it: [c + c + c + c] in [float]. *)
Definition sum4 (c : float) : float := (c + c + c + c)%f32.

(** A resolution that is a number other than zero. *)
Definition resolution_ok (res : float) : bool := negb (is_nan res) && negb (is_zero res).

(** The hill shade in the words of the design note: the sun-azimuth term
    is the literal [sunAzimuth - M_PI/2 * degreesToRadians], with [M_PI/2]
    multiplied by the degrees-to-radians factor before the subtraction, and
    the shade angle is the sine of the aspect minus that term. *)
Definition literal_azimuth_term (sunAzimuth : double) : double :=
  (sunAzimuth - ((M_PI / binary64.of_Z 2) * degreesToRadians))%f64.

Definition shade_angle (M : libm) (aspect sunAzimuth : double) : double :=
  sin M (aspect - literal_azimuth_term sunAzimuth)%f64.

Definition shade_value (M : libm) (dx dy : double) (sunZenith sunAzimuth : float) : float :=
  let zenith := (binary64.of_float sunZenith * degreesToRadians)%f64 in
  let steepness := binary64.sqrt (dx * dx + dy * dy)%f64 in
  let cang :=
    ((sin M zenith
      - cos M zenith * steepness
        * shade_angle M (atan2 M dy dx) (binary64.of_float sunAzimuth))
     / binary64.sqrt (binary64.of_Z 1 + binary64.of_Z 1 * (dx * dx + dy * dy)))%f64 in
  binary32.of_double
    (if (cang <=? binary64.of_Z 0)%f64 then binary64.of_Z 1
     else (binary64.of_Z 1 + binary64.of_Z 254 * cang)%f64).

(** A computation that returns or is undefined, but does not throw. *)
Definition no_throw {A} (c : outcome A) : Prop := ∀ e, c ≠ Throw e.

(** Windows and units used to run the embedding. *)
Definition square (n : nat) (c : float) : list (list float) := replicate n (replicate n c).

Definition ramp : list (list (list float)) :=
  let f := binary32.of_Z in
  [ [ [f 1; f 2; f 3]; [f 1; f 2; f 3]; [f 1; f 2; f 3] ] ].

(** A disk with the images of a Landsat scene, and a raster library that
    has nothing open yet. *)
Definition disk : gmap string image :=
  list_to_map [
    ("band1.kea", {| rasterCount := 1; integerType := true |});
    ("refl.kea", {| rasterCount := 6; integerType := true |});
    ("thermal.kea", {| rasterCount := 1; integerType := true |});
    ("saturate.kea", {| rasterCount := 6; integerType := true |});
    ("valid.kea", {| rasterCount := 1; integerType := true |}) ].

Definition fresh (files : gmap string image) : GDAL :=
  {| files := files; datasets_open := ∅; next_handle := 0; runs := [] |}.

Definition landsat_band (path : string) (band : Z) : CmdsLandsatRadianceGainsOffsets :=
  {| imagePath := path; bandName := "b"; band := band;
     lMax := binary32.of_Z 193; lMin := binary32.of_Z (-1);
     qCalMax := binary32.of_Z 255; qCalMin := binary32.of_Z 1 |}.

(** An engine whose runs all return. *)
Definition engine_ok : GDAL -> list nat -> string -> option exn := λ _ _ _, None.

(** A statistics unit over one band before its first pixel. *)
Definition one_band_statistics : RSGISCalcImageStatistics.t :=
  let zero := binary64.of_Z 0 in
  {| RSGISCalcImageStatistics.useNoData := false;
     RSGISCalcImageStatistics.noDataVal := binary32.of_Z 0;
     RSGISCalcImageStatistics.onePassSD := false;
     RSGISCalcImageStatistics.calcSD := false;
     RSGISCalcImageStatistics.numInputBands := 1;
     RSGISCalcImageStatistics.firstMean := [true];
     RSGISCalcImageStatistics.firstSD := [true];
     RSGISCalcImageStatistics.calcMean := true;
     RSGISCalcImageStatistics.n := [0];
     RSGISCalcImageStatistics.mean := [zero];
     RSGISCalcImageStatistics.meanSum := [zero];
     RSGISCalcImageStatistics.sumSq := [zero];
     RSGISCalcImageStatistics.min := [zero];
     RSGISCalcImageStatistics.max := [zero];
     RSGISCalcImageStatistics.sumDiffZ := [zero];
     RSGISCalcImageStatistics.diffZ := zero |}.



(** A window that rises by half a metre to the south and by 2^-29 m to the
    east. *)
Definition south_facing : list (list (list float)) :=
  let o := binary32.of_Z 0 in
  [ [ [o; o; o];
      [o; o; S754_finite false 8388608 (-52)];
      [o; S754_finite false 8388608 (-24); o] ] ].

(** The two errors of the guard that opens every 3x3 terrain unit. *)
Definition guard_error (band numBands winSize : Z) (e : exn) : Prop :=
  (winSize ≠ 3 ∧ e = RSGISImageCalcException window_size_message)
  ∨ (winSize = 3 ∧ band_lt band numBands = false
     ∧ e = RSGISImageCalcException band_message).

(** What C99 Annex F fixes of [atan2] on the axes. *)
Record atan2_on_axes (M : libm) : Prop := {
  atan2_zero_right : ∀ s x, (binary64.of_Z 0 <? x)%f64 = true ->
    atan2 M (S754_zero s) x = S754_zero s;
  atan2_zero_left : ∀ s x, (x <? binary64.of_Z 0)%f64 = true ->
    atan2 M (S754_zero s) x = if s then (- M_PI)%f64 else M_PI;
  atan2_below : ∀ y s, (y <? binary64.of_Z 0)%f64 = true ->
    atan2 M y (S754_zero s) = (- (M_PI / binary64.of_Z 2))%f64;
  atan2_above : ∀ y s, (binary64.of_Z 0 <? y)%f64 = true ->
    atan2 M y (S754_zero s) = (M_PI / binary64.of_Z 2)%f64
}.

(** A number that is a NaN or at least 1, in either format. *)
Definition nan_or_at_least_1 (x : spec_float) : Prop :=
  x = S754_nan ∨ x = S754_infinity false
  ∨ ∃ m e, x = S754_finite false m e ∧ 1 <= Zdigits2 (Z.pos m) + e.



(** A window of three bands whose first band has a hole in a corner. *)
Definition window_with_a_hole : list (list (list float)) :=
  let f := binary32.of_Z in
  [ [ [f 12; f 12; f (-9999)]; [f 12; f 12; f 12]; [f 12; f 12; f 12] ];
    square 3 (f 34); square 3 (f 56) ].

(** No handle that the raster library has yet to give out is open. *)
Definition handles_fresh (w : GDAL) : Prop :=
  ∀ h, (next_handle w <= h)%nat -> datasets_open w !! h = None.

(** The raster library after [GDALOpen] has opened [path]. *)
Definition opened (path : string) (w : GDAL) : GDAL :=
  {| files := files w;
     datasets_open := <[next_handle w:=path]> (datasets_open w);
     next_handle := S (next_handle w);
     runs := runs w |}.

(** The number of bands of the image at [path], as an [unsigned int], and
    the number of bands of the first [i] images of a stack. *)
Definition raster_bands (files : gmap string image) (path : string) : Z :=
  to_unsigned (default 0 (rasterCount <$> files !! path)).

Definition bands_before (files : gmap string image) (paths : list string) (i : nat) : Z :=
  foldr Z.add 0 (raster_bands files <$> take i paths).

(** [b - 1] on an [unsigned int]. *)
Definition one_less (b : Z) : Z := to_unsigned (b - 1).

(** [outBandNames[band - 1] = bandName]. *)
Definition name_band (names : list string) (b : CmdsSPOTRadianceGainsOffsets.t)
    : list string :=
  <[Z.to_nat (CmdsSPOTRadianceGainsOffsets.band b - 1)
    := CmdsSPOTRadianceGainsOffsets.bandName b]> names.

(** Entries of the coefficient lists of the commands. *)
Definition saturated_band (path : string) (band : Z) : CmdsSaturatedPixel.t :=
  {| CmdsSaturatedPixel.imagePath := path; CmdsSaturatedPixel.bandName := "b";
     CmdsSaturatedPixel.band := band; CmdsSaturatedPixel.satVal := binary32.of_Z 255 |}.

Definition thermal_band (band : Z) : CmdsLandsatThermalCoeffs.t :=
  {| CmdsLandsatThermalCoeffs.bandName := "b6"; CmdsLandsatThermalCoeffs.band := band;
     CmdsLandsatThermalCoeffs.k1 := binary32.of_Z 607;
     CmdsLandsatThermalCoeffs.k2 := binary32.of_Z 1261 |}.

Definition spot_band (bandName : string) (band : Z) : CmdsSPOTRadianceGainsOffsets.t :=
  {| CmdsSPOTRadianceGainsOffsets.bandName := bandName;
     CmdsSPOTRadianceGainsOffsets.band := band;
     CmdsSPOTRadianceGainsOffsets.gain := binary32.of_Z 1;
     CmdsSPOTRadianceGainsOffsets.bias := binary32.of_Z 0 |}.

(** * Properties *)

(** ** Arithmetic facts *)

(** [spec_float] is stated over the integers of the core library; they are
    the integers of the Standard Library. *)
Ltac std_Z :=
  change IntDef.Z.sub with Z.sub in *;
  change IntDef.Z.add with Z.add in *;
  change IntDef.Z.mul with Z.mul in *;
  change IntDef.Z.opp with Z.opp in *;
  change IntDef.Z.min with Z.min in *;
  change IntDef.Z.max with Z.max in *;
  change IntDef.Z.compare with Z.compare in *;
  change IntDef.Z.leb with Z.leb in *;
  change IntDef.Z.ltb with Z.ltb in *;
  change IntDef.Z.eqb with Z.eqb in *;
  change IntDef.Z.even with Z.even in *;
  change IntDef.Z.div2 with Z.div2 in *;
  change IntDef.Z.shiftl with Z.shiftl in *;
  change PosDef.Pos.mul with Pos.mul in *;
  change PosDef.Pos.succ with Pos.succ in *;
  change @PosDef.Pos.iter with @Pos.iter in *.

Lemma SFsub_diag prec emax x :
  is_finite x = true -> SFsub prec emax x x = S754_zero false.
Proof.
  destruct x as [[]|[]| |s m e]; try discriminate; try reflexivity.
  intros _. unfold SFsub. std_Z. by rewrite Z.sub_diag.
Qed.

Lemma SFdiv_zero_l prec emax s r :
  resolution_ok r = true -> is_zero (SFdiv prec emax (S754_zero s) r) = true.
Proof. by destruct r. Qed.

Lemma of_float_is_zero x : is_zero x = true -> is_zero (binary64.of_float x) = true.
Proof. by destruct x. Qed.

Lemma slope_radians_zero M dx dy :
  atan M (S754_zero false) = S754_zero false ->
  is_zero dx = true -> is_zero dy = true ->
  slope_radians M dx dy = S754_zero false.
Proof.
  intros H Hx Hy. destruct dx as [s1| | |], dy as [s2| | |]; try discriminate.
  unfold slope_radians.
  replace (binary64.sqrt _ / _)%f64 with (S754_zero false); [done|].
  by destruct s1, s2.
Qed.

Lemma aspect_degrees_flat M dx dy :
  is_zero dx = true -> is_zero dy = true -> aspect_degrees M dx dy = S754_nan.
Proof.
  intros Hx Hy. destruct dx as [s1| | |], dy as [s2| | |]; try discriminate.
  unfold aspect_degrees. by destruct s1, s2.
Qed.

Lemma mul_nan_l x : (S754_nan * x)%f64 = S754_nan.
Proof. reflexivity. Qed.

Lemma mul_nan_r x : (x * S754_nan)%f64 = S754_nan.
Proof. by destruct x. Qed.

Lemma add_nan_l x : (S754_nan + x)%f64 = S754_nan.
Proof. reflexivity. Qed.

(** ** Reading the window *)

Lemma flat_difference c res :
  is_finite (sum4 c) = true -> resolution_ok res = true ->
  is_zero (binary64.of_float ((sum4 c - sum4 c) / res)%f32) = true.
Proof.
  intros Hc Hres. apply of_float_is_zero.
  unfold binary32.sub. rewrite SFsub_diag by done. by apply SFdiv_zero_l.
Qed.

Ltac flat_gradient Hu :=
  eexists; unfold aspect_dy, slope_dx, slope_dy, aspect_dx;
  rewrite !Hu by lia; (split; [reflexivity|]); by apply flat_difference.

Lemma slope_dx_flat dataBlock band c res :
  uniform dataBlock band c -> is_finite (sum4 c) = true -> resolution_ok res = true ->
  ∃ g, slope_dx (rd dataBlock band) res = Ret g ∧ is_zero g = true.
Proof. intros Hu ??. flat_gradient Hu. Qed.

Lemma slope_dy_flat dataBlock band c res :
  uniform dataBlock band c -> is_finite (sum4 c) = true -> resolution_ok res = true ->
  ∃ g, slope_dy (rd dataBlock band) res = Ret g ∧ is_zero g = true.
Proof. intros Hu ??. flat_gradient Hu. Qed.

Lemma aspect_dx_flat dataBlock band c res :
  uniform dataBlock band c -> is_finite (sum4 c) = true -> resolution_ok res = true ->
  ∃ g, aspect_dx (rd dataBlock band) res = Ret g ∧ is_zero g = true.
Proof. intros Hu ??. flat_gradient Hu. Qed.

Lemma check_window_ok band numBands :
  band_lt band numBands = true -> check_window band numBands 3 = Ret tt.
Proof. intros H. unfold check_window. by rewrite H. Qed.

Lemma wr_ok output i v : (i < length output)%nat -> wr output i v = Ret (<[i:=v]> output).
Proof. intros H. unfold wr. by rewrite decide_True. Qed.

Lemma no_throw_ret {A} (a : A) : no_throw (Ret a).
Proof. by intros e. Qed.

Lemma no_throw_rd dataBlock b i j : no_throw (rd dataBlock b i j).
Proof. unfold rd. intros e. repeat case_match; discriminate. Qed.

Lemma no_throw_wr output i v : no_throw (wr output i v).
Proof. unfold wr. intros e. case_decide; discriminate. Qed.

Lemma no_throw_bind {A B} (c : outcome A) (f : A -> outcome B) :
  no_throw c -> (∀ a, no_throw (f a)) -> no_throw (c ≫= f).
Proof. intros Hc Hf e. destruct c as [a| |]; [apply Hf| by destruct (Hc e0) | done]. Qed.

Lemma no_throw_lift2 f a b : no_throw a -> no_throw b -> no_throw (lift2 f a b).
Proof.
  intros Ha Hb. apply no_throw_bind; [done|]. intros x.
  apply no_throw_bind; [done|]. intros y. apply no_throw_ret.
Qed.

Lemma no_throw_fmap {A B} (f : A -> B) (c : outcome A) : no_throw c -> no_throw (f <$> c).
Proof. intros Hc e. destruct c as [a| |]; [done | by destruct (Hc e0) | done]. Qed.

Create HintDb no_throw.
#[local] Hint Resolve no_throw_ret no_throw_rd no_throw_wr no_throw_lift2 no_throw_fmap
  : no_throw.

Lemma no_throw_gradient dataBlock band res :
  no_throw (slope_dx (rd dataBlock band) res) ∧
  no_throw (slope_dy (rd dataBlock band) res) ∧
  no_throw (aspect_dx (rd dataBlock band) res).
Proof. unfold slope_dx, slope_dy, aspect_dx. repeat split; auto 10 with no_throw. Qed.

Lemma check_window_throws band numBands winSize e :
  check_window band numBands winSize = Throw e ->
  (winSize ≠ 3 ∧ e = RSGISImageCalcException window_size_message)
  ∨ (winSize = 3 ∧ e = RSGISImageCalcException band_message).
Proof.
  unfold check_window. destruct (winSize =? 3)%Z eqn:Hw; cbn [negb].
  - destruct (band_lt band numBands); cbn [negb]; [discriminate|].
    intros [= <-]. right. split; [lia|done].
  - intros [= <-]. left. split; [lia|done].
Qed.

Lemma check_window_size band numBands winSize :
  winSize ≠ 3 ->
  check_window band numBands winSize = Throw (RSGISImageCalcException window_size_message).
Proof. intros H. unfold check_window. by rewrite (proj2 (Z.eqb_neq _ _) H). Qed.

(** ** Hill shade *)

(** C1. With a 3x3 window and a band inside the image, the hill shade
    stores the shade value built on the literal sun-azimuth term: the
    azimuth as it is given, minus [M_PI/2 * degreesToRadians], which is the
    constant 0.0274...; no conversion of the azimuth is applied. *)
Theorem hillshade_literal_azimuth_term M this dataBlock numBands output dx dy :
  band_lt (RSGISCalcHillShade.band this) numBands = true ->
  shade_dx (rd dataBlock (RSGISCalcHillShade.band this)) (RSGISCalcHillShade.ewRes this)
    = Ret dx ->
  shade_dy (rd dataBlock (RSGISCalcHillShade.band this)) (RSGISCalcHillShade.nsRes this)
    = Ret dy ->
  (0 < length output)%nat ->
  RSGISCalcHillShade.calcImageValue M this dataBlock numBands 3 output
  = Ret (<[0%nat := shade_value M dx dy (RSGISCalcHillShade.sunZenith this)
                      (RSGISCalcHillShade.sunAzimuth this)]> output)
  ∧ (∀ sunAzimuth, literal_azimuth_term sunAzimuth
       = (sunAzimuth - S754_finite false 7901999413873821 (-58))%f64).
Proof.
  intros Hband Hdx Hdy Hout. split; [|reflexivity].
  unfold RSGISCalcHillShade.calcImageValue.
  rewrite check_window_ok, Hdx, Hdy by done. cbn [mbind outcome_bind].
  by rewrite wr_ok.
Qed.

Lemma hillshade_literal_azimuth_term_witness :
  ∃ dx dy,
  RSGISCalcHillShade.calcImageValue reference.lib
    (RSGISCalcHillShade.new 0 (binary32.of_Z 1) (binary32.of_Z 1)
       (binary32.of_Z 45) (binary32.of_Z 315))
    ramp 1 3 [S754_nan]
  = Ret (<[0%nat := shade_value reference.lib dx dy (binary32.of_Z 45) (binary32.of_Z 315)]>
           [S754_nan])
  ∧ (∀ sunAzimuth, literal_azimuth_term sunAzimuth
       = (sunAzimuth - S754_finite false 7901999413873821 (-58))%f64).
Proof.
  eexists _, _.
  apply (hillshade_literal_azimuth_term reference.lib
    (RSGISCalcHillShade.new 0 (binary32.of_Z 1) (binary32.of_Z 1)
       (binary32.of_Z 45) (binary32.of_Z 315))
    ramp 1 [S754_nan]).
  - reflexivity.
  - vm_compute. reflexivity.
  - vm_compute. reflexivity.
  - simpl. lia.
Defined.

(** The term stays in degrees: for an azimuth of 315 degrees it is
    314.97..., where the azimuth less a quarter turn, in radians, is
    3.92... *)
Example literal_azimuth_term_315 :
  literal_azimuth_term (binary64.of_Z 315) = S754_finite false 5541056304222127 (-44)
  ∧ ((binary64.of_Z 315 - binary64.of_Z 90) * degreesToRadians)%f64
    = S754_finite false 8842797190035550 (-51).
Proof. split; reflexivity. Qed.

(** ** Slope and aspect of flat terrain *)

(** C3, as amended. On a 3x3 window of a band inside the image whose cells
    all hold one finite value [c], with [c + c + c + c] finite in [float]
    and both resolutions numbers other than zero, the slope unit stores
    exactly 0 and the aspect unit stores NaN (given that [atan] maps +0 to
    +0, as C99 Annex F requires). *)
Theorem flat_window_slope_and_aspect M band ewRes nsRes outType dataBlock numBands output c :
  atan M (S754_zero false) = S754_zero false ->
  band_lt band numBands = true ->
  uniform dataBlock band c ->
  is_finite (sum4 c) = true ->
  resolution_ok ewRes = true -> resolution_ok nsRes = true ->
  (0 < length output)%nat ->
  RSGISCalcSlope.calcImageValue M (RSGISCalcSlope.new band ewRes nsRes outType)
    dataBlock numBands 3 output = Ret (<[0%nat := S754_zero false]> output)
  ∧ RSGISCalcAspect.calcImageValue M (RSGISCalcAspect.new band ewRes nsRes)
      dataBlock numBands 3 output = Ret (<[0%nat := S754_nan]> output).
Proof.
  intros Hatan Hband Hu Hc Hew Hns Hout.
  destruct (slope_dx_flat dataBlock band c ewRes) as (sx & Hsx & Zsx); [done..|].
  destruct (slope_dy_flat dataBlock band c nsRes) as (sy & Hsy & Zsy); [done..|].
  destruct (aspect_dx_flat dataBlock band c ewRes) as (ax & Hax & Zax); [done..|].
  split.
  - unfold RSGISCalcSlope.calcImageValue.
    cbn [RSGISCalcSlope.band RSGISCalcSlope.ewRes RSGISCalcSlope.nsRes
         RSGISCalcSlope.outType].
    rewrite check_window_ok, Hsx, Hsy by done. cbn [mbind outcome_bind].
    rewrite slope_radians_zero by done.
    destruct (outType =? 0)%Z; by rewrite wr_ok.
  - unfold RSGISCalcAspect.calcImageValue, RSGISCalcAspect.aspect, aspect_dy.
    cbn [RSGISCalcAspect.band RSGISCalcAspect.ewRes RSGISCalcAspect.nsRes].
    rewrite check_window_ok, Hax, Hsy by done. cbn [mbind outcome_bind mret outcome_ret].
    rewrite aspect_degrees_flat by done. by rewrite wr_ok.
Qed.

Lemma flat_window_slope_and_aspect_witness :
  RSGISCalcSlope.calcImageValue reference.lib
    (RSGISCalcSlope.new 0 (binary32.of_Z 30) (binary32.of_Z 30) 0)
    [square 3 (binary32.of_Z 100)] 1 3 [S754_nan] = Ret [S754_zero false]
  ∧ RSGISCalcAspect.calcImageValue reference.lib
      (RSGISCalcAspect.new 0 (binary32.of_Z 30) (binary32.of_Z 30))
      [square 3 (binary32.of_Z 100)] 1 3 [S754_nan] = Ret [S754_nan].
Proof.
  apply (flat_window_slope_and_aspect reference.lib 0 (binary32.of_Z 30) (binary32.of_Z 30) 0
           [square 3 (binary32.of_Z 100)] 1 [S754_nan] (binary32.of_Z 100)).
  - reflexivity.
  - reflexivity.
  - intros i j Hi Hj.
    assert (i = 0 ∨ i = 1 ∨ i = 2) as [-> | [-> | ->]] by lia;
    assert (j = 0 ∨ j = 1 ∨ j = 2) as [-> | [-> | ->]] by lia; reflexivity.
  - reflexivity.
  - reflexivity.
  - reflexivity.
  - simpl. lia.
Defined.

(** With every cell at 2^127 the sums of the rows and columns overflow to
    infinity, their difference is NaN, and so is the slope, whatever the
    maths library is, as long as its [atan] maps NaN to NaN. *)
Lemma flat_window_overflow_any_libm M :
  atan M S754_nan = S754_nan ->
  let c := S754_finite false 8388608 104 in
  RSGISCalcSlope.calcImageValue M
    (RSGISCalcSlope.new 0 (binary32.of_Z 1) (binary32.of_Z 1) 0)
    [ [ [c; c; c]; [c; c; c]; [c; c; c] ] ] 1 3 [binary32.of_Z 7] = Ret [S754_nan].
Proof.
  intros H c. unfold RSGISCalcSlope.calcImageValue.
  rewrite check_window_ok by reflexivity.
  cbn [RSGISCalcSlope.band RSGISCalcSlope.ewRes RSGISCalcSlope.nsRes RSGISCalcSlope.outType].
  replace (slope_dx _ _) with (Ret (A:=double) S754_nan) by (vm_compute; reflexivity).
  replace (slope_dy _ _) with (Ret (A:=double) S754_nan) by (vm_compute; reflexivity).
  cbn [mbind outcome_bind].
  replace (slope_radians M S754_nan S754_nan) with S754_nan
    by (unfold slope_radians; symmetry; exact H).
  reflexivity.
Qed.

(** C3, counterexample. A 3x3 window whose cells all hold the finite
    [float] 2^127, at resolution 1: the slope unit stores NaN, not 0. The
    same happens when every cell holds infinity. *)
Lemma flat_window_overflow :
  let c := S754_finite false 8388608 104 in
  let inf := S754_infinity false in
  binary32.valid c = true ∧ is_finite c = true ∧
  RSGISCalcSlope.calcImageValue reference.lib
    (RSGISCalcSlope.new 0 (binary32.of_Z 1) (binary32.of_Z 1) 0)
    [ [ [c; c; c]; [c; c; c]; [c; c; c] ] ] 1 3 [binary32.of_Z 7] = Ret [S754_nan]
  ∧ RSGISCalcSlope.calcImageValue reference.lib
    (RSGISCalcSlope.new 0 (binary32.of_Z 1) (binary32.of_Z 1) 0)
    [ [ [inf; inf; inf]; [inf; inf; inf]; [inf; inf; inf] ] ] 1 3 [binary32.of_Z 7]
    = Ret [S754_nan].
Proof. vm_compute. done. Qed.

(** ** Ray incidence and exitance angles *)

(** C4. With a 3x3 window and a band inside the image, both ray units
    return normally; when the angle they computed is NaN the incidence unit
    stores the sun zenith angle and the exitance unit stores 0, and
    otherwise they store the angle. *)
Theorem ray_angle_nan_is_substituted M (inc : RSGISCalcRayIncidentAngle.t)
    (exi : RSGISCalcRayExitanceAngle.t) dataBlock numBands output i e :
  band_lt (RSGISCalcRayIncidentAngle.band inc) numBands = true ->
  band_lt (RSGISCalcRayExitanceAngle.band exi) numBands = true ->
  RSGISCalcRayIncidentAngle.incidence M inc dataBlock = Ret i ->
  RSGISCalcRayExitanceAngle.exitance M exi dataBlock = Ret e ->
  (0 < length output)%nat ->
  RSGISCalcRayIncidentAngle.calcImageValue M inc dataBlock numBands 3 output
  = Ret (<[0%nat := if is_nan i then RSGISCalcRayIncidentAngle.sunZenith inc else i]> output)
  ∧ RSGISCalcRayExitanceAngle.calcImageValue M exi dataBlock numBands 3 output
    = Ret (<[0%nat := if is_nan e then S754_zero false else e]> output).
Proof.
  intros Hi He Hinc Hexi Hout. split.
  - unfold RSGISCalcRayIncidentAngle.calcImageValue.
    rewrite check_window_ok, Hinc by done. cbn [mbind outcome_bind]. by rewrite wr_ok.
  - unfold RSGISCalcRayExitanceAngle.calcImageValue.
    rewrite check_window_ok, Hexi by done. cbn [mbind outcome_bind]. by rewrite wr_ok.
Qed.

(** On flat terrain at 100 m, sun at zenith 45: the angle is NaN, the
    incidence unit stores 45 and the exitance unit stores 0. *)
Lemma ray_angle_nan_is_substituted_witness :
  RSGISCalcRayIncidentAngle.calcImageValue reference.lib
    (RSGISCalcRayIncidentAngle.new 0 (binary32.of_Z 30) (binary32.of_Z 30)
       (binary32.of_Z 45) (binary32.of_Z 315))
    [square 3 (binary32.of_Z 100)] 1 3 [binary32.of_Z 7]
  = Ret [binary32.of_Z 45]
  ∧ RSGISCalcRayExitanceAngle.calcImageValue reference.lib
    (RSGISCalcRayExitanceAngle.new 0 (binary32.of_Z 30) (binary32.of_Z 30)
       (binary32.of_Z 10) (binary32.of_Z 90))
    [square 3 (binary32.of_Z 100)] 1 3 [binary32.of_Z 7]
  = Ret [S754_zero false].
Proof.
  apply (ray_angle_nan_is_substituted reference.lib
    (RSGISCalcRayIncidentAngle.new 0 (binary32.of_Z 30) (binary32.of_Z 30)
       (binary32.of_Z 45) (binary32.of_Z 315))
    (RSGISCalcRayExitanceAngle.new 0 (binary32.of_Z 30) (binary32.of_Z 30)
       (binary32.of_Z 10) (binary32.of_Z 90))
    [square 3 (binary32.of_Z 100)] 1 [binary32.of_Z 7] S754_nan S754_nan).
  - reflexivity.
  - reflexivity.
  - vm_compute. reflexivity.
  - vm_compute. reflexivity.
  - simpl. lia.
Defined.

(** The degenerate geometry is flat terrain: its aspect is NaN, and the
    NaN reaches the angle through [cos] and [acos]. *)
Lemma flat_window_ray_angle_is_nan M slope zenith azimuth :
  cos M S754_nan = S754_nan -> acos M S754_nan = S754_nan ->
  ray_angle M slope S754_nan zenith azimuth = S754_nan.
Proof.
  intros Hcos Hacos. unfold ray_angle.
  rewrite mul_nan_l, Hcos, mul_nan_r, mul_nan_l, !add_nan_l, Hacos. reflexivity.
Qed.

(** ** Window size *)

(** C5, as amended. The slope and aspect units throw the window-size error
    exactly when the window size is not 3. *)
Theorem window_size_error_iff_not_three M (s : RSGISCalcSlope.t) (a : RSGISCalcAspect.t)
    dataBlock numBands winSize output :
  (RSGISCalcSlope.calcImageValue M s dataBlock numBands winSize output
     = Throw (RSGISImageCalcException window_size_message) ↔ winSize ≠ 3)
  ∧ (RSGISCalcAspect.calcImageValue M a dataBlock numBands winSize output
     = Throw (RSGISImageCalcException window_size_message) ↔ winSize ≠ 3).
Proof.
  split; split.
  - unfold RSGISCalcSlope.calcImageValue.
    destruct (check_window _ _ _) as [[]|e|] eqn:Hc; cbn [mbind outcome_bind].
    + intros H. exfalso. revert H.
      apply no_throw_bind; [apply no_throw_gradient|]. intros dx.
      apply no_throw_bind; [apply no_throw_gradient|]. intros dy.
      case_match; apply no_throw_wr.
    + intros [= ->]. by destruct (check_window_throws _ _ _ _ Hc) as [[? _]|[_ ?]].
    + discriminate.
  - intros H. unfold RSGISCalcSlope.calcImageValue. by rewrite check_window_size.
  - unfold RSGISCalcAspect.calcImageValue.
    destruct (check_window _ _ _) as [[]|e|] eqn:Hc; cbn [mbind outcome_bind].
    + intros H. exfalso. revert H.
      apply no_throw_bind; [|intros; apply no_throw_wr].
      apply no_throw_bind; [apply no_throw_gradient|]. intros dx.
      apply no_throw_bind; [apply no_throw_gradient|]. by intros dy e.
    + intros [= ->]. by destruct (check_window_throws _ _ _ _ Hc) as [[? _]|[_ ?]].
    + discriminate.
  - intros H. unfold RSGISCalcAspect.calcImageValue. by rewrite check_window_size.
Qed.

(** C5, counterexample. A window size of 5 is odd and at least 1, and both
    units refuse a 5x5 window with the window-size error. *)
Lemma odd_window_five_is_refused :
  Z.odd 5 = true ∧ (1 ≤ 5)%Z ∧
  RSGISCalcSlope.calcImageValue reference.lib
    (RSGISCalcSlope.new 0 (binary32.of_Z 1) (binary32.of_Z 1) 0)
    [square 5 (binary32.of_Z 100)] 1 5 [S754_nan]
  = Throw (RSGISImageCalcException
             "Window size must be equal to 3 for the calculate of slope.")
  ∧ RSGISCalcAspect.calcImageValue reference.lib
    (RSGISCalcAspect.new 0 (binary32.of_Z 1) (binary32.of_Z 1))
    [square 5 (binary32.of_Z 100)] 1 5 [S754_nan]
  = Throw (RSGISImageCalcException
             "Window size must be equal to 3 for the calculate of slope.").
Proof. repeat split; try reflexivity. lia. Qed.

(** ** Overloads that the statistics unit does not implement *)

(** C6. A call of any overload of the statistics unit other than the one
    it implements throws an image-calculation exception whose message says
    that the overload is not implemented; no state and no output array is
    returned. *)
Theorem unsupported_overload_throws accumulate this c :
  RSGISCalcImageStatistics.implemented c = false ->
  ∃ msg, RSGISCalcImageStatistics.calcImageValue accumulate this c
         = Throw (RSGISImageCalcException msg)
    ∧ (msg = "Not implemented" ∨ msg = "No implemented").
Proof.
  intros H. destruct c; try discriminate H; eexists; (split; [reflexivity|]); auto.
Qed.

Lemma unsupported_overload_throws_witness :
  ∃ msg, RSGISCalcImageStatistics.calcImageValue (λ this _ _, Ret this) one_band_statistics
           (RSGISCalcImageStatistics.window_output
              [square 3 (binary32.of_Z 100)] 1 3 [binary64.of_Z 0])
         = Throw (RSGISImageCalcException msg)
    ∧ (msg = "Not implemented" ∨ msg = "No implemented").
Proof.
  apply (unsupported_overload_throws (λ this _ _, Ret this) one_band_statistics
           (RSGISCalcImageStatistics.window_output
              [square 3 (binary32.of_Z 100)] 1 3 [binary64.of_Z 0])).
  reflexivity.
Defined.

(** ** Filling DEM holes *)



Example midPoint_of_small_windows :
  RSGISFillDEMHoles.midPoint 1 = Some 0 ∧ RSGISFillDEMHoles.midPoint 3 = Some 1
  ∧ RSGISFillDEMHoles.midPoint 4 = Some 2 ∧ RSGISFillDEMHoles.midPoint 5 = Some 2.
Proof. repeat split; reflexivity. Qed.

(** ** Calibration commands: configuration errors *)






(** ** Calibration commands: dataset handles *)

(** C2, at failing inputs. When the second Landsat image cannot be opened,
    or its band lies outside it, the command ends with an exception and the
    datasets opened so far stay open; when the band counts of the FMask
    inputs disagree, the command ends with an exception and its four
    datasets stay open. *)
Theorem error_exit_leaves_datasets_open engine passes :
  executeConvertLandsat2Radiance engine "out.kea" "KEA"
    [landsat_band "band1.kea" 1; landsat_band "missing.kea" 1] (fresh disk)
  = (Raised (RSGISCmdException "Could not open image missing.kea"),
     {| files := disk; datasets_open := {[ 0%nat := "band1.kea" ]};
        next_handle := 1; runs := [] |})
  ∧ executeConvertLandsat2Radiance engine "out.kea" "KEA"
    [landsat_band "band1.kea" 1; landsat_band "band1.kea" 2] (fresh disk)
  = (Raised (RSGISCmdException "You have specified a band which is not within the image"),
     {| files := disk; datasets_open := {[ 0%nat := "band1.kea"; 1%nat := "band1.kea" ]};
        next_handle := 2; runs := [] |})
  ∧ executeLandsatTMCloudFMask passes "refl.kea" "thermal.kea" "saturate.kea" "valid.kea"
      (fresh disk)
  = (Raised (RSGISCmdException
       "The number of saturation bands is not equal to the number of refl and thermal bands."),
     {| files := disk;
        datasets_open := {[ 0%nat := "refl.kea"; 1%nat := "thermal.kea";
                            2%nat := "saturate.kea"; 3%nat := "valid.kea" ]};
        next_handle := 4; runs := [] |}).
Proof. repeat split; vm_compute; reflexivity. Qed.

(** The same for every disk on which the four images can be opened and
    their band counts disagree. *)
Lemma fmask_band_count_error_keeps_datasets_open passes refl therm sat valid w ir it isat iv :
  files w !! refl = Some ir -> integerType ir = true ->
  files w !! therm = Some it -> files w !! sat = Some isat -> files w !! valid = Some iv ->
  to_unsigned (to_unsigned (rasterCount ir) + to_unsigned (rasterCount it))
    ≠ to_unsigned (rasterCount isat) ->
  let n := next_handle w in
  executeLandsatTMCloudFMask passes refl therm sat valid w
  = (Raised (RSGISCmdException
       "The number of saturation bands is not equal to the number of refl and thermal bands."),
     {| files := files w;
        datasets_open :=
          <[S (S (S n)) := valid]> (<[S (S n) := sat]> (<[S n := therm]>
            (<[n := refl]> (datasets_open w))));
        next_handle := S (S (S (S n)));
        runs := runs w |}).
Proof.
  intros Hr Hint Ht Hs Hv Hne n.
  unfold executeLandsatTMCloudFMask, try_cmd.
  unfold mbind, cmd_bind, GDALOpen, GetRasterCount, GetRasterDataTypeIsInteger, image_of.
  repeat (cbn [files datasets_open next_handle runs negb mbind option_bind
               fmap option_fmap option_map default id];
          rewrite ?lookup_insert_eq, ?Hr, ?Ht, ?Hs, ?Hv, ?Hint).
  rewrite (proj2 (Z.eqb_neq _ _) Hne). reflexivity.
Qed.

(** The sibling command closes its dataset before it reports the
    configuration error, and after a run of the engine that returns. *)
Lemma toa_refl_releases_its_dataset engine inputImage outputImage gdalFormat numBands w :
  datasets_open w !! next_handle w = None ->
  (∀ w' ds, engine w' ds outputImage = None) ->
  datasets_open
    (executeConvertRadiance2TOARefl engine inputImage outputImage gdalFormat numBands w).2
  = datasets_open w.
Proof.
  intros Hfresh Hengine. unfold executeConvertRadiance2TOARefl, try_cmd.
  unfold mbind at 1, cmd_bind. unfold GDALOpen.
  destruct (files w !! inputImage) as [img|] eqn:Hf; [|done].
  unfold mbind at 1, cmd_bind. unfold GetRasterCount at 1.
  destruct (negb _).
  - unfold mbind, cmd_bind, GDALClose, throw. cbn. by rewrite delete_insert_eq, delete_id.
  - unfold mbind, cmd_bind, calcImage. rewrite Hengine.
    cbn. by rewrite delete_insert_eq, delete_id.
Qed.

(** A run of the engine that throws leaves the dataset open there too. *)
Lemma engine_failure_leaves_dataset_open engine inputImage outputImage gdalFormat img e w :
  files w !! inputImage = Some img ->
  (∀ w' ds, engine w' ds outputImage = Some e) ->
  datasets_open
    (executeConvertRadiance2TOARefl engine inputImage outputImage gdalFormat
       (to_unsigned (rasterCount img)) w).2
  !! next_handle w = Some inputImage.
Proof.
  intros Hf Hengine. unfold executeConvertRadiance2TOARefl, try_cmd.
  unfold mbind at 1, cmd_bind. unfold GDALOpen. rewrite Hf.
  unfold mbind at 1, cmd_bind. unfold GetRasterCount at 1, image_of.
  cbn [datasets_open files]. rewrite lookup_insert_eq. cbn [mbind option_bind].
  rewrite Hf. cbn [fmap option_fmap option_map default id].
  rewrite Z.eqb_refl. cbn [negb].
  unfold mbind, cmd_bind, calcImage. rewrite Hengine. cbn.
  by rewrite lookup_insert_eq.
Qed.

(** ** Rounding to nearest in binary64 *)

(** The number of binary digits of a mantissa is one more than its
    logarithm. *)
Lemma digits2_pos_size p : digits2_pos p = Pos.size p.
Proof. induction p; cbn; std_Z; congruence. Qed.

Lemma Zdigits2_log2 m : 0 < m -> Zdigits2 m = Z.log2 m + 1.
Proof.
  destruct m as [|p|p]; try lia. intros _. cbn [Zdigits2].
  rewrite digits2_pos_size. destruct p; cbn; lia.
Qed.

Lemma Zdigits2_le m b : 0 < m -> 0 <= b -> (Zdigits2 m <= b <-> m < 2 ^ b).
Proof.
  intros Hm Hb. rewrite Zdigits2_log2 by done.
  rewrite Z.log2_lt_pow2 by done. lia.
Qed.

Lemma Zdigits2_ge m b : 0 < m -> 0 < b -> (b <= Zdigits2 m <-> 2 ^ (b - 1) <= m).
Proof.
  intros Hm Hb. rewrite Zdigits2_log2 by done.
  rewrite Z.log2_le_pow2 by done. lia.
Qed.

Lemma Zdigits2_pos m : 0 < m -> 0 < Zdigits2 m.
Proof. intros Hm. rewrite Zdigits2_log2 by done. pose proof (Z.log2_nonneg m). lia. Qed.

(** Shifting a mantissa right by [p] bits divides it by [2 ^ p]; the round
    and sticky bits are kept apart. *)
Lemma shr_1_m mrs : 0 <= shr_m mrs -> shr_m (shr_1 mrs) = shr_m mrs / 2.
Proof.
  destruct mrs as [m r s]. cbn [shr_m]. intros Hm.
  destruct m as [|[p|p|]|p]; cbn [shr_1 shr_m]; try lia; try reflexivity.
  - rewrite Pos2Z.inj_xI. apply (Z.div_unique _ _ _ 1); lia.
  - rewrite Pos2Z.inj_xO. apply (Z.div_unique _ _ _ 0); lia.
Qed.

Lemma pow2_xO p : 2 ^ Z.pos p~0 = 2 ^ Z.pos p * 2 ^ Z.pos p.
Proof. rewrite <- Z.pow_add_r by lia. f_equal. lia. Qed.

Lemma pow2_xI p : 2 ^ Z.pos p~1 = 2 * (2 ^ Z.pos p * 2 ^ Z.pos p).
Proof.
  rewrite <- pow2_xO. replace (Z.pos p~1) with (1 + Z.pos p~0) by lia.
  rewrite Z.pow_add_r by lia. done.
Qed.

Lemma shr_iter_m p : ∀ mrs,
  0 <= shr_m mrs -> shr_m (SpecFloat.iter_pos shr_1 p mrs) = shr_m mrs / 2 ^ Z.pos p.
Proof.
  assert (∀ q, 0 < 2 ^ Z.pos q) as Hpow by (intros; apply Z.pow_pos_nonneg; lia).
  induction p as [p IH|p IH|]; intros mrs Hm; cbn [SpecFloat.iter_pos].
  - assert (0 <= shr_m (shr_1 mrs)) as H1
      by (rewrite shr_1_m by done; apply Z.div_pos; lia).
    assert (0 <= shr_m (SpecFloat.iter_pos shr_1 p (shr_1 mrs))) as H2
      by (rewrite IH by done; apply Z.div_pos; [done|apply Hpow]).
    rewrite IH, IH, shr_1_m by done.
    pose proof (Hpow p).
    rewrite !Z.div_div by lia. by rewrite pow2_xI.
  - assert (0 <= shr_m (SpecFloat.iter_pos shr_1 p mrs)) as H2
      by (rewrite IH by done; apply Z.div_pos; [done|apply Hpow]).
    rewrite IH, IH by done. pose proof (Hpow p).
    rewrite Z.div_div by lia. by rewrite pow2_xO.
  - by rewrite shr_1_m.
Qed.

Lemma fexp64 x : fexp 53 1024 x = Z.max (x - 53) (-1074).
Proof. reflexivity. Qed.



Lemma round_nearest_even_range m l :
  round_nearest_even m l = m ∨ round_nearest_even m l = m + 1.
Proof. unfold round_nearest_even. std_Z. destruct l as [|[]]; try case_match; auto. Qed.








Lemma iter_xO m d : Z.pos (Pos.iter xO m d) = Z.pos m * 2 ^ Z.pos d.
Proof.
  induction d as [|d IH] using Pos.peano_ind.
  - cbn [Pos.iter]. change (2 ^ 1) with 2. lia.
  - rewrite Pos.iter_succ, Pos2Z.inj_xO, IH, Pos2Z.inj_succ, Z.pow_succ_r by lia. lia.
Qed.

Lemma shl_align_le mx ex ex' :
  ex' <= ex ->
  ∃ m', shl_align mx ex ex' = (m', ex') ∧ Z.pos m' = Z.pos mx * 2 ^ (ex - ex').
Proof.
  intros H. unfold shl_align. std_Z.
  destruct (ex' - ex) as [|d|d] eqn:Hd; try lia.
  - assert (ex' = ex) as -> by lia. exists mx. rewrite Z.sub_diag. split; [done|lia].
  - exists (Pos.iter xO mx d). split; [done|].
    rewrite iter_xO. f_equal. f_equal. lia.
Qed.

Lemma shl_align_ge mx ex ex' : ex <= ex' -> shl_align mx ex ex' = (mx, ex).
Proof.
  intros H. unfold shl_align. std_Z. destruct (ex' - ex) as [|d|d] eqn:Hd; try lia; done.
Qed.

Lemma Zdigits2_shift z n : 0 < z -> 0 <= n -> Zdigits2 (z * 2 ^ n) = Zdigits2 z + n.
Proof.
  intros Hz Hn. assert (0 < 2 ^ n) by (apply Z.pow_pos_nonneg; lia).
  rewrite !Zdigits2_log2 by nia. rewrite Z.log2_mul_pow2 by lia. lia.
Qed.










(** ** The aspect lies in the circle *)



(** On the south-facing window the gradient is (2^-28, 1). Whenever
    [atan2] returns -2^-28 for it, which is the correctly rounded value, the
    aspect is 359.9999997... in double precision and its conversion to
    [float] is 360. *)
Lemma aspect_rounds_up_to_360_any_libm M :
  atan2 M (S754_finite true 4503599627370496 (-80)) (S754_finite false 4503599627370496 (-52))
    = S754_finite true 4503599627370496 (-80) ->
  RSGISCalcAspect.aspect M (RSGISCalcAspect.new 0 (binary32.of_Z 1) (binary32.of_Z 1))
    south_facing = Ret (S754_finite false 6333186972234824 (-44))
  ∧ RSGISCalcAspect.calcImageValue M
      (RSGISCalcAspect.new 0 (binary32.of_Z 1) (binary32.of_Z 1))
      south_facing 1 3 [S754_nan] = Ret [binary32.of_Z 360].
Proof.
  intros H.
  assert (RSGISCalcAspect.aspect M
            (RSGISCalcAspect.new 0 (binary32.of_Z 1) (binary32.of_Z 1)) south_facing
          = Ret (S754_finite false 6333186972234824 (-44))) as Ha.
  { unfold RSGISCalcAspect.aspect.
    cbn [RSGISCalcAspect.band RSGISCalcAspect.ewRes RSGISCalcAspect.nsRes].
    replace (aspect_dx _ _)
      with (Ret (A:=double) (S754_finite false 4503599627370496 (-80)))
      by (vm_compute; reflexivity).
    replace (aspect_dy _ _)
      with (Ret (A:=double) (S754_finite false 4503599627370496 (-52)))
      by (vm_compute; reflexivity).
    cbn [mbind outcome_bind mret outcome_ret]. f_equal.
    unfold aspect_degrees, SFopp. cbn [negb]. rewrite H. vm_compute. reflexivity. }
  split; [done|].
  unfold RSGISCalcAspect.calcImageValue.
  rewrite check_window_ok, Ha by reflexivity. reflexivity.
Qed.


(** A window with a NaN cell has a gradient that the flat-area test does
    not match; when [atan2] maps NaN to NaN the aspect stored is NaN. *)
Lemma aspect_of_nan_window M :
  (∀ y, atan2 M S754_nan y = S754_nan) ->
  let o := binary32.of_Z 0 in
  RSGISCalcAspect.calcImageValue M
    (RSGISCalcAspect.new 0 (binary32.of_Z 1) (binary32.of_Z 1))
    [ [ [o; o; o]; [o; o; S754_nan]; [o; o; o] ] ] 1 3 [o] = Ret [S754_nan].
Proof.
  intros H o. unfold RSGISCalcAspect.calcImageValue, RSGISCalcAspect.aspect.
  rewrite check_window_ok by reflexivity.
  cbn [RSGISCalcAspect.band RSGISCalcAspect.ewRes RSGISCalcAspect.nsRes].
  replace (aspect_dx _ _) with (Ret (A:=double) S754_nan) by (vm_compute; reflexivity).
  replace (aspect_dy _ _) with (Ret (A:=double) (S754_zero false))
    by (vm_compute; reflexivity).
  cbn [mbind outcome_bind mret outcome_ret].
  unfold aspect_degrees, SFopp. rewrite H. reflexivity.
Qed.

(** ** What the terrain units throw *)

Lemma check_window_guard band numBands winSize e :
  check_window band numBands winSize = Throw e ↔ guard_error band numBands winSize e.
Proof.
  unfold check_window, guard_error.
  destruct (Z.eqb_spec winSize 3) as [-> | Hne]; cbn [negb].
  - destruct (band_lt band numBands); cbn [negb]; split.
    + discriminate.
    + intros [[? _] | (_ & ? & _)]; done.
    + intros [= <-]. right. done.
    + intros [[? _] | (_ & _ & ->)]; done.
  - split.
    + intros [= <-]. by left.
    + intros [[_ ->] | [? _]]; done.
Qed.

Lemma guarded_throws {A} band numBands winSize (body : outcome A) e :
  no_throw body ->
  (_ ← check_window band numBands winSize; body) = Throw e
  ↔ guard_error band numBands winSize e.
Proof.
  intros Hbody. rewrite <- check_window_guard.
  destruct (check_window band numBands winSize) as [[]|e'|]; cbn [mbind outcome_bind].
  - split; [intros H; by destruct (Hbody e)|discriminate].
  - split; intros [= ->]; reflexivity.
  - split; discriminate.
Qed.

Lemma no_throw_slope_and_aspect M dataBlock band ewRes nsRes :
  no_throw (slope_and_aspect M dataBlock band ewRes nsRes).
Proof.
  unfold slope_and_aspect, aspect_dy.
  repeat (apply no_throw_bind; [apply no_throw_gradient|]; intros ?).
  apply no_throw_ret.
Qed.

Ltac solve_no_throw :=
  repeat first
    [ apply no_throw_ret | apply no_throw_rd | apply no_throw_wr
    | apply no_throw_gradient | apply no_throw_slope_and_aspect
    | apply no_throw_fmap | apply no_throw_lift2
    | apply no_throw_bind; [|intros ?]
    | progress cbv zeta
    | match goal with |- no_throw (let '(_, _) := ?p in _) => destruct p end
    | match goal with |- no_throw (if ?b then _ else _) => destruct b end ].

(** X1. The slope, aspect, slope-and-aspect and hill shade units throw on
    two occasions only, and then always: a window size other than 3 gives
    the window-size error, and a window of 3 with a band that is not below
    the number of bands gives the band error. No other exception leaves
    them. *)
Theorem terrain_units_throw_only_guard_errors M (s : RSGISCalcSlope.t) (a : RSGISCalcAspect.t)
    (sa : RSGISCalcSlopeAspect.t) (h : RSGISCalcHillShade.t)
    dataBlock numBands winSize output e :
  (RSGISCalcSlope.calcImageValue M s dataBlock numBands winSize output = Throw e
     ↔ guard_error (RSGISCalcSlope.band s) numBands winSize e)
  ∧ (RSGISCalcAspect.calcImageValue M a dataBlock numBands winSize output = Throw e
     ↔ guard_error (RSGISCalcAspect.band a) numBands winSize e)
  ∧ (RSGISCalcSlopeAspect.calcImageValue M sa dataBlock numBands winSize output = Throw e
     ↔ guard_error (RSGISCalcSlopeAspect.band sa) numBands winSize e)
  ∧ (RSGISCalcHillShade.calcImageValue M h dataBlock numBands winSize output = Throw e
     ↔ guard_error (RSGISCalcHillShade.band h) numBands winSize e).
Proof.
  split; [|split; [|split]]; apply guarded_throws.
  - solve_no_throw.
  - unfold RSGISCalcAspect.aspect, aspect_dy. solve_no_throw.
  - unfold aspect_dy. solve_no_throw.
  - unfold shade_dx, shade_dy. solve_no_throw.
Qed.

(** X2. The same holds of the incidence unit, the exitance unit and the
    unit that computes both angles: each throws exactly on a window size
    other than 3 (the window-size error) and, with a window of 3, on a band
    that is not below the number of bands (the band error). *)
Theorem ray_units_throw_only_guard_errors M (i : RSGISCalcRayIncidentAngle.t)
    (x : RSGISCalcRayExitanceAngle.t) (ix : RSGISCalcRayIncidentAndExitanceAngles.t)
    dataBlock numBands winSize output e :
  (RSGISCalcRayIncidentAngle.calcImageValue M i dataBlock numBands winSize output = Throw e
     ↔ guard_error (RSGISCalcRayIncidentAngle.band i) numBands winSize e)
  ∧ (RSGISCalcRayExitanceAngle.calcImageValue M x dataBlock numBands winSize output = Throw e
     ↔ guard_error (RSGISCalcRayExitanceAngle.band x) numBands winSize e)
  ∧ (RSGISCalcRayIncidentAndExitanceAngles.calcImageValue M ix dataBlock numBands winSize
       output = Throw e
     ↔ guard_error (RSGISCalcRayIncidentAndExitanceAngles.band ix) numBands winSize e).
Proof.
  split; [|split]; apply guarded_throws.
  - unfold RSGISCalcRayIncidentAngle.incidence. solve_no_throw.
  - unfold RSGISCalcRayExitanceAngle.exitance. solve_no_throw.
  - solve_no_throw.
Qed.

(** ** Units that combine two others *)

Lemma insert_0_inj (output : list float) a b :
  (0 < length output)%nat -> <[0%nat:=a]> output = <[0%nat:=b]> output -> a = b.
Proof. destruct output; cbn; [lia|]. by intros _ [= ->]. Qed.

Lemma wr_ret output i v out' : wr output i v = Ret out' ->
  (i < length output)%nat ∧ out' = <[i:=v]> output.
Proof. unfold wr. case_decide; [by intros [= <-]|discriminate]. Qed.

(** X3. With room for two output values, the slope-and-aspect unit returns
    exactly when the slope unit (in degrees) and the aspect unit of the
    same band and resolutions both return on the window, and it then holds
    the value of the slope unit in [output[0]] and that of the aspect unit
    in [output[1]]. *)
Theorem slope_aspect_unit_combines M band ewRes nsRes dataBlock numBands winSize output out' :
  (2 <= length output)%nat ->
  RSGISCalcSlopeAspect.calcImageValue M (RSGISCalcSlopeAspect.new band ewRes nsRes)
    dataBlock numBands winSize output = Ret out'
  ↔ ∃ slope aspect,
      RSGISCalcSlope.calcImageValue M (RSGISCalcSlope.new band ewRes nsRes 0)
        dataBlock numBands winSize output = Ret (<[0%nat:=slope]> output)
      ∧ RSGISCalcAspect.calcImageValue M (RSGISCalcAspect.new band ewRes nsRes)
          dataBlock numBands winSize output = Ret (<[0%nat:=aspect]> output)
      ∧ out' = <[1%nat:=aspect]> (<[0%nat:=slope]> output).
Proof.
  intros Hlen.
  unfold RSGISCalcSlopeAspect.calcImageValue, RSGISCalcSlope.calcImageValue,
    RSGISCalcAspect.calcImageValue, RSGISCalcAspect.aspect, aspect_dy.
  cbn [RSGISCalcSlopeAspect.band RSGISCalcSlopeAspect.ewRes RSGISCalcSlopeAspect.nsRes
       RSGISCalcSlope.band RSGISCalcSlope.ewRes RSGISCalcSlope.nsRes RSGISCalcSlope.outType
       RSGISCalcAspect.band RSGISCalcAspect.ewRes RSGISCalcAspect.nsRes].
  change (0 =? 0)%Z with true. cbv iota.
  destruct (check_window band numBands winSize) as [[]|e|]; cbn [mbind outcome_bind];
    [|split; [discriminate|by intros (? & ? & [=] & _)]..].
  destruct (slope_dx _ ewRes) as [sx| |]; cbn [mbind outcome_bind];
    [|split; [discriminate|by intros (? & ? & [=] & _)]..].
  destruct (slope_dy _ nsRes) as [sy| |]; cbn [mbind outcome_bind];
    [|split; [discriminate|by intros (? & ? & [=] & _)]..].
  rewrite !wr_ok by lia. cbn [mbind outcome_bind].
  destruct (aspect_dx _ ewRes) as [ax| |]; cbn [mbind outcome_bind mret outcome_ret];
    [|split; [discriminate|by intros (? & ? & _ & [=] & _)]..].
  rewrite !wr_ok by (rewrite ?length_insert; lia).
  split.
  - intros [= <-]. eauto.
  - intros (s & a & [= Hs] & [= Ha] & ->).
    apply insert_0_inj in Hs, Ha; [|lia..]. by subst.
Qed.

(** On an eastward ramp of one unit per cell: a slope of 45 degrees and an
    aspect of 270 degrees. *)
Lemma slope_aspect_unit_combines_witness :
  RSGISCalcSlopeAspect.calcImageValue reference.lib
    (RSGISCalcSlopeAspect.new 0 (binary32.of_Z 1) (binary32.of_Z 1))
    ramp 1 3 [S754_nan; S754_nan]
  = Ret [binary32.of_Z 45; binary32.of_Z 270].
Proof.
  apply (slope_aspect_unit_combines reference.lib 0 (binary32.of_Z 1) (binary32.of_Z 1)
           ramp 1 3 [S754_nan; S754_nan]); [simpl; lia|].
  exists (binary32.of_Z 45), (binary32.of_Z 270).
  split; [vm_compute; reflexivity|]. split; [vm_compute; reflexivity|reflexivity].
Defined.

(** X4. With room for two output values, the unit for both ray angles
    returns exactly when the incidence unit (with the sun angles) and the
    exitance unit (with the view angles) of the same band and resolutions
    both return on the window, and it then holds the value of the
    incidence unit in [output[0]] and that of the exitance unit in
    [output[1]]. *)
Theorem incident_and_exitance_unit_combines M band ewRes nsRes sunZenith sunAzimuth
    viewZenith viewAzimuth dataBlock numBands winSize output out' :
  (2 <= length output)%nat ->
  RSGISCalcRayIncidentAndExitanceAngles.calcImageValue M
    (RSGISCalcRayIncidentAndExitanceAngles.new band ewRes nsRes sunZenith sunAzimuth
       viewZenith viewAzimuth)
    dataBlock numBands winSize output = Ret out'
  ↔ ∃ incidence exitance,
      RSGISCalcRayIncidentAngle.calcImageValue M
        (RSGISCalcRayIncidentAngle.new band ewRes nsRes sunZenith sunAzimuth)
        dataBlock numBands winSize output = Ret (<[0%nat:=incidence]> output)
      ∧ RSGISCalcRayExitanceAngle.calcImageValue M
          (RSGISCalcRayExitanceAngle.new band ewRes nsRes viewZenith viewAzimuth)
          dataBlock numBands winSize output = Ret (<[0%nat:=exitance]> output)
      ∧ out' = <[1%nat:=exitance]> (<[0%nat:=incidence]> output).
Proof.
  intros Hlen.
  unfold RSGISCalcRayIncidentAndExitanceAngles.calcImageValue,
    RSGISCalcRayIncidentAngle.calcImageValue, RSGISCalcRayExitanceAngle.calcImageValue,
    RSGISCalcRayIncidentAngle.incidence, RSGISCalcRayExitanceAngle.exitance.
  cbn [RSGISCalcRayIncidentAndExitanceAngles.band RSGISCalcRayIncidentAndExitanceAngles.ewRes
       RSGISCalcRayIncidentAndExitanceAngles.nsRes
       RSGISCalcRayIncidentAndExitanceAngles.sunZenith
       RSGISCalcRayIncidentAndExitanceAngles.sunAzimuth
       RSGISCalcRayIncidentAndExitanceAngles.viewZenith
       RSGISCalcRayIncidentAndExitanceAngles.viewAzimuth
       RSGISCalcRayIncidentAngle.band RSGISCalcRayIncidentAngle.ewRes
       RSGISCalcRayIncidentAngle.nsRes RSGISCalcRayIncidentAngle.sunZenith
       RSGISCalcRayIncidentAngle.sunAzimuth
       RSGISCalcRayExitanceAngle.band RSGISCalcRayExitanceAngle.ewRes
       RSGISCalcRayExitanceAngle.nsRes RSGISCalcRayExitanceAngle.viewZenith
       RSGISCalcRayExitanceAngle.viewAzimuth].
  destruct (check_window band numBands winSize) as [[]|e|]; cbn [mbind outcome_bind];
    [|split; [discriminate|by intros (? & ? & [=] & _)]..].
  destruct (slope_and_aspect M dataBlock band ewRes nsRes) as [[slope aspect]| |];
    cbn [mbind outcome_bind mret outcome_ret];
    [|split; [discriminate|by intros (? & ? & [=] & _)]..].
  rewrite !wr_ok by lia. cbn [mbind outcome_bind].
  rewrite !wr_ok by (rewrite ?length_insert; lia).
  split.
  - intros [= <-]. eauto.
  - intros (i & x & [= Hi] & [= Hx] & ->).
    apply insert_0_inj in Hi, Hx; [|lia..]. by subst.
Qed.

Lemma incident_and_exitance_unit_combines_witness :
  RSGISCalcRayIncidentAndExitanceAngles.calcImageValue reference.lib
    (RSGISCalcRayIncidentAndExitanceAngles.new 0 (binary32.of_Z 1) (binary32.of_Z 1)
       (binary32.of_Z 45) (binary32.of_Z 315) (binary32.of_Z 10) (binary32.of_Z 90))
    ramp 1 3 [S754_nan; S754_nan]
  = Ret [S754_finite false 16462494 (-19); binary32.of_Z 55].
Proof.
  apply (incident_and_exitance_unit_combines reference.lib 0 (binary32.of_Z 1)
           (binary32.of_Z 1) (binary32.of_Z 45) (binary32.of_Z 315) (binary32.of_Z 10)
           (binary32.of_Z 90) ramp 1 3 [S754_nan; S754_nan]); [simpl; lia|].
  exists (S754_finite false 16462494 (-19)), (binary32.of_Z 55).
  split; [vm_compute; reflexivity|]. split; [vm_compute; reflexivity|reflexivity].
Defined.

(** ** Ray angles of flat terrain *)

Lemma slope_and_aspect_flat M dataBlock band c ewRes nsRes :
  uniform dataBlock band c -> is_finite (sum4 c) = true ->
  resolution_ok ewRes = true -> resolution_ok nsRes = true ->
  ∃ slope, slope_and_aspect M dataBlock band ewRes nsRes = Ret (slope, S754_nan).
Proof.
  intros Hu Hc Hew Hns.
  destruct (slope_dx_flat dataBlock band c ewRes) as (sx & Hsx & Zsx); [done..|].
  destruct (slope_dy_flat dataBlock band c nsRes) as (sy & Hsy & Zsy); [done..|].
  destruct (aspect_dx_flat dataBlock band c ewRes) as (ax & Hax & Zax); [done..|].
  eexists. unfold slope_and_aspect, aspect_dy. rewrite Hsx, Hsy, Hax.
  cbn [mbind outcome_bind mret outcome_ret]. by rewrite aspect_degrees_flat.
Qed.

(** X5. On a 3x3 window of a band inside the image whose cells all hold one
    value [c], with [c + c + c + c] finite in [float] and both resolutions
    numbers other than zero, the incidence unit stores the sun zenith
    angle it was given, the exitance unit stores 0, and the unit for both
    angles stores the two (given that [cos] and [acos] map NaN to NaN). *)
Theorem flat_window_ray_units M band ewRes nsRes sunZenith sunAzimuth viewZenith viewAzimuth
    dataBlock numBands output c :
  cos M S754_nan = S754_nan -> acos M S754_nan = S754_nan ->
  band_lt band numBands = true ->
  uniform dataBlock band c ->
  is_finite (sum4 c) = true ->
  resolution_ok ewRes = true -> resolution_ok nsRes = true ->
  (2 <= length output)%nat ->
  RSGISCalcRayIncidentAngle.calcImageValue M
    (RSGISCalcRayIncidentAngle.new band ewRes nsRes sunZenith sunAzimuth)
    dataBlock numBands 3 output = Ret (<[0%nat:=sunZenith]> output)
  ∧ RSGISCalcRayExitanceAngle.calcImageValue M
      (RSGISCalcRayExitanceAngle.new band ewRes nsRes viewZenith viewAzimuth)
      dataBlock numBands 3 output = Ret (<[0%nat:=binary32.of_Z 0]> output)
  ∧ RSGISCalcRayIncidentAndExitanceAngles.calcImageValue M
      (RSGISCalcRayIncidentAndExitanceAngles.new band ewRes nsRes sunZenith sunAzimuth
         viewZenith viewAzimuth)
      dataBlock numBands 3 output
    = Ret (<[1%nat:=binary32.of_Z 0]> (<[0%nat:=sunZenith]> output)).
Proof.
  intros Hcos Hacos Hband Hu Hc Hew Hns Hlen.
  destruct (slope_and_aspect_flat M dataBlock band c ewRes nsRes) as (slope & Hsa); [done..|].
  unfold RSGISCalcRayIncidentAndExitanceAngles.calcImageValue,
    RSGISCalcRayIncidentAngle.calcImageValue, RSGISCalcRayExitanceAngle.calcImageValue,
    RSGISCalcRayIncidentAngle.incidence, RSGISCalcRayExitanceAngle.exitance.
  cbn [RSGISCalcRayIncidentAndExitanceAngles.band RSGISCalcRayIncidentAndExitanceAngles.ewRes
       RSGISCalcRayIncidentAndExitanceAngles.nsRes
       RSGISCalcRayIncidentAndExitanceAngles.sunZenith
       RSGISCalcRayIncidentAndExitanceAngles.sunAzimuth
       RSGISCalcRayIncidentAndExitanceAngles.viewZenith
       RSGISCalcRayIncidentAndExitanceAngles.viewAzimuth
       RSGISCalcRayIncidentAngle.band RSGISCalcRayIncidentAngle.ewRes
       RSGISCalcRayIncidentAngle.nsRes RSGISCalcRayIncidentAngle.sunZenith
       RSGISCalcRayIncidentAngle.sunAzimuth
       RSGISCalcRayExitanceAngle.band RSGISCalcRayExitanceAngle.ewRes
       RSGISCalcRayExitanceAngle.nsRes RSGISCalcRayExitanceAngle.viewZenith
       RSGISCalcRayExitanceAngle.viewAzimuth].
  rewrite check_window_ok, Hsa by done.
  cbn [mbind outcome_bind mret outcome_ret].
  rewrite !flat_window_ray_angle_is_nan by done. cbn [is_nan].
  rewrite !wr_ok by lia. cbn [mbind outcome_bind].
  rewrite wr_ok by (rewrite length_insert; lia). done.
Qed.

Lemma flat_window_ray_units_witness :
  let f := binary32.of_Z in
  RSGISCalcRayIncidentAngle.calcImageValue reference.lib
    (RSGISCalcRayIncidentAngle.new 0 (f 30) (f 30) (f 45) (f 315))
    [square 3 (f 100)] 1 3 [S754_nan; S754_nan] = Ret [f 45; S754_nan]
  ∧ RSGISCalcRayExitanceAngle.calcImageValue reference.lib
      (RSGISCalcRayExitanceAngle.new 0 (f 30) (f 30) (f 10) (f 90))
      [square 3 (f 100)] 1 3 [S754_nan; S754_nan] = Ret [f 0; S754_nan]
  ∧ RSGISCalcRayIncidentAndExitanceAngles.calcImageValue reference.lib
      (RSGISCalcRayIncidentAndExitanceAngles.new 0 (f 30) (f 30) (f 45) (f 315) (f 10) (f 90))
      [square 3 (f 100)] 1 3 [S754_nan; S754_nan] = Ret [f 45; f 0].
Proof.
  intros f.
  apply (flat_window_ray_units reference.lib 0 (f 30) (f 30) (f 45) (f 315) (f 10) (f 90)
           [square 3 (f 100)] 1 [S754_nan; S754_nan] (f 100)).
  - reflexivity.
  - reflexivity.
  - reflexivity.
  - intros i j Hi Hj.
    assert (i = 0 ∨ i = 1 ∨ i = 2) as [-> | [-> | ->]] by lia;
    assert (j = 0 ∨ j = 1 ∨ j = 2) as [-> | [-> | ->]] by lia; reflexivity.
  - reflexivity.
  - reflexivity.
  - reflexivity.
  - simpl. lia.
Defined.

(** X6. Whenever a ray unit returns, the exitance angle it stored is not a
    NaN, and the incidence angle it stored is a NaN only if the sun zenith
    angle that the unit was given is one; this holds of the two single
    units and of the unit for both angles, whatever the maths library
    returns. *)
Theorem ray_units_store_no_nan M (i : RSGISCalcRayIncidentAngle.t)
    (x : RSGISCalcRayExitanceAngle.t) (ix : RSGISCalcRayIncidentAndExitanceAngles.t)
    dataBlock numBands winSize output out' :
  (RSGISCalcRayIncidentAngle.calcImageValue M i dataBlock numBands winSize output = Ret out' ->
   ∃ v, out' = <[0%nat:=v]> output
        ∧ (is_nan v = true -> is_nan (RSGISCalcRayIncidentAngle.sunZenith i) = true))
  ∧ (RSGISCalcRayExitanceAngle.calcImageValue M x dataBlock numBands winSize output
       = Ret out' ->
     ∃ v, out' = <[0%nat:=v]> output ∧ is_nan v = false)
  ∧ (RSGISCalcRayIncidentAndExitanceAngles.calcImageValue M ix dataBlock numBands winSize
       output = Ret out' ->
     ∃ v0 v1, out' = <[1%nat:=v1]> (<[0%nat:=v0]> output)
        ∧ (is_nan v0 = true ->
           is_nan (RSGISCalcRayIncidentAndExitanceAngles.sunZenith ix) = true)
        ∧ is_nan v1 = false).
Proof.
  split; [|split].
  - unfold RSGISCalcRayIncidentAngle.calcImageValue.
    destruct (check_window _ _ _) as [[]| |]; [|discriminate..].
    cbn [mbind outcome_bind].
    destruct (RSGISCalcRayIncidentAngle.incidence _ _ _) as [v| |]; [|discriminate..].
    cbn [mbind outcome_bind]. cbv zeta. intros [_ ->]%wr_ret.
    eexists. split; [reflexivity|]. destruct (is_nan v) eqn:Hv; [done|congruence].
  - unfold RSGISCalcRayExitanceAngle.calcImageValue.
    destruct (check_window _ _ _) as [[]| |]; [|discriminate..].
    cbn [mbind outcome_bind].
    destruct (RSGISCalcRayExitanceAngle.exitance _ _ _) as [v| |]; [|discriminate..].
    cbn [mbind outcome_bind]. cbv zeta. intros [_ ->]%wr_ret.
    eexists. split; [reflexivity|]. by destruct (is_nan v) eqn:Hv.
  - unfold RSGISCalcRayIncidentAndExitanceAngles.calcImageValue.
    destruct (check_window _ _ _) as [[]| |]; [|discriminate..].
    cbn [mbind outcome_bind].
    destruct (slope_and_aspect _ _ _ _ _) as [[slope aspect]| |]; [|discriminate..].
    cbn [mbind outcome_bind]. cbv zeta.
    destruct (wr output 0 _) as [o1| |] eqn:H1; [|discriminate..].
    cbn [mbind outcome_bind]. apply wr_ret in H1 as [_ ->].
    intros [_ ->]%wr_ret. eexists _, _. split; [reflexivity|]. split.
    + destruct (is_nan (ray_angle M slope aspect _ _)) eqn:Hv; [done|congruence].
    + by destruct (is_nan (ray_angle M slope aspect
                             (RSGISCalcRayIncidentAndExitanceAngles.viewZenith ix) _)) eqn:Hv.
Qed.

Lemma ray_units_store_no_nan_witness :
  ∃ v, [binary32.of_Z 55; S754_nan] = <[0%nat:=v]> [S754_nan; S754_nan]
       ∧ is_nan v = false.
Proof.
  apply (proj1 (proj2 (ray_units_store_no_nan reference.lib
    (RSGISCalcRayIncidentAngle.new 0 (binary32.of_Z 1) (binary32.of_Z 1)
       (binary32.of_Z 45) (binary32.of_Z 315))
    (RSGISCalcRayExitanceAngle.new 0 (binary32.of_Z 1) (binary32.of_Z 1)
       (binary32.of_Z 10) (binary32.of_Z 90))
    (RSGISCalcRayIncidentAndExitanceAngles.new 0 (binary32.of_Z 1) (binary32.of_Z 1)
       (binary32.of_Z 45) (binary32.of_Z 315) (binary32.of_Z 10) (binary32.of_Z 90))
    ramp 1 3 [S754_nan; S754_nan] [binary32.of_Z 55; S754_nan]))).
  vm_compute. reflexivity.
Defined.

(** ** The aspect along the axes *)

Lemma reference_atan2_on_axes : atan2_on_axes reference.lib.
Proof.
  split; cbn [atan2 reference.lib].
  - intros s [[]|[]| |[] m e]; try discriminate; reflexivity.
  - intros s [[]|[]| |[] m e]; try discriminate; destruct s; reflexivity.
  - intros [[]|[]| |[] m e] s; try discriminate; reflexivity.
  - intros [[]|[]| |[] m e] s; try discriminate; reflexivity.
Qed.

Lemma aspect_degrees_axes M dx dy :
  atan2_on_axes M ->
  (is_zero dx = true -> (binary64.of_Z 0 <? dy)%f64 = true ->
     is_zero (aspect_degrees M dx dy) = true)
  ∧ (is_zero dx = true -> (dy <? binary64.of_Z 0)%f64 = true ->
     aspect_degrees M dx dy = binary64.of_Z 180)
  ∧ ((binary64.of_Z 0 <? dx)%f64 = true -> is_zero dy = true ->
     aspect_degrees M dx dy = binary64.of_Z 270)
  ∧ ((dx <? binary64.of_Z 0)%f64 = true -> is_zero dy = true ->
     aspect_degrees M dx dy = binary64.of_Z 90).
Proof.
  intros [Hr Hl Hb Ha]. unfold aspect_degrees. repeat split.
  - intros Hx Hy. destruct dx as [s| | |]; try discriminate Hx.
    cbn [SFopp]. rewrite Hr by done.
    replace (S754_zero s =? binary64.of_Z 0)%f64 with true by (by destruct s).
    replace (dy =? binary64.of_Z 0)%f64 with false
      by (by destruct dy as [[]|[]| |[] m e]).
    by destruct s.
  - intros Hx Hy. destruct dx as [s| | |]; try discriminate Hx.
    cbn [SFopp]. rewrite Hl by done.
    replace (dy =? binary64.of_Z 0)%f64 with false
      by (by destruct dy as [[]|[]| |[] m e]).
    rewrite andb_false_r. by destruct s.
  - intros Hx Hy. destruct dy as [s| | |]; try discriminate Hy.
    rewrite Hb by (by destruct dx as [[]|[]| |[] m e]).
    replace (dx =? binary64.of_Z 0)%f64 with false
      by (by destruct dx as [[]|[]| |[] m e]).
    reflexivity.
  - intros Hx Hy. destruct dy as [s| | |]; try discriminate Hy.
    rewrite Ha by (by destruct dx as [[]|[]| |[] m e]).
    replace (dx =? binary64.of_Z 0)%f64 with false
      by (by destruct dx as [[]|[]| |[] m e]).
    reflexivity.
Qed.

(** X7. With [atan2] as C99 Annex F fixes it on the axes, a 3x3 window and a
    band inside the image, the aspect unit stores: a zero where the
    east-west gradient [dx] is zero and the north-south gradient [dy] is
    positive, 180 where [dx] is zero and [dy] negative, 270 where [dy] is
    zero and [dx] positive, and 90 where [dy] is zero and [dx] negative. *)
Theorem aspect_along_the_axes M (this : RSGISCalcAspect.t) dataBlock numBands output dx dy :
  atan2_on_axes M ->
  band_lt (RSGISCalcAspect.band this) numBands = true ->
  aspect_dx (rd dataBlock (RSGISCalcAspect.band this)) (RSGISCalcAspect.ewRes this)
    = Ret dx ->
  aspect_dy (rd dataBlock (RSGISCalcAspect.band this)) (RSGISCalcAspect.nsRes this)
    = Ret dy ->
  (0 < length output)%nat ->
  ∃ aspect,
    RSGISCalcAspect.calcImageValue M this dataBlock numBands 3 output
      = Ret (<[0%nat:=aspect]> output)
    ∧ (is_zero dx = true -> (binary64.of_Z 0 <? dy)%f64 = true -> is_zero aspect = true)
    ∧ (is_zero dx = true -> (dy <? binary64.of_Z 0)%f64 = true ->
       aspect = binary32.of_Z 180)
    ∧ ((binary64.of_Z 0 <? dx)%f64 = true -> is_zero dy = true ->
       aspect = binary32.of_Z 270)
    ∧ ((dx <? binary64.of_Z 0)%f64 = true -> is_zero dy = true ->
       aspect = binary32.of_Z 90).
Proof.
  intros HM Hband Hdx Hdy Hout.
  exists (binary32.of_double (aspect_degrees M dx dy)). split.
  - unfold RSGISCalcAspect.calcImageValue, RSGISCalcAspect.aspect.
    rewrite check_window_ok, Hdx, Hdy by done. cbn [mbind outcome_bind mret outcome_ret].
    by rewrite wr_ok.
  - destruct (aspect_degrees_axes M dx dy HM) as (H0 & H180 & H270 & H90).
    repeat split; intros Hx Hy.
    + specialize (H0 Hx Hy). by destruct (aspect_degrees M dx dy).
    + by rewrite H180.
    + by rewrite H270.
    + by rewrite H90.
Qed.

(** The eastward ramp has [dx = 8] and [dy = 0]: an aspect of 270. *)
Lemma aspect_along_the_axes_witness :
  RSGISCalcAspect.calcImageValue reference.lib
    (RSGISCalcAspect.new 0 (binary32.of_Z 1) (binary32.of_Z 1)) ramp 1 3 [S754_nan]
  = Ret [binary32.of_Z 270].
Proof.
  destruct (aspect_along_the_axes reference.lib
              (RSGISCalcAspect.new 0 (binary32.of_Z 1) (binary32.of_Z 1)) ramp 1 [S754_nan]
              (binary64.of_Z 8) (binary64.of_Z 0))
    as (aspect & Hc & _ & _ & H270 & _).
  - apply reference_atan2_on_axes.
  - reflexivity.
  - vm_compute. reflexivity.
  - vm_compute. reflexivity.
  - simpl. lia.
  - rewrite Hc, H270 by reflexivity. reflexivity.
Defined.

(** ** Operations that are exact *)

Lemma shr_fexp_exact prec emax m e l :
  fexp prec emax (Zdigits2 m + e) <= e ->
  shr_fexp prec emax m e l = (shr_record_of_loc m l, e).
Proof.
  intros H. unfold shr_fexp, shr. std_Z.
  destruct (fexp prec emax (Zdigits2 m + e) - e) as [|p|p] eqn:Hd; try done. lia.
Qed.

(** A mantissa that is canonical at its exponent is kept by the rounding. *)
Lemma binary_round_aux_exact prec emax s m e :
  fexp prec emax (Zdigits2 (Z.pos m) + e) = e -> e <= emax - prec ->
  binary_round_aux prec emax s (Z.pos m) e loc_Exact = S754_finite s m e.
Proof.
  intros Hc He. unfold binary_round_aux.
  rewrite shr_fexp_exact by lia. cbn [shr_record_of_loc shr_m loc_of_shr_record
                                       round_nearest_even].
  rewrite shr_fexp_exact by lia. cbn [shr_record_of_loc shr_m]. std_Z.
  by rewrite (proj2 (Z.leb_le _ _)) by lia.
Qed.

(** A number with few enough digits is represented exactly: its mantissa
    is shifted to the exponent of its binade. *)
Lemma binary_round_exact prec emax s m e :
  let F := fexp prec emax (Zdigits2 (Z.pos m) + e) in
  F <= e -> F <= emax - prec ->
  ∃ m', binary_round prec emax s m e = S754_finite s m' F
        ∧ Z.pos m' = Z.pos m * 2 ^ (e - F).
Proof.
  intros F HF Hmax. unfold binary_round. std_Z.
  change (Z.pos (digits2_pos m)) with (Zdigits2 (Z.pos m)). fold F.
  destruct (shl_align_le m e F HF) as (m' & -> & Hm').
  exists m'. split; [|done]. apply binary_round_aux_exact; [|done].
  rewrite Hm', Zdigits2_shift by lia. subst F. f_equal. lia.
Qed.

(** The conversion of a small integer to [float] and on to [double]. *)
Lemma of_Z_small w :
  0 < w < 2 ^ 24 ->
  let d := Zdigits2 w in
  ∃ m, binary64.of_float (binary32.of_Z w) = S754_finite false m (d - 53)
       ∧ Z.pos m = w * 2 ^ (53 - d).
Proof.
  intros Hw d. destruct w as [|p|p]; try lia.
  assert (1 <= d <= 24) as Hd.
  { subst d. split; [pose proof (Zdigits2_pos (Z.pos p)); lia|].
    apply Zdigits2_le; lia. }
  unfold binary32.of_Z, binary_normalize.
  destruct (binary_round_exact binary32.prec binary32.emax false p 0) as (m1 & -> & Hm1).
  { unfold fexp, binary32.prec, binary32.emax, emin. std_Z. fold d. lia. }
  { unfold fexp, binary32.prec, binary32.emax, emin. std_Z. fold d. lia. }
  assert (fexp binary32.prec binary32.emax (Zdigits2 (Z.pos p) + 0) = d - 24) as HF1.
  { unfold fexp, binary32.prec, binary32.emax, emin. std_Z. fold d. lia. }
  rewrite HF1 in Hm1 |- *. replace (0 - (d - 24)) with (24 - d) in Hm1 by lia.
  assert (Zdigits2 (Z.pos m1) = 24) as Hd1.
  { rewrite Hm1, Zdigits2_shift by lia. fold d. lia. }
  cbn [binary64.of_float].
  destruct (binary_round_exact binary64.prec binary64.emax false m1 (d - 24))
    as (m2 & -> & Hm2).
  { rewrite Hd1. unfold fexp, binary64.prec, binary64.emax, emin. std_Z. lia. }
  { rewrite Hd1. unfold fexp, binary64.prec, binary64.emax, emin. std_Z. lia. }
  assert (fexp binary64.prec binary64.emax (Zdigits2 (Z.pos m1) + (d - 24)) = d - 53) as HF2.
  { rewrite Hd1. unfold fexp, binary64.prec, binary64.emax, emin. std_Z. lia. }
  rewrite HF2 in Hm2 |- *. exists m2. split; [done|].
  rewrite Hm2, Hm1, <- Z.mul_assoc, <- Z.pow_add_r by lia. f_equal. f_equal. lia.
Qed.

Lemma of_Z_2 : binary64.of_Z 2 = S754_finite false 4503599627370496 (-51).
Proof. reflexivity. Qed.

(** Halving a normal number lowers its exponent. *)
Lemma halve_exact m e :
  Zdigits2 (Z.pos m) = 53 -> -1072 <= e <= 972 ->
  (S754_finite false m e / binary64.of_Z 2)%f64 = S754_finite false m (e - 1).
Proof.
  intros Hd He. rewrite of_Z_2. unfold binary64.div, SFdiv, SFdiv_core_binary.
  change binary64.prec with 53. change binary64.emax with 1024.
  std_Z. change IntDef.Z.div_eucl with Z.div_eucl.
  rewrite Hd. change (Zdigits2 4503599627370496) with 53.
  rewrite fexp64.
  replace (Z.min (Z.max (53 + e - (53 + -51) - 53) (-1074)) (e - -51)) with (e - 2) by lia.
  replace (e - -51 - (e - 2)) with 53 by lia.
  rewrite Z.shiftl_mul_pow2 by lia.
  assert (Z.div_eucl (Z.pos m * 2 ^ 53) 4503599627370496 = (Z.pos m~0, 0)) as ->.
  { pose proof (Z.div_eucl_eq (Z.pos m * 2 ^ 53) 4503599627370496 ltac:(lia)) as Heq.
    pose proof (Z.mod_pos_bound (Z.pos m * 2 ^ 53) 4503599627370496 ltac:(lia)) as Hb.
    unfold Z.modulo in Hb.
    destruct (Z.div_eucl (Z.pos m * 2 ^ 53) 4503599627370496) as [q r].
    change (2 ^ 53) with 9007199254740992 in Heq.
    f_equal; lia. }
  change (new_location 4503599627370496 0) with loc_Exact.
  unfold binary_round_aux.
  assert (Zdigits2 (Z.pos m~0) = 54) as Hd2.
  { replace (Z.pos m~0) with (Z.pos m * 2 ^ 1) by lia. rewrite Zdigits2_shift by lia. lia. }
  unfold shr_fexp at 1. rewrite Hd2, fexp64. std_Z.
  replace (Z.max (54 + (e - 2) - 53) (-1074) - (e - 2)) with 1 by lia.
  cbn [shr shr_record_of_loc SpecFloat.iter_pos shr_1 loc_of_shr_record shr_m
       round_nearest_even].
  std_Z. cbn [orb xorb round_nearest_even].
  rewrite shr_fexp_exact by (rewrite Hd, fexp64; lia).
  cbn [shr_record_of_loc shr_m]. std_Z.
  rewrite (proj2 (Z.leb_le _ _)) by lia. f_equal. lia.
Qed.

(** ** Rounding keeps the binade *)

Section Format.
Variables prec emax : Z.
Hypothesis Hprec : 1 < prec.

Lemma fexp_eq x : fexp prec emax x = Z.max (x - prec) (3 - emax - prec).
Proof. reflexivity. Qed.

Lemma shr_fexp_exponent m e l :
  snd (shr_fexp prec emax m e l) = e + Z.max (fexp prec emax (Zdigits2 m + e) - e) 0.
Proof.
  unfold shr_fexp, shr. std_Z. destruct (fexp _ _ _ - e) as [|p|p]; cbn [snd]; lia.
Qed.

Lemma shr_fexp_mantissa m e l :
  0 <= m ->
  shr_m (fst (shr_fexp prec emax m e l))
  = m / 2 ^ Z.max (fexp prec emax (Zdigits2 m + e) - e) 0.
Proof.
  intros Hm.
  assert (shr_m (shr_record_of_loc m l) = m) as Hl by (by destruct l as [|[]]).
  unfold shr_fexp, shr. std_Z. destruct (fexp _ _ _ - e) as [|p|p]; cbn [fst].
  - by rewrite Hl, Z.div_1_r.
  - rewrite shr_iter_m by lia. by rewrite Hl.
  - by rewrite Hl, Z.div_1_r.
Qed.

Lemma Zdigits2_eq m b : 0 < m -> 0 < b -> (Zdigits2 m = b <-> 2 ^ (b - 1) <= m < 2 ^ b).
Proof.
  intros Hm Hb. pose proof (Zdigits2_le m b Hm ltac:(lia)).
  pose proof (Zdigits2_ge m b Hm Hb).
  pose proof (Zdigits2_le m (b - 1) Hm ltac:(lia)). lia.
Qed.

(** A mantissa of at least [prec] digits in the normal range rounds to
    infinity or to a normal number that is not in a lower binade. *)
Lemma binary_round_aux_normal s M E l :
  0 < M -> prec <= Zdigits2 M ->
  3 - emax <= Zdigits2 M + E ->
  let x := binary_round_aux prec emax s M E l in
  x = S754_infinity s
  ∨ ∃ m e, x = S754_finite s m e ∧ Zdigits2 (Z.pos m) = prec
           ∧ Zdigits2 M + E <= e + prec.
Proof.
  intros HM Hd Hk x. subst x. unfold binary_round_aux.
  set (d := Zdigits2 M) in *.
  assert (fexp prec emax (d + E) = d + E - prec) as HF by (rewrite fexp_eq; lia).
  pose proof (shr_fexp_exponent M E l) as H1s.
  pose proof (shr_fexp_mantissa M E l ltac:(lia)) as H1m.
  fold d in H1s, H1m. rewrite HF in H1s, H1m.
  replace (d + E - prec - E) with (d - prec) in H1s, H1m by lia.
  rewrite Z.max_l in H1s, H1m by lia.
  destruct (shr_fexp prec emax M E l) as [mrs' e']. cbn [fst snd] in H1s, H1m.
  set (q := shr_m mrs') in *.
  assert (0 < 2 ^ (d - prec)) as Hpow by (apply Z.pow_pos_nonneg; lia).
  assert (2 ^ (prec - 1) <= q < 2 ^ prec) as Hq.
  { assert (2 ^ (d - 1) <= M < 2 ^ d) as HMd by (apply Zdigits2_eq; lia).
    replace (d - 1) with ((prec - 1) + (d - prec)) in HMd by lia.
    replace d with (prec + (d - prec)) in HMd at 2 by lia.
    rewrite !Z.pow_add_r in HMd by lia. rewrite H1m. split.
    - apply Z.div_le_lower_bound; lia.
    - apply Z.div_lt_upper_bound; lia. }
  assert (0 < 2 ^ (prec - 1)) as Hpow' by (apply Z.pow_pos_nonneg; lia).
  set (m2 := round_nearest_even q (loc_of_shr_record mrs')).
  assert (2 ^ (prec - 1) <= m2 <= 2 ^ prec) as Hm2.
  { destruct (round_nearest_even_range q (loc_of_shr_record mrs')); subst m2; lia. }
  clearbody m2. clear H1m.
  pose proof (shr_fexp_exponent m2 e' loc_Exact) as H2s.
  pose proof (shr_fexp_mantissa m2 e' loc_Exact ltac:(lia)) as H2m.
  destruct (shr_fexp prec emax m2 e' loc_Exact) as [mrs'' e'']. cbn [fst snd] in H2s, H2m.
  destruct (Z.eq_dec m2 (2 ^ prec)) as [-> | Hne].
  - assert (Zdigits2 (2 ^ prec) = prec + 1) as Hdp.
    { apply Zdigits2_eq; [apply Z.pow_pos_nonneg; lia|lia|].
      replace (prec + 1 - 1) with prec by lia. split; [lia|].
      apply Z.pow_lt_mono_r; lia. }
    rewrite Hdp, fexp_eq in H2s, H2m.
    replace (Z.max (prec + 1 + e' - prec) (3 - emax - prec) - e') with 1 in H2s, H2m by lia.
    change (Z.max 1 0) with 1 in H2s, H2m.
    assert (2 ^ prec / 2 ^ 1 = 2 ^ (prec - 1)) as Hhalf.
    { replace prec with ((prec - 1) + 1) at 1 by lia.
      rewrite Z.pow_add_r by lia. apply Z.div_mul. lia. }
    rewrite Hhalf in H2m. rewrite H2m.
    destruct (2 ^ (prec - 1)) as [|p|p] eqn:Hp; try lia. std_Z.
    destruct (e'' <=? emax - prec)%Z; [right|by left].
    exists p, e''. split; [done|]. split; [|lia].
    apply Zdigits2_eq; [lia..|]. rewrite <- Hp. split; [lia|].
    apply Z.pow_lt_mono_r; lia.
  - assert (Zdigits2 m2 = prec) as Hdp by (apply Zdigits2_eq; lia).
    rewrite Hdp, fexp_eq in H2s, H2m.
    rewrite Z.max_r in H2s, H2m by lia. rewrite Z.div_1_r in H2m. rewrite Z.add_0_r in H2s.
    subst e''. rewrite H2m. destruct m2 as [|p|p]; try lia. std_Z.
    destruct (e' <=? emax - prec)%Z; [right|by left].
    exists p, e'. split; [done|]. split; [done|lia].
Qed.

Lemma binary_round_normal s z e :
  3 - emax <= Zdigits2 (Z.pos z) + e ->
  let x := binary_round prec emax s z e in
  x = S754_infinity s
  ∨ ∃ m e', x = S754_finite s m e' ∧ Zdigits2 (Z.pos m) = prec
            ∧ Zdigits2 (Z.pos z) + e <= e' + prec.
Proof.
  intros Hk x. subst x. unfold binary_round. std_Z.
  change (Z.pos (digits2_pos z)) with (Zdigits2 (Z.pos z)).
  set (d := Zdigits2 (Z.pos z)) in *.
  assert (fexp prec emax (d + e) = d + e - prec) as HF by (rewrite fexp_eq; lia).
  rewrite HF.
  destruct (Z.le_gt_cases (d + e - prec) e) as [Hle | Hgt].
  - destruct (shl_align_le z e (d + e - prec) Hle) as (mz & -> & Hmz).
    assert (Zdigits2 (Z.pos mz) = prec) as Hdz.
    { rewrite Hmz, Zdigits2_shift by lia. fold d. lia. }
    pose proof (binary_round_aux_normal s (Z.pos mz) (d + e - prec) loc_Exact) as H.
    cbv zeta in H. rewrite Hdz in H.
    destruct H as [H | (m & e' & H & Hd' & Hle')]; [lia..| by left |].
    right. exists m, e'. split; [done|]. split; [done|lia].
  - rewrite shl_align_ge by lia.
    pose proof (binary_round_aux_normal s (Z.pos z) e loc_Exact) as H.
    cbv zeta in H. fold d in H.
    destruct H as [H | (m & e' & H & Hd' & Hle')]; [lia..| by left |].
    right. by exists m, e'.
Qed.
End Format.

(** ** The hill shade is never below 1 *)

Lemma binary_round_aux_sign prec emax s M E l :
  let x := binary_round_aux prec emax s M E l in
  x = S754_nan ∨ x = S754_zero s ∨ x = S754_infinity s ∨ ∃ m e, x = S754_finite s m e.
Proof.
  cbv zeta. unfold binary_round_aux.
  destruct (shr_fexp prec emax M E l) as [mrs' e'].
  destruct (shr_fexp prec emax _ e' loc_Exact) as [mrs'' e''].
  destruct (shr_m mrs'') as [|p|p]; [by right; left| |by left].
  destruct (_ <=? _)%Z; [|by right; right; left]. right. right. right. by eexists _, _.
Qed.

Lemma Zdigits2_mono a b : 0 < a <= b -> Zdigits2 a <= Zdigits2 b.
Proof.
  intros H. rewrite !Zdigits2_log2 by lia.
  pose proof (Z.log2_le_mono a b). lia.
Qed.

Lemma of_Z_1 : binary64.of_Z 1 = S754_finite false 4503599627370496 (-52).
Proof. reflexivity. Qed.

Lemma one_plus_at_least_1 y :
  y = S754_nan ∨ y = S754_zero false ∨ y = S754_infinity false
  ∨ (∃ m e, y = S754_finite false m e) ->
  nan_or_at_least_1 (binary64.of_Z 1 + y)%f64.
Proof.
  rewrite of_Z_1. intros [-> | [-> | [-> | (m & e & ->)]]].
  - by left.
  - right. right. eexists _, _. split; [reflexivity|]. cbn. lia.
  - right. by left.
  - unfold binary64.add, SFadd. std_Z.
    set (ez := Z.min (-52) e).
    destruct (shl_align_le 4503599627370496 (-52) ez) as (a & -> & Ha); [lia|].
    destruct (shl_align_le m e ez) as (b & -> & Hb); [lia|].
    cbn [fst cond_Zopp]. change (Z.pos a + Z.pos b) with (Z.pos (a + b)).
    cbn [binary_normalize].
    assert (1 <= Zdigits2 (Z.pos (a + b)) + ez) as Hk.
    { assert (Zdigits2 (Z.pos a) = 53 + (-52 - ez)) as Hda.
      { rewrite Ha. change 4503599627370496 with (1 * 2 ^ 52).
        rewrite <- Z.mul_assoc, <- Z.pow_add_r by lia.
        rewrite Zdigits2_shift by lia. change (Zdigits2 1) with 1. lia. }
      pose proof (Zdigits2_mono (Z.pos a) (Z.pos (a + b)) ltac:(lia)). lia. }
    destruct (binary_round_normal binary64.prec binary64.emax ltac:(reflexivity)
                false (a + b)%positive ez) as [-> | (m' & e' & -> & Hd & Hle)].
    + change binary64.emax with 1024. lia.
    + right. by left.
    + right. right. exists m', e'. split; [done|].
      change binary64.prec with 53 in *. lia.
Qed.

Lemma narrow_at_least_1 x :
  nan_or_at_least_1 x ->
  is_nan (binary32.of_double x) = true
  ∨ (binary32.of_Z 1 <=? binary32.of_double x)%f64 = true.
Proof.
  intros [-> | [-> | (m & e & -> & Hk)]].
  - by left.
  - by right.
  - cbn [binary32.of_double].
    destruct (binary_round_normal binary32.prec binary32.emax ltac:(reflexivity)
                false m e) as [-> | (m' & e' & -> & Hd & Hle)].
    + change binary32.emax with 128. lia.
    + by right.
    + right. change binary32.prec with 24 in *.
      apply Zdigits2_eq in Hd; [|lia..]. change (2 ^ (24 - 1)) with 8388608 in Hd.
      change (binary32.of_Z 1) with (S754_finite false 8388608 (-23)).
      unfold SFleb, SFcompare. std_Z.
      destruct (Z.compare_spec (-23) e') as [<- | Hlt | Hgt]; [|done|lia].
      change (PosDef.Pos.compare_cont Eq 8388608 m') with (8388608 ?= m')%positive.
      destruct (Pos.compare_spec 8388608 m'); [done..|lia].
Qed.

(** The last step of the hill shade: [cang <= 0.0] gives 1 and a positive
    [cang] gives [1.0 + (254.0 * cang)]; the value is then stored in a
    [float]. *)
Lemma shade_never_below_1 (cang : double) :
  let cang' := if (cang <=? binary64.of_Z 0)%f64 then binary64.of_Z 1
               else (binary64.of_Z 1 + (binary64.of_Z 254 * cang))%f64 in
  is_nan (binary32.of_double cang') = true
  ∨ (binary32.of_Z 1 <=? binary32.of_double cang')%f64 = true.
Proof.
  cbv zeta. destruct (cang <=? binary64.of_Z 0)%f64 eqn:Hc; [by right|].
  apply narrow_at_least_1, one_plus_at_least_1.
  destruct cang as [s|s| |s m e].
  - by destruct s.
  - destruct s; [done|]. right. right. by left.
  - by left.
  - destruct s; [done|].
    change (binary64.of_Z 254) with (S754_finite false 8936830510563328 (-45)).
    unfold binary64.mul, SFmul. cbn [xorb].
    destruct (binary_round_aux_sign binary64.prec binary64.emax false
                (Z.pos (8936830510563328 * m)) (-45 + e) loc_Exact)
      as [H | [H | [H | H]]]; std_Z; rewrite ?H; auto.
Qed.

(** X8. Whenever the hill shade unit returns, the value it stored in
    [output[0]] is a NaN or at least 1, whatever the window, the
    resolutions, the sun angles and the maths library are: the unit
    replaces every shade that is not positive by 1 and maps the others to
    [1 + 254 * shade]. *)
Theorem hill_shade_is_never_below_1 M (this : RSGISCalcHillShade.t) dataBlock
    numBands winSize output out' :
  RSGISCalcHillShade.calcImageValue M this dataBlock numBands winSize output = Ret out' ->
  ∃ shade, out' = <[0%nat:=shade]> output
    ∧ (is_nan shade = true ∨ (binary32.of_Z 1 <=? shade)%f64 = true).
Proof.
  unfold RSGISCalcHillShade.calcImageValue.
  destruct (check_window _ _ _) as [[]| |]; [|discriminate..].
  cbn [mbind outcome_bind].
  destruct (shade_dx _ _) as [dx| |]; [|discriminate..]. cbn [mbind outcome_bind].
  destruct (shade_dy _ _) as [dy| |]; [|discriminate..]. cbn [mbind outcome_bind].
  cbv zeta. intros [_ ->]%wr_ret. eexists. split; [reflexivity|].
  apply shade_never_below_1.
Qed.

Lemma hill_shade_is_never_below_1_witness :
  ∃ shade, [S754_finite false 14435916 (-16)] = <[0%nat:=shade]> [S754_nan]
    ∧ (is_nan shade = true ∨ (binary32.of_Z 1 <=? shade)%f64 = true).
Proof.
  apply (hill_shade_is_never_below_1 reference.lib
           (RSGISCalcHillShade.new 0 (binary32.of_Z 1) (binary32.of_Z 1)
              (binary32.of_Z 45) (binary32.of_Z 315)) ramp 1 3 [S754_nan]).
  vm_compute. reflexivity.
Defined.

(** ** The hill shade of flat terrain *)

(** A mantissa of 54 digits whose last bit is 0 is rounded to its upper
    53 digits. *)
Lemma binary_round_aux_even s m e :
  Zdigits2 (Z.pos m) = 53 -> -1074 <= e <= 971 ->
  binary_round_aux 53 1024 s (Z.pos m~0) (e - 1) loc_Exact = S754_finite s m e.
Proof.
  intros Hd He. unfold binary_round_aux.
  assert (Zdigits2 (Z.pos m~0) = 54) as Hd2.
  { replace (Z.pos m~0) with (Z.pos m * 2 ^ 1) by lia. rewrite Zdigits2_shift by lia. lia. }
  unfold shr_fexp at 1. rewrite Hd2, fexp64. std_Z.
  replace (Z.max (54 + (e - 1) - 53) (-1074) - (e - 1)) with 1 by lia.
  cbn [shr shr_record_of_loc SpecFloat.iter_pos shr_1 loc_of_shr_record shr_m
       round_nearest_even orb].
  std_Z. rewrite shr_fexp_exact by (rewrite Hd, fexp64; lia).
  cbn [shr_record_of_loc shr_m]. std_Z.
  rewrite (proj2 (Z.leb_le _ _)) by lia. f_equal. lia.
Qed.

Lemma div_eucl_pow2 a k :
  0 <= a -> 0 <= k -> Z.div_eucl (a * 2 ^ k * 4503599627370496) 4503599627370496
                      = (a * 2 ^ k, 0).
Proof.
  intros Ha Hk. assert (0 < 2 ^ k) by (apply Z.pow_pos_nonneg; lia).
  pose proof (Z.div_eucl_eq (a * 2 ^ k * 4503599627370496) 4503599627370496 ltac:(lia))
    as Heq.
  pose proof (Z.mod_pos_bound (a * 2 ^ k * 4503599627370496) 4503599627370496 ltac:(lia))
    as Hb.
  unfold Z.modulo in Hb. destruct (Z.div_eucl _ _) as [q r]. f_equal; nia.
Qed.

(** Dividing a number by 1 gives the number. *)
Lemma div_one_exact s m e :
  binary64.valid (S754_finite s m e) = true ->
  (S754_finite s m e / binary64.of_Z 1)%f64 = S754_finite s m e.
Proof.
  unfold binary64.valid, valid_binary, bounded, canonical_mantissa.
  change binary64.prec with 53. change binary64.emax with 1024.
  intros [Hc He]%andb_prop. std_Z. apply Z.eqb_eq in Hc. apply Z.leb_le in He.
  change (Z.pos (digits2_pos m)) with (Zdigits2 (Z.pos m)) in Hc.
  pose proof (Zdigits2_pos (Z.pos m) ltac:(lia)) as Hdpos.
  set (d := Zdigits2 (Z.pos m)) in *. rewrite fexp64 in Hc.
  rewrite of_Z_1. unfold binary64.div, SFdiv, SFdiv_core_binary.
  change binary64.prec with 53. change binary64.emax with 1024.
  std_Z. change IntDef.Z.div_eucl with Z.div_eucl.
  fold d. change (Zdigits2 4503599627370496) with 53. rewrite fexp64.
  replace (xorb s false) with s by (by destruct s).
  destruct (Z.eq_dec e (-1074)) as [Hsub | Hnorm].
  - replace (Z.min (Z.max (d + e - (53 + -52) - 53) (-1074)) (e - -52)) with e by lia.
    replace (e - -52 - e) with 52 by lia.
    rewrite Z.shiftl_mul_pow2 by lia.
    replace (Z.pos m * 2 ^ 52) with (Z.pos m * 2 ^ 0 * 4503599627370496) by lia.
    rewrite div_eucl_pow2 by lia. rewrite Z.mul_1_r.
    change (new_location 4503599627370496 0) with loc_Exact.
    apply binary_round_aux_exact; [|lia]. fold d. rewrite fexp_eq. lia.
  - assert (d = 53) as Hd53 by lia.
    replace (Z.min (Z.max (d + e - (53 + -52) - 53) (-1074)) (e - -52)) with (e - 1) by lia.
    replace (e - -52 - (e - 1)) with 53 by lia.
    rewrite Z.shiftl_mul_pow2 by lia.
    replace (Z.pos m * 2 ^ 53) with (Z.pos m * 2 ^ 1 * 4503599627370496) by lia.
    rewrite div_eucl_pow2 by lia.
    change (new_location 4503599627370496 0) with loc_Exact.
    replace (Z.pos m * 2 ^ 1) with (Z.pos m~0) by lia.
    apply binary_round_aux_even; [done|lia].
Qed.

Lemma mul_zero_r x s :
  is_finite x = true -> ∃ s', (x * S754_zero s)%f64 = S754_zero s'.
Proof. destruct x; try discriminate; intros _; by eexists. Qed.

Lemma mul_zero_l x s :
  is_finite x = true -> ∃ s', (S754_zero s * x)%f64 = S754_zero s'.
Proof. destruct x; try discriminate; intros _; by eexists. Qed.

(** The shade value before its last step, where the gradient is zero: the
    sine of the sun zenith. *)
Lemma flat_shade (sinZ cosZ sinA dx dy : double) :
  binary64.valid sinZ = true -> is_finite sinZ = true ->
  is_finite cosZ = true -> is_finite sinA = true ->
  is_zero dx = true -> is_zero dy = true ->
  let xx_plus_yy := (dx * dx + dy * dy)%f64 in
  let cang := ((sinZ - cosZ * binary64.sqrt xx_plus_yy * sinA)
               / binary64.sqrt (binary64.of_Z 1 + binary64.of_Z 1 * xx_plus_yy))%f64 in
  (if (cang <=? binary64.of_Z 0)%f64 then binary64.of_Z 1
   else (binary64.of_Z 1 + (binary64.of_Z 254 * cang))%f64)
  = (if (sinZ <=? binary64.of_Z 0)%f64 then binary64.of_Z 1
     else (binary64.of_Z 1 + (binary64.of_Z 254 * sinZ))%f64).
Proof.
  intros Hv Hs Hc Ha Hx Hy. cbv zeta.
  assert ((dx * dx + dy * dy)%f64 = S754_zero false) as ->.
  { destruct dx as [[]| | |], dy as [[]| | |]; try discriminate; reflexivity. }
  change (binary64.sqrt (S754_zero false)) with (S754_zero false).
  change (binary64.sqrt (binary64.of_Z 1 + binary64.of_Z 1 * S754_zero false)%f64)
    with (binary64.of_Z 1).
  destruct (mul_zero_r cosZ false Hc) as (s1 & ->).
  destruct (mul_zero_l sinA s1 Ha) as (s2 & ->).
  destruct sinZ as [sz| | |sz m e]; try discriminate Hs.
  - by destruct sz, s2.
  - change (S754_finite sz m e - S754_zero s2)%f64 with (S754_finite sz m e).
    by rewrite div_one_exact.
Qed.

(** X9. On a 3x3 window of a band inside the image whose cells all hold one
    value [c], with [c + c + c + c] finite and eight times each resolution
    a number other than zero, the hill shade does not depend on the sun
    azimuth: with [s] the sine of the sun zenith angle in radians, the
    unit stores 1 where [s <= 0] and [1 + 254 * s] otherwise, rounded to
    [float] (given that the library's sines and cosines of the angles are
    finite). *)
Theorem flat_window_hill_shade M band ewRes nsRes sunZenith sunAzimuth dataBlock numBands
    output c :
  let zenith := (binary64.of_float sunZenith * degreesToRadians)%f64 in
  band_lt band numBands = true ->
  uniform dataBlock band c ->
  is_finite (sum4 c) = true ->
  resolution_ok (ewRes * binary32.of_Z 8)%f32 = true ->
  resolution_ok (nsRes * binary32.of_Z 8)%f32 = true ->
  binary64.valid (sin M zenith) = true -> is_finite (sin M zenith) = true ->
  is_finite (cos M zenith) = true ->
  (∀ s1 s2, is_finite (shade_angle M (atan2 M (S754_zero s1) (S754_zero s2))
                         (binary64.of_float sunAzimuth)) = true) ->
  (0 < length output)%nat ->
  RSGISCalcHillShade.calcImageValue M
    (RSGISCalcHillShade.new band ewRes nsRes sunZenith sunAzimuth)
    dataBlock numBands 3 output
  = Ret (<[0%nat:=binary32.of_double
                   (if (sin M zenith <=? binary64.of_Z 0)%f64 then binary64.of_Z 1
                    else (binary64.of_Z 1 + (binary64.of_Z 254 * sin M zenith))%f64)]>
           output).
Proof.
  intros zenith Hband Hu Hc Hew Hns Hv Hs Hcos Hsin Hout.
  unfold RSGISCalcHillShade.calcImageValue.
  cbn [RSGISCalcHillShade.band RSGISCalcHillShade.ewRes RSGISCalcHillShade.nsRes
       RSGISCalcHillShade.sunZenith RSGISCalcHillShade.sunAzimuth].
  rewrite check_window_ok by done. cbn [mbind outcome_bind].
  assert (∃ dx, shade_dx (rd dataBlock band) ewRes = Ret dx ∧ is_zero dx = true)
    as (dx & -> & Hdx).
  { eexists. unfold shade_dx. rewrite !Hu by lia. split; [reflexivity|].
    by apply flat_difference. }
  assert (∃ dy, shade_dy (rd dataBlock band) nsRes = Ret dy ∧ is_zero dy = true)
    as (dy & -> & Hdy).
  { eexists. unfold shade_dy. rewrite !Hu by lia. split; [reflexivity|].
    by apply flat_difference. }
  cbn [mbind outcome_bind]. cbv zeta. rewrite wr_ok by done. do 3 f_equal.
  fold zenith.
  apply (flat_shade (sin M zenith) (cos M zenith)
           (shade_angle M (atan2 M dy dx) (binary64.of_float sunAzimuth))); try done.
  destruct dx as [s2| | |], dy as [s1| | |]; try discriminate. apply Hsin.
Qed.

(** Flat terrain under a sun at zenith 45: a shade of about 180.6. *)
Lemma flat_window_hill_shade_witness :
  let f := binary32.of_Z in
  RSGISCalcHillShade.calcImageValue reference.lib
    (RSGISCalcHillShade.new 0 (f 30) (f 30) (f 45) (f 315))
    [square 3 (f 100)] 1 3 [S754_nan]
  = Ret [S754_finite false 11836137 (-16)].
Proof.
  intros f.
  rewrite (flat_window_hill_shade reference.lib 0 (f 30) (f 30) (f 45) (f 315)
             [square 3 (f 100)] 1 [S754_nan] (f 100)).
  - vm_compute. reflexivity.
  - reflexivity.
  - intros i j Hi Hj.
    assert (i = 0 ∨ i = 1 ∨ i = 2) as [-> | [-> | ->]] by lia;
    assert (j = 0 ∨ j = 1 ∨ j = 2) as [-> | [-> | ->]] by lia; reflexivity.
  - reflexivity.
  - reflexivity.
  - reflexivity.
  - vm_compute. reflexivity.
  - vm_compute. reflexivity.
  - vm_compute. reflexivity.
  - intros [] []; vm_compute; reflexivity.
  - simpl. lia.
Defined.

(** ** The shadow mask *)




(** ** Holes in derived layers *)

Lemma scan_row_spec (row : Z -> outcome float) (c : Z -> float) h js f :
  (∀ j, j ∈ js -> row j = Ret (c j)) ->
  RSGISInFillDerivedHoles.scan_row row h js f
  = Ret (existsb (λ j, (c j =? h)%f64) js || f).
Proof.
  induction js as [|j js IH]; intros Hrow; cbn [RSGISInFillDerivedHoles.scan_row existsb].
  - done.
  - rewrite Hrow by apply list_elem_of_here. cbn [mbind outcome_bind].
    destruct (c j =? h)%f64; [done|].
    rewrite IH; [done|]. intros j' Hj'. apply Hrow. by apply list_elem_of_further.
Qed.

Lemma scan_rows_spec (band0 : Z -> Z -> outcome float) (c : Z -> Z -> float) h is_ f :
  (∀ i j, i ∈ is_ -> j ∈ [0; 1; 2] -> band0 i j = Ret (c i j)) ->
  RSGISInFillDerivedHoles.scan_rows band0 h is_ f
  = Ret (existsb (λ i, existsb (λ j, (c i j =? h)%f64) [0; 1; 2]) is_ || f).
Proof.
  revert f. induction is_ as [|i is_ IH]; intros f Hb;
    cbn [RSGISInFillDerivedHoles.scan_rows existsb].
  - done.
  - rewrite (scan_row_spec _ (c i)) by (intros; apply Hb; [apply list_elem_of_here|done]).
    cbn [mbind outcome_bind]. rewrite IH.
    + f_equal. rewrite orb_assoc. f_equal. apply orb_comm.
    + intros i' j Hi' Hj. apply Hb; [by apply list_elem_of_further|done].
Qed.

Lemma elem_of_012 i : i ∈ [0; 1; 2] ↔ 0 ≤ i < 3.
Proof.
  rewrite !elem_of_cons, elem_of_nil. lia.
Qed.

(** X11. The unit that fills holes in a derived layer stores the centre of
    band 2 where one of the nine cells of rows and columns 0 to 2 of band 0
    equals the hole value, and the centre of band 1 where none of them
    does. *)
Theorem infill_reads_band_2_beside_a_hole (this : RSGISInFillDerivedHoles.t)
    dataBlock numBands winSize output mid (c : Z -> Z -> float) :
  RSGISInFillDerivedHoles.midPoint winSize = Some mid ->
  (∀ i j, 0 ≤ i < 3 -> 0 ≤ j < 3 -> rd dataBlock 0 i j = Ret (c i j)) ->
  (0 < length output)%nat ->
  ((∃ i j, 0 ≤ i < 3 ∧ 0 ≤ j < 3
           ∧ (c i j =? RSGISInFillDerivedHoles.holeValue this)%f64 = true) ->
   ∀ v, rd dataBlock 2 mid mid = Ret v ->
     RSGISInFillDerivedHoles.calcImageValue this dataBlock numBands winSize output
     = Ret (<[0%nat:=v]> output))
  ∧ ((∀ i j, 0 ≤ i < 3 -> 0 ≤ j < 3
             -> (c i j =? RSGISInFillDerivedHoles.holeValue this)%f64 = false) ->
     ∀ v, rd dataBlock 1 mid mid = Ret v ->
       RSGISInFillDerivedHoles.calcImageValue this dataBlock numBands winSize output
       = Ret (<[0%nat:=v]> output)).
Proof.
  intros Hmid Hc Hlen. unfold RSGISInFillDerivedHoles.calcImageValue. rewrite Hmid.
  rewrite (scan_rows_spec _ c) by (intros i j ?%elem_of_012 ?%elem_of_012; by apply Hc).
  rewrite orb_false_r. cbn [mbind outcome_bind]. split.
  - intros (i & j & Hi & Hj & Heq) v Hv.
    replace (existsb _ _) with true;
      [rewrite Hv; cbn [mbind outcome_bind]; by rewrite wr_ok|].
    symmetry. apply existsb_exists. exists i. split; [by apply list_elem_of_In, elem_of_012|].
    apply existsb_exists. exists j. split; [by apply list_elem_of_In, elem_of_012|done].
  - intros Hno v Hv.
    replace (existsb _ _) with false;
      [rewrite Hv; cbn [mbind outcome_bind]; by rewrite wr_ok|].
    symmetry. apply not_true_is_false. intros (i & Hi & (j & Hj & Heq)%existsb_exists)%existsb_exists.
    apply list_elem_of_In, elem_of_012 in Hi, Hj. rewrite Hno in Heq by done. discriminate.
Qed.

Lemma infill_reads_band_2_beside_a_hole_witness :
  RSGISInFillDerivedHoles.calcImageValue (RSGISInFillDerivedHoles.new (binary32.of_Z (-9999)))
    window_with_a_hole 3 3 [S754_nan]
  = Ret [binary32.of_Z 56].
Proof.
  refine (proj1 (infill_reads_band_2_beside_a_hole
           (RSGISInFillDerivedHoles.new (binary32.of_Z (-9999)))
           window_with_a_hole 3 3 [S754_nan] 1
           (λ i j, if (i =? 0) && (j =? 2) then binary32.of_Z (-9999) else binary32.of_Z 12)
           _ _ _) _ (binary32.of_Z 56) _).
  - reflexivity.
  - intros i j Hi Hj.
    assert (i = 0 ∨ i = 1 ∨ i = 2) as [-> | [-> | ->]] by lia;
    assert (j = 0 ∨ j = 1 ∨ j = 2) as [-> | [-> | ->]] by lia; reflexivity.
  - simpl. lia.
  - exists 0, 2. split; [lia|]. split; [lia|]. reflexivity.
  - reflexivity.
Defined.

Lemma SFeqb_nan_r x h : is_nan h = true -> (x =? h)%f64 = false.
Proof. destruct h; try discriminate. by destruct x. Qed.

(** X12. A hole value that is a NaN marks no cell: the DEM hole filler then
    copies the centres of its three bands to the output whatever band 0
    holds, and the filler of derived layers always stores the centre of
    band 1. *)
Theorem nan_hole_value_never_matches (fill : RSGISFillDEMHoles.t)
    (infill : RSGISInFillDerivedHoles.t) dataBlock numBands winSize output mid
    (c : Z -> Z -> float) c0 c1 c2 :
  is_nan (RSGISFillDEMHoles.holeValue fill) = true ->
  is_nan (RSGISInFillDerivedHoles.holeValue infill) = true ->
  RSGISFillDEMHoles.numOutBands fill = 3 ->
  RSGISFillDEMHoles.midPoint winSize = Some mid ->
  (∀ i j, 0 ≤ i < 3 -> 0 ≤ j < 3 -> rd dataBlock 0 i j = Ret (c i j)) ->
  rd dataBlock 0 mid mid = Ret c0 ->
  rd dataBlock 1 mid mid = Ret c1 ->
  rd dataBlock 2 mid mid = Ret c2 ->
  (3 <= length output)%nat ->
  RSGISFillDEMHoles.calcImageValue fill dataBlock 3 winSize output
  = Ret (fill, <[2%nat:=c2]> (<[1%nat:=c1]> (<[0%nat:=c0]> output)))
  ∧ RSGISInFillDerivedHoles.calcImageValue infill dataBlock numBands winSize output
    = Ret (<[0%nat:=c1]> output).
Proof.
  intros Hf Hi Hn Hmid Hc H0 H1 H2 Hlen. split.
  - unfold RSGISFillDEMHoles.calcImageValue.
    rewrite Hn, Hmid, H0. cbn [negb Z.eqb Pos.eqb mbind outcome_bind].
    rewrite SFeqb_nan_r by done. rewrite H1, H2.
    rewrite wr_ok by lia. cbn [mbind outcome_bind].
    rewrite wr_ok by (rewrite length_insert; lia). cbn [mbind outcome_bind].
    rewrite wr_ok by (rewrite !length_insert; lia). done.
  - unfold RSGISInFillDerivedHoles.calcImageValue, RSGISInFillDerivedHoles.midPoint.
    rewrite Hmid.
    rewrite (scan_rows_spec _ c) by (intros i j ?%elem_of_012 ?%elem_of_012; by apply Hc).
    cbn [existsb]. rewrite !SFeqb_nan_r by done. cbn [orb mbind outcome_bind].
    rewrite H1. cbn [mbind outcome_bind]. by rewrite wr_ok by lia.
Qed.

(** A window whose first band holds nothing but NaN. *)
Lemma nan_hole_value_never_matches_witness :
  let f := binary32.of_Z in
  let fill := RSGISFillDEMHoles.new S754_nan (f 0) false in
  let dataBlock := [square 3 S754_nan; square 3 (f 34); square 3 (f 56)] in
  RSGISFillDEMHoles.calcImageValue fill dataBlock 3 3 [f 1; f 2; f 3]
    = Ret (fill, [S754_nan; f 34; f 56])
  ∧ RSGISInFillDerivedHoles.calcImageValue (RSGISInFillDerivedHoles.new S754_nan)
      dataBlock 3 3 [f 1; f 2; f 3]
    = Ret [f 34; f 2; f 3].
Proof.
  intros f fill dataBlock.
  apply (nan_hole_value_never_matches fill (RSGISInFillDerivedHoles.new S754_nan)
           dataBlock 3 3 [f 1; f 2; f 3] 1 (λ _ _, S754_nan)
           S754_nan (f 34) (f 56)); [reflexivity ..| |reflexivity|reflexivity|reflexivity|].
  - intros i j Hi Hj.
    assert (i = 0 ∨ i = 1 ∨ i = 2) as [-> | [-> | ->]] by lia;
    assert (j = 0 ∨ j = 1 ∨ j = 2) as [-> | [-> | ->]] by lia; reflexivity.
  - simpl. lia.
Defined.

(** X13. For a window size from 0 to below 2^24, the centre index that the
    two hole fillers compute as [floor(((float)winSize)/2.0)] is the
    integer quotient [winSize / 2]: the conversions and the division in
    floating point lose nothing. *)
Theorem window_centre_is_half_the_window_size winSize :
  0 <= winSize < 2 ^ 24 ->
  RSGISFillDEMHoles.midPoint winSize = Some (winSize / 2)
  ∧ RSGISInFillDerivedHoles.midPoint winSize = Some (winSize / 2).
Proof.
  intros Hw. unfold RSGISInFillDerivedHoles.midPoint.
  cut (RSGISFillDEMHoles.midPoint winSize = Some (winSize / 2)); [done|].
  destruct (Z.eq_dec winSize 0) as [-> | Hnz]; [reflexivity|].
  unfold RSGISFillDEMHoles.midPoint.
  destruct (of_Z_small winSize) as (m & -> & Hm); [lia|].
  assert (1 <= Zdigits2 winSize <= 24) as Hd.
  { split; [pose proof (Zdigits2_pos winSize); lia|]. apply Zdigits2_le; lia. }
  set (d := Zdigits2 winSize) in *.
  assert (Zdigits2 (Z.pos m) = 53) as Hd53.
  { rewrite Hm, Zdigits2_shift by lia. fold d. lia. }
  rewrite halve_exact by (done || lia).
  unfold floor_to_int. rewrite (proj2 (Z.leb_gt _ _)) by lia.
  cbn [cond_Zopp]. f_equal. rewrite Hm.
  replace (- (d - 53 - 1)) with (1 + (53 - d)) by lia.
  rewrite Z.pow_add_r by lia. change (2 ^ 1) with 2.
  assert (0 < 2 ^ (53 - d)) by (apply Z.pow_pos_nonneg; lia).
  rewrite Z.div_mul_cancel_r by lia. done.
Qed.

(** The window of the 3x3 units has its centre in cell 1, and a window of
    four cells in cell 2. *)
Lemma window_centre_is_half_the_window_size_witness :
  (RSGISFillDEMHoles.midPoint 3 = Some 1 ∧ RSGISInFillDerivedHoles.midPoint 3 = Some 1)
  ∧ (RSGISFillDEMHoles.midPoint 4 = Some 2 ∧ RSGISInFillDerivedHoles.midPoint 4 = Some 2).
Proof.
  split.
  - apply (window_centre_is_half_the_window_size 3). lia.
  - apply (window_centre_is_half_the_window_size 4). lia.
Defined.

(** ** Commands over a stack of band images *)

Lemma open_landsat_bands_stack bands : ∀ datasets offs total w,
  open_landsat_bands bands datasets offs total w
  = open_band_images imagePath band bands datasets offs total w.
Proof.
  induction bands as [|b bands IH]; intros; cbn [open_landsat_bands open_band_images].
  - done.
  - unfold mbind at 1 3, cmd_bind.
    destruct (GDALOpen (imagePath b) w) as [[[ds|]|e] w1]; [|done..].
    unfold mbind at 1 2, cmd_bind. unfold GetRasterCount at 1 2.
    destruct (_ <? _)%Z; [done|]. apply IH.
Qed.

Section StackProperties.
Context {A : Type} (imagePath : A -> string) (band : A -> Z).

Lemma open_band_images_ok bands : ∀ datasets offs total w ds' offs' w',
  open_band_images imagePath band bands datasets offs total w = (Ok (ds', offs'), w') ->
  ds' = datasets ++ seq (next_handle w) (length bands)
  ∧ next_handle w' = (next_handle w + length bands)%nat
  ∧ files w' = files w ∧ runs w' = runs w
  ∧ (∀ h, (h < next_handle w)%nat -> datasets_open w' !! h = datasets_open w !! h)
  ∧ (handles_fresh w -> handles_fresh w').
Proof.
  induction bands as [|b bands IH]; intros datasets offs total w ds' offs' w';
    cbn [open_band_images].
  - intros [= <- <- <-]. cbn [length seq]. rewrite app_nil_r, Nat.add_0_r. done.
  - unfold mbind at 1, cmd_bind. unfold GDALOpen at 1.
    destruct (files w !! imagePath b) as [img|] eqn:Hf; [|discriminate].
    unfold mbind at 1, cmd_bind. unfold GetRasterCount at 1.
    destruct (_ <? _)%Z; [discriminate|].
    intros H. apply IH in H as (-> & Hn & Hfiles & Hruns & Hold & Hfresh).
    cbn [next_handle files runs datasets_open] in *.
    repeat split.
    + by rewrite <- app_assoc.
    + cbn [length]. lia.
    + done.
    + done.
    + intros h Hh. rewrite Hold by lia. apply lookup_insert_ne. lia.
    + intros Hw. apply Hfresh. intros h Hh. cbn [next_handle datasets_open] in *.
      rewrite lookup_insert_ne by lia. apply Hw. lia.
Qed.
End StackProperties.

Lemma close_all_spec datasets : ∀ w,
  ∃ w', close_all datasets w = (Ok tt, w')
    ∧ files w' = files w ∧ runs w' = runs w ∧ next_handle w' = next_handle w
    ∧ ∀ h, datasets_open w' !! h
           = if decide (h ∈ datasets) then None else datasets_open w !! h.
Proof.
  induction datasets as [|d datasets IH]; intros w; cbn [close_all].
  - exists w. repeat split.
  - unfold mbind, cmd_bind, GDALClose.
    edestruct IH as (w' & -> & Hf & Hr & Hn & Ho).
    exists w'. repeat split; try done. intros h. rewrite Ho.
    cbn [datasets_open].
    destruct (decide (h ∈ d :: datasets)) as [Hin|Hnin];
      destruct (decide (h ∈ datasets)) as [Hin'|Hnin']; try done.
    + apply elem_of_cons in Hin as [-> | ?]; [|done]. apply lookup_delete_eq.
    + destruct Hnin. by apply list_elem_of_further.
    + apply lookup_delete_ne. intros ->. destruct Hnin. apply list_elem_of_here.
Qed.

Lemma stack_command_releases {A} (imagePath : A -> string) (band : A -> Z) engine
    (outputImage : string) bands w w' :
  handles_fresh w ->
  try_cmd (
    '(datasets, _) ← open_band_images imagePath band bands [] [] 0;
    _ ← calcImage engine datasets outputImage;
    close_all datasets) w = (Ok tt, w') ->
  datasets_open w' = datasets_open w
  ∧ files w' = files w
  ∧ runs w' = runs w ++ [(seq (next_handle w) (length bands), outputImage)].
Proof.
  intros Hw. unfold try_cmd, mbind, cmd_bind.
  destruct (open_band_images _ _ _ _ _ _ w) as [[[ds offs]|e] w1] eqn:Ho; [|discriminate].
  apply open_band_images_ok in Ho as (-> & Hn & Hf & Hr & Hold & Hfresh).
  cbn [app]. unfold calcImage at 1.
  destruct (engine w1 _ outputImage); [discriminate|].
  match goal with |- context [close_all ?d ?w] =>
    destruct (close_all_spec d w) as (w2 & -> & Hf2 & Hr2 & Hn2 & Ho2) end.
  intros [= <-]. cbn [files runs next_handle datasets_open] in *.
  repeat split; [|congruence|congruence].
  apply map_eq. intros h. rewrite Ho2. case_decide as Hin.
  - apply elem_of_seq in Hin. symmetry. apply Hw. lia.
  - destruct (decide (h < next_handle w)%nat); [by apply Hold|].
    rewrite Hw by lia. apply Hfresh; [done|]. rewrite Hn.
    rewrite elem_of_seq in Hin. lia.
Qed.

Lemma handles_fresh_fresh files : handles_fresh (fresh files).
Proof. intros h _. apply lookup_empty. Qed.

(** X14. Started where no handle beyond the next one is open, a Landsat
    radiance conversion, its multiply-and-add variant and the saturation
    mask that return normally leave the open datasets and the files as
    they found them, and have run the engine once: on the handles they
    opened, one per entry in the order of the entries, and with the output
    image they were given. *)
Theorem stacked_band_commands_release_their_datasets engine outputImage gdalFormat
    (landsat : list CmdsLandsatRadianceGainsOffsets)
    (multiAdd : list CmdsLandsatRadianceGainsOffsetsMultiAdd.t)
    (saturated : list CmdsSaturatedPixel.t) w w' :
  handles_fresh w ->
  (executeConvertLandsat2Radiance engine outputImage gdalFormat landsat w = (Ok tt, w') ->
   datasets_open w' = datasets_open w ∧ files w' = files w
   ∧ runs w' = runs w ++ [(seq (next_handle w) (length landsat), outputImage)])
  ∧ (executeConvertLandsat2RadianceMultiAdd engine outputImage gdalFormat multiAdd w
       = (Ok tt, w') ->
     datasets_open w' = datasets_open w ∧ files w' = files w
     ∧ runs w' = runs w ++ [(seq (next_handle w) (length multiAdd), outputImage)])
  ∧ (executeGenerateSaturationMask engine outputImage gdalFormat saturated w = (Ok tt, w') ->
     datasets_open w' = datasets_open w ∧ files w' = files w
     ∧ runs w' = runs w ++ [(seq (next_handle w) (length saturated), outputImage)]).
Proof.
  intros Hw. split; [|split].
  - intros H. by apply (stack_command_releases imagePath band engine).
  - by apply stack_command_releases.
  - by apply stack_command_releases.
Qed.

Lemma stacked_band_commands_release_their_datasets_witness :
  let bands := [saturated_band "band1.kea" 1; saturated_band "saturate.kea" 3] in
  let w' := (executeGenerateSaturationMask engine_ok "mask.kea" "KEA" bands (fresh disk)).2 in
  datasets_open w' = ∅ ∧ files w' = disk ∧ runs w' = [([0; 1]%nat, "mask.kea")].
Proof.
  intros bands w'.
  apply (proj2 (proj2 (stacked_band_commands_release_their_datasets engine_ok "mask.kea"
           "KEA" [] [] bands (fresh disk) w' (handles_fresh_fresh disk)))).
  vm_compute. reflexivity.
Defined.

Lemma to_unsigned_range n : 0 ≤ to_unsigned n < 2 ^ 32.
Proof. unfold to_unsigned. apply Z.mod_pos_bound. lia. Qed.

Lemma to_unsigned_small n : 0 ≤ n < 2 ^ 32 -> to_unsigned n = n.
Proof. intros H. unfold to_unsigned. by apply Z.mod_small. Qed.

Lemma raster_bands_nonneg files path : 0 ≤ raster_bands files path.
Proof. apply to_unsigned_range. Qed.

Lemma bands_before_nonneg files paths i : 0 ≤ bands_before files paths i.
Proof.
  unfold bands_before. induction (take i paths) as [|p ps IH]; cbn; [lia|].
  pose proof (raster_bands_nonneg files p). lia.
Qed.

Lemma bands_before_0 files paths : bands_before files paths 0 = 0.
Proof. reflexivity. Qed.

Lemma bands_before_cons files p paths i :
  bands_before files (p :: paths) (S i) = raster_bands files p + bands_before files paths i.
Proof. reflexivity. Qed.

Lemma bands_before_mono files paths i :
  bands_before files paths i ≤ bands_before files paths (length paths).
Proof.
  revert i. induction paths as [|p paths IH]; intros [|i]; cbn [length]; try done.
  - apply bands_before_nonneg.
  - rewrite !bands_before_cons. specialize (IH i). lia.
Qed.

Section StackIndex.
Context {A : Type} (imagePath : A -> string) (band : A -> Z).

Lemma open_band_images_index bands : ∀ datasets offs total w ds' offs' w',
  open_band_images imagePath band bands datasets offs total w = (Ok (ds', offs'), w') ->
  Forall (λ b, 1 ≤ band b) bands ->
  0 ≤ total ->
  total + bands_before (files w) (imagePath <$> bands) (length bands) < 2 ^ 32 ->
  ∃ news, offs' = offs ++ news ∧
    ∀ i b, bands !! i = Some b ->
      let before := total + bands_before (files w) (imagePath <$> bands) i in
      news !! i = Some (before + band b - 1)
      ∧ before ≤ before + band b - 1
        < total + bands_before (files w) (imagePath <$> bands) (S i).
Proof.
  induction bands as [|b bands IH]; intros datasets offs total w ds' offs' w';
    cbn [open_band_images].
  - intros [= <- <- <-] _ _ _. exists []. split; [by rewrite app_nil_r|]. by intros i b.
  - unfold mbind at 1, cmd_bind. unfold GDALOpen at 1.
    destruct (files w !! imagePath b) as [img|] eqn:Hf; [|discriminate].
    unfold mbind at 1, cmd_bind. unfold GetRasterCount at 1, image_of.
    cbn [datasets_open files]. rewrite lookup_insert_eq. cbn [mbind option_bind].
    rewrite Hf. cbn [fmap option_fmap option_map default id].
    destruct (_ <? _)%Z eqn:Hcmp; [discriminate|]. apply Z.ltb_ge in Hcmp.
    intros H Hpos Htot Hsum. apply Forall_cons in Hpos as [Hb Hpos].
    assert (raster_bands (files w) (imagePath b) = to_unsigned (rasterCount img)) as Hrb
      by (unfold raster_bands; by rewrite Hf).
    pose proof (to_unsigned_range (rasterCount img)) as Hr.
    pose proof (bands_before_nonneg (files w) (imagePath <$> bands) (length bands)) as Hnn.
    cbn [fmap list_fmap length] in *.
    change (list_fmap A string imagePath bands) with (imagePath <$> bands) in *.
    rewrite bands_before_cons, Hrb in Hsum.
    apply IH in H as (news & -> & Hnews); cbn [files]; try done.
    + exists (to_unsigned (total + band b - 1) :: news).
      split; [by rewrite <- app_assoc|].
      intros [|i] b' Hi.
      * injection Hi as <-. cbv zeta. change ((?x :: news) !! 0%nat) with (Some x).
        rewrite bands_before_cons, !bands_before_0, Hrb, !Z.add_0_r.
        rewrite to_unsigned_small by lia. split; [done|lia].
      * change ((b :: bands) !! S i) with (bands !! i) in Hi.
        cbv zeta. change ((?x :: news) !! S i) with (news !! i).
        rewrite !bands_before_cons, Hrb.
        specialize (Hnews i b' Hi). cbv zeta in Hnews. cbn [files] in Hnews.
        rewrite to_unsigned_small in Hnews by lia.
        destruct Hnews as [Hn Hrange]. split.
        -- rewrite Hn. f_equal. lia.
        -- lia.
    + rewrite to_unsigned_small by lia. lia.
    + rewrite to_unsigned_small by lia. lia.
Qed.
End StackIndex.

(** X15. Where the loop over the Landsat bands succeeds, every band number is
    at least 1 and the images have fewer than 2^32 bands in all, the index
    it computes for entry [i] is the number of bands of the images before
    it plus its band number less 1: an index into the bands of the entry's
    own image in the stack. *)
Theorem landsat_stack_index_addresses_its_own_image bands w datasets lsRadGainOffs_band w' :
  open_landsat_bands bands [] [] 0 w = (Ok (datasets, lsRadGainOffs_band), w') ->
  Forall (λ b, 1 ≤ band b) bands ->
  bands_before (files w) (imagePath <$> bands) (length bands) < 2 ^ 32 ->
  ∀ i b, bands !! i = Some b ->
    let before := bands_before (files w) (imagePath <$> bands) i in
    lsRadGainOffs_band !! i = Some (before + band b - 1)
    ∧ before ≤ before + band b - 1 < bands_before (files w) (imagePath <$> bands) (S i).
Proof.
  intros H Hpos Hsum i b Hi. rewrite open_landsat_bands_stack in H.
  apply open_band_images_index in H as (news & -> & Hnews); [|done|lia|lia].
  apply (Hnews i b Hi).
Qed.

(** Band 3 of the third image, after images of 6 bands and of 1 band. *)
Lemma landsat_stack_index_addresses_its_own_image_witness :
  let bands := [landsat_band "refl.kea" 2; landsat_band "band1.kea" 1;
                landsat_band "refl.kea" 3] in
  (open_landsat_bands bands [] [] 0 (fresh disk)).1 = Ok ([0; 1; 2]%nat, [1; 6; 9])
  ∧ [1; 6; 9] !! 2%nat = Some (7 + 3 - 1) ∧ 7 ≤ 7 + 3 - 1 < 13.
Proof.
  intros bands. split; [vm_compute; reflexivity|].
  refine (landsat_stack_index_addresses_its_own_image bands (fresh disk) [0; 1; 2]%nat
            [1; 6; 9] (open_landsat_bands bands [] [] 0 (fresh disk)).2 _ _ _
            2%nat (landsat_band "refl.kea" 3) _).
  - vm_compute. reflexivity.
  - repeat (apply Forall_cons; split; [simpl; lia|]). apply Forall_nil_2.
  - vm_compute. reflexivity.
  - reflexivity.
Defined.



(** ** Commands over one image *)

Lemma GDALOpen_opened path img w :
  files w !! path = Some img ->
  GDALOpen path w = (Ok (Some (next_handle w)), opened path w).
Proof. intros H. unfold GDALOpen. by rewrite H. Qed.

Lemma GetRasterCount_opened path img w :
  files w !! path = Some img ->
  GetRasterCount (next_handle w) (opened path w) = (Ok (rasterCount img), opened path w).
Proof.
  intros H. unfold GetRasterCount, image_of, opened. cbn [datasets_open files].
  rewrite lookup_insert_eq. cbn [mbind option_bind]. by rewrite H.
Qed.

Lemma GetRasterCount_opened_below path path' img w :
  files w !! path = Some img ->
  GetRasterCount (next_handle w) (opened path' (opened path w))
  = (Ok (rasterCount img), opened path' (opened path w)).
Proof.
  intros H. unfold GetRasterCount, image_of, opened. cbn [datasets_open files next_handle].
  rewrite lookup_insert_ne by lia. rewrite lookup_insert_eq. cbn [mbind option_bind].
  by rewrite H.
Qed.

Lemma close_opened path w :
  handles_fresh w ->
  datasets_open (GDALClose (next_handle w) (opened path w)).2 = datasets_open w.
Proof.
  intros Hw. cbn. rewrite delete_insert_eq. apply delete_id. apply Hw. lia.
Qed.

(** X17. Where the images exist and the band counts disagree, the commands
    that subtract an offset image, subtract single offsets and convert
    WorldView2 data end with their count message as an [RSGISCmdException]
    without a run of the engine, and every dataset they opened stays
    open. *)
Theorem count_mismatch_leaves_the_images_open engine inputImage offsetImage outputImage
    gdalFormat offsetValues wv2RadGainOffs img img' w :
  files w !! inputImage = Some img ->
  files w !! offsetImage = Some img' ->
  (rasterCount img ≠ rasterCount img' ->
   executeApplySubtractOffsets engine inputImage outputImage offsetImage gdalFormat w
   = (Raised (RSGISCmdException
        "The two input images need to have the same number of image bands."),
      opened offsetImage (opened inputImage w)))
  ∧ (to_size_t (rasterCount img) ≠ to_size_t (Z.of_nat (length offsetValues)) ->
     executeApplySubtractSingleOffsets engine inputImage outputImage gdalFormat
       offsetValues w
     = (Raised (RSGISCmdException
          "The two input images need to have the same number of image bands."),
        opened inputImage w))
  ∧ (to_unsigned (rasterCount img) ≠ to_unsigned (Z.of_nat (length wv2RadGainOffs)) ->
     executeConvertWorldView2ToRadiance engine inputImage outputImage gdalFormat
       wv2RadGainOffs w
     = (Raised (RSGISCmdException
          "The number of band coefficients needs to equal the number input image bands."),
        opened inputImage w)).
Proof.
  intros Hf Hf'. split; [|split]; intros Hne.
  - unfold executeApplySubtractOffsets, try_cmd.
    unfold mbind at 1, cmd_bind. rewrite (GDALOpen_opened _ _ _ Hf).
    unfold mbind at 1, cmd_bind.
    assert (files (opened inputImage w) !! offsetImage = Some img') as Hf'' by done.
    rewrite (GDALOpen_opened _ _ _ Hf'').
    unfold mbind at 1, cmd_bind. cbn [next_handle opened].
    rewrite (GetRasterCount_opened_below _ _ _ _ Hf).
    unfold mbind at 1, cmd_bind.
    change (S (next_handle w)) with (next_handle (opened inputImage w)).
    rewrite (GetRasterCount_opened _ _ _ Hf'').
    by rewrite (proj2 (Z.eqb_neq _ _) Hne).
  - unfold executeApplySubtractSingleOffsets, try_cmd.
    unfold mbind at 1, cmd_bind. rewrite (GDALOpen_opened _ _ _ Hf).
    unfold mbind at 1, cmd_bind. rewrite (GetRasterCount_opened _ _ _ Hf).
    by rewrite (proj2 (Z.eqb_neq _ _) Hne).
  - unfold executeConvertWorldView2ToRadiance, try_cmd. cbv zeta.
    unfold mbind at 1, cmd_bind. rewrite (GDALOpen_opened _ _ _ Hf).
    unfold mbind at 1, cmd_bind. rewrite (GetRasterCount_opened _ _ _ Hf).
    by rewrite (proj2 (Z.eqb_neq _ _) Hne).
Qed.

Lemma count_mismatch_leaves_the_images_open_witness :
  executeApplySubtractOffsets engine_ok "refl.kea" "out.kea" "band1.kea" "KEA" (fresh disk)
  = (Raised (RSGISCmdException
       "The two input images need to have the same number of image bands."),
     opened "band1.kea" (opened "refl.kea" (fresh disk)))
  ∧ executeApplySubtractSingleOffsets engine_ok "refl.kea" "out.kea" "KEA"
      [binary64.of_Z 1] (fresh disk)
    = (Raised (RSGISCmdException
         "The two input images need to have the same number of image bands."),
       opened "refl.kea" (fresh disk))
  ∧ executeConvertWorldView2ToRadiance engine_ok "refl.kea" "out.kea" "KEA" [] (fresh disk)
    = (Raised (RSGISCmdException
         "The number of band coefficients needs to equal the number input image bands."),
       opened "refl.kea" (fresh disk)).
Proof.
  destruct (count_mismatch_leaves_the_images_open engine_ok "refl.kea" "band1.kea" "out.kea"
              "KEA" [binary64.of_Z 1] []
              {| rasterCount := 6; integerType := true |}
              {| rasterCount := 1; integerType := true |} (fresh disk))
    as (H1 & H2 & H3).
  - vm_compute. reflexivity.
  - vm_compute. reflexivity.
  - split; [|split]; [apply H1|apply H2|apply H3]; vm_compute; discriminate.
Defined.

Lemma decrement_bands_spec count : ∀ imageBands i,
  (i + count <= length imageBands)%nat ->
  decrement_bands imageBands i count
  = Ret (take i imageBands ++ (one_less <$> take count (drop i imageBands))
         ++ drop (i + count) imageBands).
Proof.
  induction count as [|count IH]; intros l i Hlen; cbn [decrement_bands].
  - rewrite take_0, Nat.add_0_r. cbn [fmap list_fmap app]. by rewrite take_drop.
  - destruct (l !! i) as [b|] eqn:Hb; [|apply lookup_ge_None in Hb; lia].
    rewrite IH by (rewrite length_insert; lia). f_equal.
    rewrite (take_S_r _ _ (one_less b)) by (apply list_lookup_insert_eq; lia).
    rewrite take_insert_ge by lia.
    rewrite !drop_insert_lt by lia.
    rewrite <- app_assoc. f_equal.
    rewrite (drop_S l b i Hb). cbn [take fmap list_fmap app].
    replace (S i + count)%nat with (i + S count)%nat by lia. done.
Qed.

Lemma decrement_bands_all imageBands :
  decrement_bands imageBands 0 (length imageBands) = Ret (one_less <$> imageBands).
Proof.
  rewrite decrement_bands_spec by lia.
  rewrite take_0, drop_0, firstn_all, Nat.add_0_l, drop_all.
  by rewrite app_nil_r.
Qed.

Lemma decrement_bands_short imageBands i count :
  (i <= length imageBands < i + count)%nat ->
  decrement_bands imageBands i count = Undefined.
Proof.
  revert imageBands i. induction count as [|count IH]; intros l i Hlen; [lia|].
  cbn [decrement_bands]. destruct (l !! i) as [b|] eqn:Hb; [|done].
  apply IH. rewrite length_insert. apply lookup_lt_Some in Hb. lia.
Qed.

(** X18. The command for a single set of 6S parameters works on the band
    array of its caller. Where the count differs from the band count of
    the image it leaves the array as it was, closes the image and runs
    nothing; where the array has as many entries as the image has bands it
    lowers every entry by one ([unsigned int]) before the one run of the
    engine, and leaves the array so also when the engine fails. *)
Theorem single_6s_params_shifts_the_callers_bands engine inputImage outputImage gdalFormat
    imageBands numValues img w :
  files w !! inputImage = Some img ->
  handles_fresh w ->
  (numValues ≠ rasterCount img ->
   ∃ w', executeRad2SREFSingle6sParams engine inputImage outputImage gdalFormat
           imageBands numValues w
         = Some (Raised (RSGISCmdException
             "The number of input image bands is not equal to the number coefficients provided."),
                 w', imageBands)
     ∧ datasets_open w' = datasets_open w ∧ runs w' = runs w)
  ∧ (numValues = rasterCount img -> Z.of_nat (length imageBands) = numValues ->
     ∃ r w', executeRad2SREFSingle6sParams engine inputImage outputImage gdalFormat
               imageBands numValues w
             = Some (r, w', one_less <$> imageBands)
       ∧ runs w' = runs w ++ [([next_handle w], outputImage)]
       ∧ (r = Ok tt -> datasets_open w' = datasets_open w)).
Proof.
  intros Hf Hw. unfold executeRad2SREFSingle6sParams.
  rewrite (GDALOpen_opened _ _ _ Hf), (GetRasterCount_opened _ _ _ Hf). split.
  - intros Hne. rewrite (proj2 (Z.eqb_neq _ _) Hne). cbn [negb].
    eexists. split; [reflexivity|]. split; [|done].
    by apply close_opened.
  - intros Heq Hlen. rewrite (proj2 (Z.eqb_eq _ _) Heq). cbn [negb].
    rewrite <- Hlen, Nat2Z.id, decrement_bands_all.
    unfold calcImage. destruct (engine _ _ _) as [e|].
    + eexists _, _. split; [reflexivity|]. split; [done|]. discriminate.
    + eexists _, _. split; [reflexivity|]. split; [done|]. intros _.
      cbn. rewrite delete_insert_eq. apply delete_id. apply Hw. lia.
Qed.

Lemma single_6s_params_shifts_the_callers_bands_witness :
  ∃ r w', executeRad2SREFSingle6sParams engine_ok "refl.kea" "out.kea" "KEA"
            [1; 2; 3; 4; 5; 6] 6 (fresh disk)
          = Some (r, w', [0; 1; 2; 3; 4; 5])
    ∧ runs w' = [([0%nat], "out.kea")]
    ∧ (r = Ok tt -> datasets_open w' = ∅).
Proof.
  apply (proj2 (single_6s_params_shifts_the_callers_bands engine_ok "refl.kea" "out.kea"
           "KEA" [1; 2; 3; 4; 5; 6] 6 {| rasterCount := 6; integerType := true |}
           (fresh disk) ltac:(vm_compute; reflexivity) (handles_fresh_fresh disk)));
    reflexivity.
Defined.

Lemma store_ok {A} (a : list A) i v :
  0 ≤ i < Z.of_nat (length a) -> store a i v = Ret (<[Z.to_nat i:=v]> a).
Proof.
  intros H. unfold store.
  rewrite (proj2 (Z.leb_le _ _)), (proj2 (Z.ltb_lt _ _)) by lia. done.
Qed.

Lemma thermal_coefficients_spec coeffs : ∀ i n k1 k2 names,
  0 ≤ i ≤ n -> i + Z.of_nat (length coeffs) < 2 ^ 32 ->
  Z.of_nat (length k1) = n -> Z.of_nat (length k2) = n -> Z.of_nat (length names) = n ->
  thermal_coefficients coeffs i n k1 k2 names ≠ Undefined
  ∧ ∀ r, thermal_coefficients coeffs i n k1 k2 names = Ret r ->
      (∀ j b, coeffs !! j = Some b -> CmdsLandsatThermalCoeffs.band b = i + Z.of_nat j + 1)
      ∧ i + Z.of_nat (length coeffs) ≤ n.
Proof.
  induction coeffs as [|b coeffs IH]; intros i n k1 k2 names Hi Hlen H1 H2 H3;
    cbn [thermal_coefficients].
  - split; [done|]. intros r _. split; [by intros j b|]. cbn [length]. lia.
  - cbn [length] in Hlen. rewrite (to_unsigned_small (i + 1)) by lia.
    destruct (Z.eqb_spec (CmdsLandsatThermalCoeffs.band b) (i + 1)) as [Hb | Hb];
      cbn [negb]; [|done].
    destruct (Z.ltb_spec n (CmdsLandsatThermalCoeffs.band b)) as [Hn | Hn]; [done|].
    rewrite !store_ok by lia. cbn [mbind outcome_bind].
    destruct (IH (i + 1) n (<[Z.to_nat i:=Some (CmdsLandsatThermalCoeffs.k1 b)]> k1)
                (<[Z.to_nat i:=Some (CmdsLandsatThermalCoeffs.k2 b)]> k2)
                (<[Z.to_nat i:=CmdsLandsatThermalCoeffs.bandName b]> names))
      as [Hdef Hret]; rewrite ?length_insert; try lia.
    split; [done|]. intros r Hr. destruct (Hret r Hr) as [Hbands Hle]. split.
    + intros [|j] b' Hj.
      * injection Hj as <-. lia.
      * change ((b :: coeffs) !! S j) with (coeffs !! j) in Hj.
        rewrite (Hbands j b' Hj). lia.
    + cbn [length]. lia.
Qed.

(** X19. With fewer than 2^32 coefficients for an image that exists, the
    thermal brightness command never writes outside its arrays; where it
    returns normally the coefficients were for the bands 1, 2, 3, ... in
    that order, were no more than the image has bands, and the engine ran
    once, on the image. *)
Theorem thermal_brightness_takes_the_bands_in_order engine inputImage outputImage gdalFormat
    coeffs img w :
  files w !! inputImage = Some img ->
  Z.of_nat (length coeffs) < 2 ^ 32 ->
  (∃ r, executeLandsatThermalRad2ThermalBrightness engine inputImage outputImage gdalFormat
          coeffs w = Some r)
  ∧ (∀ w', executeLandsatThermalRad2ThermalBrightness engine inputImage outputImage
             gdalFormat coeffs w = Some (Ok tt, w') ->
       (∀ j b, coeffs !! j = Some b ->
          CmdsLandsatThermalCoeffs.band b = Z.of_nat j + 1)
       ∧ Z.of_nat (length coeffs) ≤ to_unsigned (rasterCount img)
       ∧ runs w' = runs w ++ [([next_handle w], outputImage)]).
Proof.
  intros Hf Hlen.
  remember (executeLandsatThermalRad2ThermalBrightness engine inputImage outputImage
              gdalFormat coeffs w) as X eqn:HX.
  unfold executeLandsatThermalRad2ThermalBrightness, try_xcmd in HX.
  unfold mbind at 1, xcmd_bind, defined in HX.
  rewrite (GDALOpen_opened _ _ _ Hf) in HX.
  unfold mbind at 1, xcmd_bind in HX. rewrite (GetRasterCount_opened _ _ _ Hf) in HX.
  cbv zeta in HX.
  pose proof (to_unsigned_range (rasterCount img)) as Hr.
  set (n := to_unsigned (rasterCount img)) in *.
  destruct (thermal_coefficients_spec coeffs 0 n (replicate (Z.to_nat n) None)
              (replicate (Z.to_nat n) None) (replicate (Z.to_nat n) ""))
    as [Hdef Hret]; rewrite ?length_replicate; try lia.
  unfold mbind at 1, xcmd_bind, on_arrays in HX.
  destruct (thermal_coefficients _ _ _ _ _ _) as [r|e|]; [| |done].
  - destruct (Hret r eq_refl) as [Hbands Hle].
    unfold mbind, xcmd_bind, calcImage in HX. destruct (engine _ _ _) as [e|]; subst X.
    + split; [by eexists|]. intros w'. discriminate.
    + split; [by eexists|]. intros w' [= <-]. split; [|split; [lia|done]].
      intros j b Hj. rewrite (Hbands j b Hj). lia.
  - subst X. split; [by eexists|]. intros w'. discriminate.
Qed.

Lemma thermal_brightness_takes_the_bands_in_order_witness :
  let r := executeLandsatThermalRad2ThermalBrightness engine_ok "thermal.kea" "out.kea" "KEA"
             [thermal_band 1] (fresh disk) in
  (∃ x, r = Some x)
  ∧ (∀ w', r = Some (Ok tt, w') ->
       (∀ j b, [thermal_band 1] !! j = Some b ->
          CmdsLandsatThermalCoeffs.band b = Z.of_nat j + 1)
       ∧ 1 ≤ 1
       ∧ runs w' = [([0%nat], "out.kea")]).
Proof.
  apply (thermal_brightness_takes_the_bands_in_order engine_ok "thermal.kea" "out.kea" "KEA"
           [thermal_band 1] {| rasterCount := 1; integerType := true |} (fresh disk)).
  - vm_compute. reflexivity.
  - simpl. lia.
Defined.

Lemma spot5_band_names_spec coeffs : ∀ names,
  Forall (λ b, 1 ≤ CmdsSPOTRadianceGainsOffsets.band b ≤ 4) coeffs ->
  (Forall (λ b, CmdsSPOTRadianceGainsOffsets.band b ≤ Z.of_nat (length names)) coeffs ->
   spot5_band_names coeffs names
   = Ret (foldl name_band names coeffs))
  ∧ (Exists (λ b, Z.of_nat (length names) < CmdsSPOTRadianceGainsOffsets.band b) coeffs ->
     spot5_band_names coeffs names = Undefined).
Proof.
  induction coeffs as [|b coeffs IH]; intros names Hv; cbn [spot5_band_names foldl].
  - split; [done|]. by intros ?%Exists_nil.
  - apply Forall_cons in Hv as [Hb Hv].
    rewrite (proj2 (Z.ltb_ge _ _)), (proj2 (Z.ltb_ge _ _)) by lia. cbn [orb].
    destruct (Z.le_gt_cases (CmdsSPOTRadianceGainsOffsets.band b) (Z.of_nat (length names)))
      as [Hin | Hout].
    + rewrite store_ok by lia. cbn [mbind outcome_bind].
      destruct (IH (name_band names b) Hv) as [Hok Hbad].
      unfold name_band at 1 3 in Hok. unfold name_band at 1 in Hbad.
      rewrite length_insert in Hok, Hbad. split.
      * intros [_ Hall]%Forall_cons. by apply Hok.
      * intros [?|Hex]%Exists_cons; [lia|]. by apply Hbad.
    + split.
      * intros [? _]%Forall_cons. lia.
      * intros _. unfold store.
        rewrite (proj2 (Z.ltb_ge _ _)) by lia. by rewrite andb_false_r.
Qed.

Lemma length_name_bands coeffs : ∀ names,
  length (foldl name_band names coeffs) = length names.
Proof.
  induction coeffs as [|b coeffs IH]; intros names; cbn [foldl]; [done|].
  rewrite IH. apply length_insert.
Qed.

Lemma name_bands_other coeffs : ∀ names (v : Z),
  1 ≤ v ->
  Forall (λ b, 1 ≤ CmdsSPOTRadianceGainsOffsets.band b) coeffs ->
  v ∉ CmdsSPOTRadianceGainsOffsets.band <$> coeffs ->
  foldl name_band names coeffs !! Z.to_nat (v - 1) = names !! Z.to_nat (v - 1).
Proof.
  induction coeffs as [|b coeffs IH]; intros names v Hv Hpos Hnot; cbn [foldl]; [done|].
  apply Forall_cons in Hpos as [Hb Hpos].
  rewrite fmap_cons, not_elem_of_cons in Hnot. destruct Hnot as [Hne Hnot].
  rewrite IH by done. unfold name_band. apply list_lookup_insert_ne. lia.
Qed.

Lemma name_bands_lookup coeffs : ∀ names b,
  Forall (λ b, 1 ≤ CmdsSPOTRadianceGainsOffsets.band b ≤ Z.of_nat (length names)) coeffs ->
  NoDup (CmdsSPOTRadianceGainsOffsets.band <$> coeffs) ->
  b ∈ coeffs ->
  foldl name_band names coeffs !! Z.to_nat (CmdsSPOTRadianceGainsOffsets.band b - 1)
  = Some (CmdsSPOTRadianceGainsOffsets.bandName b).
Proof.
  induction coeffs as [|b0 coeffs IH]; intros names b Hr Hnd Hin; [by apply elem_of_nil in Hin|].
  cbn [foldl]. apply Forall_cons in Hr as [Hb0 Hr].
  rewrite fmap_cons in Hnd. apply NoDup_cons in Hnd as [Hnot Hnd].
  apply elem_of_cons in Hin as [-> | Hin].
  - rewrite name_bands_other; [|lia| |done].
    + unfold name_band. apply list_lookup_insert_eq. lia.
    + eapply Forall_impl; [exact Hr|]. cbn. lia.
  - apply IH; [|done..]. unfold name_band. by rewrite length_insert.
Qed.

(** X20. The SPOT5 command sizes its array of band names by the number of
    coefficients and indexes it by band number. With the band numbers
    between 1 and 4 and as many coefficients as the image has bands, a
    band number above the number of coefficients makes the command write
    outside the array; where the command returns normally and the band
    numbers differ from one another, each name is at the place of its
    band. *)
Theorem spot5_band_names_follow_the_band_numbers engine inputImage outputImage gdalFormat
    coeffs img w :
  files w !! inputImage = Some img ->
  Z.of_nat (length coeffs) < 2 ^ 32 ->
  to_unsigned (rasterCount img) = Z.of_nat (length coeffs) ->
  Forall (λ b, 1 ≤ CmdsSPOTRadianceGainsOffsets.band b ≤ 4) coeffs ->
  ((∃ b, b ∈ coeffs ∧ Z.of_nat (length coeffs) < CmdsSPOTRadianceGainsOffsets.band b) ->
   executeConvertSPOT5ToRadiance engine inputImage outputImage gdalFormat coeffs w = None)
  ∧ (∀ names w',
       executeConvertSPOT5ToRadiance engine inputImage outputImage gdalFormat coeffs w
         = Some (Ok names, w') ->
       length names = length coeffs
       ∧ (NoDup (CmdsSPOTRadianceGainsOffsets.band <$> coeffs) ->
          ∀ b, b ∈ coeffs ->
            names !! Z.to_nat (CmdsSPOTRadianceGainsOffsets.band b - 1)
            = Some (CmdsSPOTRadianceGainsOffsets.bandName b))).
Proof.
  intros Hf Hlen Hcount Hv.
  remember (executeConvertSPOT5ToRadiance engine inputImage outputImage gdalFormat coeffs w)
    as X eqn:HX.
  unfold executeConvertSPOT5ToRadiance, try_xcmd in HX. cbv zeta in HX.
  unfold mbind at 1, xcmd_bind, defined in HX.
  rewrite (GDALOpen_opened _ _ _ Hf) in HX.
  unfold mbind at 1, xcmd_bind in HX. rewrite (GetRasterCount_opened _ _ _ Hf) in HX.
  rewrite (to_unsigned_small (Z.of_nat (length coeffs))) in HX by lia.
  rewrite Hcount, Z.eqb_refl, Nat2Z.id in HX. cbn [negb] in HX.
  destruct (spot5_band_names_spec coeffs (replicate (length coeffs) "") Hv) as [Hok Hbad].
  rewrite length_replicate in Hok, Hbad.
  unfold mbind at 1, xcmd_bind, on_arrays in HX. split.
  - intros (b & Hin & Hb). rewrite Hbad in HX; [done|].
    apply Exists_exists. by exists b.
  - intros names w' ->.
    destruct (decide (Forall (λ b, CmdsSPOTRadianceGainsOffsets.band b
                                   ≤ Z.of_nat (length coeffs)) coeffs)) as [Hall | Hex].
    + rewrite (Hok Hall) in HX.
      unfold mbind, xcmd_bind, calcImage in HX. destruct (engine _ _ _); [discriminate|].
      unfold GDALClose, mret, xcmd_ret in HX. injection HX as -> _.
      split; [by rewrite length_name_bands, length_replicate|].
      intros Hnd b Hin. apply name_bands_lookup; [|done..].
      rewrite length_replicate. rewrite Forall_forall in Hv, Hall |- *.
      intros b' Hb'. specialize (Hv b' Hb'). specialize (Hall b' Hb'). lia.
    + apply not_Forall_Exists in Hex; [|intros b; apply _].
      rewrite Hbad in HX; [done|].
      eapply Exists_impl; [exact Hex|]. cbn. lia.
Qed.

(** One coefficient, for band 3 of an image of one band. *)
Lemma spot5_band_names_follow_the_band_numbers_witness :
  executeConvertSPOT5ToRadiance engine_ok "thermal.kea" "out.kea" "KEA"
    [spot_band "nir" 3] (fresh disk) = None.
Proof.
  refine (proj1 (spot5_band_names_follow_the_band_numbers engine_ok "thermal.kea" "out.kea"
           "KEA" [spot_band "nir" 3] {| rasterCount := 1; integerType := true |}
           (fresh disk) _ _ _ _) _).
  - vm_compute. reflexivity.
  - simpl. lia.
  - reflexivity.
  - apply Forall_cons. split; [simpl; lia|]. apply Forall_nil_2.
  - exists (spot_band "nir" 3). split; [apply list_elem_of_here|simpl; lia].
Defined.
